(** * FocusFlow backend: entity store, CRUD controllers and sync reconciler

    A shallow embedding of the Express/Prisma controllers
    (projectController, goalController, taskController, syncController)
    over an explicit model of the three tables of the schema
    ([projects], [goals], [tasks]), followed by the properties of the
    specification that were checked against them. *)

From Stdlib Require Import List ZArith Bool String Ascii Lia.
From Stdlib Require Import Permutation Sorted Relations RelationClasses.
Import ListNotations.

Set Implicit Arguments.
Local Open Scope Z_scope.
Local Open Scope list_scope.

(* ================================================================== *)
(** ** Data model (prisma/migrations/.../migration.sql) *)
(* ================================================================== *)

(** Row identifiers are TEXT primary keys (cuid strings). *)
Definition Id := string.
Bind Scope string_scope with Id.

(** TIMESTAMP(3): milliseconds since the epoch. *)
Definition Timestamp := Z.

(** [UrgencySchema = z.enum(['LAAG', 'MIDDEN', 'HOOG'])]; the column
    itself is TEXT and holds the token. *)
Inductive Urgency : Type := LAAG | MIDDEN | HOOG.

Definition urgency_token (u : Urgency) : string :=
  match u with
  | LAAG => "LAAG"
  | MIDDEN => "MIDDEN"
  | HOOG => "HOOG"
  end.

Record Project : Type := mkProject
  { p_id : Id;
    p_name : string;
    p_createdAt : Timestamp;
    p_updatedAt : Timestamp;
    p_deletedAt : option Timestamp }.

Record Goal : Type := mkGoal
  { g_id : Id;
    g_projectId : Id;
    g_name : string;
    g_createdAt : Timestamp;
    g_updatedAt : Timestamp;
    g_deletedAt : option Timestamp }.

Record Task : Type := mkTask
  { t_id : Id;
    t_goalId : Id;
    t_name : string;
    t_completed : bool;
    t_urgency : Urgency;
    t_todaysFocus : bool;
    t_createdAt : Timestamp;
    t_updatedAt : Timestamp;
    t_completedAt : option Timestamp;
    t_deletedAt : option Timestamp }.

(** The database: one list of rows per table, in insertion order. *)
Record Store : Type := mkStore
  { projects : list Project;
    goals : list Goal;
    tasks : list Task }.

Definition set_projects (l : list Project) (s : Store) : Store :=
  mkStore l (goals s) (tasks s).
Definition set_goals (l : list Goal) (s : Store) : Store :=
  mkStore (projects s) l (tasks s).
Definition set_tasks (l : list Task) (s : Store) : Store :=
  mkStore (projects s) (goals s) l.

Definition empty_store : Store := mkStore [] [] [].

(** [deletedAt: null] in a Prisma [where]. *)
Definition is_null {A : Type} (o : option A) : bool :=
  match o with
  | None => true
  | Some _ => false
  end.

(** JavaScript truthiness of an optional string: [undefined] and the
    empty string are falsy.  [client_id o] is the identifier the
    controller works with after an [if (!x.id)] test has failed. *)
Definition client_id (o : option Id) : option Id :=
  match o with
  | Some s => if String.eqb s EmptyString then None else Some s
  | None => None
  end.

(* ================================================================== *)
(** ** The world a request handler runs in *)
(* ================================================================== *)

(** Besides the database a handler observes the wall clock
    ([new Date()], the engine's [now()], [@updatedAt]) and the id
    generator ([cuid()]).  Both are modelled as oracles indexed by the
    number of draws made so far.  [budget] counts the write round trips
    the database will still accept before it fails
    ([None]: it never fails). *)
Record World : Type := mkWorld
  { db : Store;
    clock : nat -> Timestamp;
    reads : nat;
    cuid : nat -> Id;
    issued : nat;
    budget : option nat }.

Definition set_db (s : Store) (w : World) : World :=
  mkWorld s (clock w) (reads w) (cuid w) (issued w) (budget w).

(** Errors a handler can end with (src/utils/errors.ts). *)
Inductive Failure : Type :=
| NotFoundError (resource : string) (id : Id)   (* AppError 404 *)
| RecordNotFound                                 (* Prisma P2025 *)
| ForeignKeyViolation                            (* Prisma P2003 *)
| ValidationFailure                              (* Prisma/Zod validation *)
| StoreFailure.                                  (* the database refused a write *)

Inductive Outcome (A : Type) : Type :=
| Ok (a : A)
| Thrown (e : Failure).
Arguments Ok {A} a.
Arguments Thrown {A} e.

(** Handlers are state transformers that may throw; on a throw the
    world is the one reached when the exception was raised. *)
Definition M (A : Type) : Type := World -> Outcome A * World.

Definition ret {A : Type} (a : A) : M A := fun w => (Ok a, w).

Definition throw {A : Type} (e : Failure) : M A := fun w => (Thrown e, w).

Definition bind {A B : Type} (m : M A) (k : A -> M B) : M B :=
  fun w =>
    match m w with
    | (Ok a, w') => k a w'
    | (Thrown e, w') => (Thrown e, w')
    end.

Notation "x <- m ;; k" := (bind m (fun x => k))
  (at level 61, m at next level, right associativity).
Notation "m ;;; k" := (bind m (fun _ => k))
  (at level 61, right associativity).

(** [for (const x of xs) { ... }] threading an accumulator. *)
Fixpoint foldM {A B : Type} (f : A -> B -> M A) (a : A) (l : list B) : M A :=
  match l with
  | [] => ret a
  | x :: l' => a' <- f a x ;; foldM f a' l'
  end.

Definition getStore : M Store := fun w => (Ok (db w), w).

Definition putStore (s : Store) : M unit := fun w => (Ok tt, set_db s w).

(** [new Date()] and the engine's [now()]: the next clock reading. *)
Definition newDate : M Timestamp :=
  fun w =>
    (Ok (clock w (reads w)),
     mkWorld (db w) (clock w) (S (reads w)) (cuid w) (issued w) (budget w)).

(** Reserve [n] consecutive identifiers; returns the index of the first. *)
Definition reserveIds (n : nat) : M nat :=
  fun w =>
    (Ok (issued w),
     mkWorld (db w) (clock w) (reads w) (cuid w) (issued w + n)%nat (budget w)).

(** One mutating round trip to the database. *)
Definition write : M unit :=
  fun w =>
    match budget w with
    | None => (Ok tt, w)
    | Some O => (Thrown StoreFailure, w)
    | Some (S n) =>
        (Ok tt, mkWorld (db w) (clock w) (reads w) (cuid w) (issued w) (Some n))
    end.

(** [prisma.$transaction(async (tx) => { ... })]: when the callback
    throws, every write it made is rolled back. *)
Definition transaction {A : Type} (body : M A) : M A :=
  fun w =>
    match body w with
    | (Ok a, w') => (Ok a, w')
    | (Thrown e, w') => (Thrown e, set_db (db w) w')
    end.

(* ================================================================== *)
(** ** Prisma client over the store *)
(* ================================================================== *)

(** The calls the controllers make on the Prisma client, over the
    tables of migration.sql.  The client itself and schema.prisma are
    not part of the sources: what they contribute (generated ids,
    [createdAt] and [updatedAt] stamps) follows the Entity Store
    contract of the specification, section 4.1; foreign keys are those
    of migration.sql. *)
Module Prisma.

(** *** Reads *)

Definition project_findUnique (s : Store) (id : Id) : option Project :=
  find (fun p => String.eqb (p_id p) id) (projects s).

Definition project_findFirst (s : Store) (id : Id) : option Project :=
  find (fun p => String.eqb (p_id p) id && is_null (p_deletedAt p)) (projects s).

Definition goal_findFirst (s : Store) (id : Id) : option Goal :=
  find (fun g => String.eqb (g_id g) id && is_null (g_deletedAt g)) (goals s).

Definition task_findFirst (s : Store) (id : Id) : option Task :=
  find (fun t => String.eqb (t_id t) id && is_null (t_deletedAt t)) (tasks s).

(** [ORDER BY]: a stable insertion sort on a three-way comparison;
    [x] is placed before the first row that does not precede it.  The
    database leaves the order of rows that tie on every key open (and
    may change it after an UPDATE); the sort here keeps them in table
    order.  What is stated below about a listing is therefore stated up
    to that order: that it holds the selected rows and that it is
    sorted, never that two listings taken from different stores are
    equal as lists. *)
Fixpoint insert_by {A : Type} (cmp : A -> A -> comparison) (x : A) (l : list A) : list A :=
  match l with
  | [] => [x]
  | y :: l' =>
      match cmp x y with
      | Gt => y :: insert_by cmp x l'
      | _ => x :: l
      end
  end.

Definition orderBy {A : Type} (cmp : A -> A -> comparison) (l : list A) : list A :=
  fold_right (insert_by cmp) [] l.

(** *** Row construction *)

(** The scalar fields a task create or a sync update supplies. *)
Record TaskData : Type := mkTaskData
  { td_name : string;
    td_completed : bool;
    td_urgency : Urgency;
    td_todaysFocus : bool;
    td_completedAt : option Timestamp }.

(** Modelled from the spec: [create] assigns id, createdAt and
    updatedAt (the column defaults of schema.prisma); a new row is not
    deleted. *)
Definition new_task (id gid : Id) (now : Timestamp) (d : TaskData) : Task :=
  mkTask id gid (td_name d) (td_completed d) (td_urgency d) (td_todaysFocus d)
         now now (td_completedAt d) None.

(** Modelled from the spec: [create] assigns id, createdAt and
    updatedAt. *)
Definition new_goal (id pid : Id) (now : Timestamp) (name : string) : Goal :=
  mkGoal id pid name now now None.

(** Modelled from the spec: [create] assigns id, createdAt and
    updatedAt. *)
Definition new_project (id : Id) (now : Timestamp) (name : string) : Project :=
  mkProject id name now now None.

(** [tasks: { create: [...] }] under a goal: ids [gen k], [gen (k+1)], ... *)
Fixpoint build_tasks (gen : nat -> Id) (k : nat) (gid : Id) (now : Timestamp)
         (ds : list TaskData) : list Task :=
  match ds with
  | [] => []
  | d :: ds' => new_task (gen k) gid now d :: build_tasks gen (S k) gid now ds'
  end.

(** [goals: { create: [...] }] under a project: each goal takes one id,
    then its tasks take theirs. *)
Fixpoint build_goals (gen : nat -> Id) (k : nat) (pid : Id) (now : Timestamp)
         (gs : list (string * list TaskData)) : list Goal * list Task :=
  match gs with
  | [] => ([], [])
  | (name, ds) :: gs' =>
      let g := new_goal (gen k) pid now name in
      let ts := build_tasks gen (S k) (g_id g) now ds in
      let rest := build_goals gen (S k + List.length ds)%nat pid now gs' in
      (g :: fst rest, ts ++ snd rest)
  end.

Definition subtree_size (gs : list (string * list TaskData)) : nat :=
  fold_right (fun g n => (S (List.length (snd g)) + n)%nat) O gs.

(** *** Writes *)

(** [prisma.project.create({ data: { name, goals: { create } } })]:
    one nested write, the whole subtree is inserted together. *)
Definition project_create (name : string) (gs : list (string * list TaskData)) : M Project :=
  write ;;;
  now <- newDate ;;
  k <- reserveIds (S (subtree_size gs)) ;;
  fun w =>
    let p := new_project (cuid w k) now name in
    let sub := build_goals (cuid w) (S k) (p_id p) now gs in
    let s := db w in
    (Ok p, set_db (mkStore (projects s ++ [p]) (goals s ++ fst sub) (tasks s ++ snd sub)) w).

(** [prisma.goal.create({ data: { projectId, name, tasks: { create } } })];
    goals_projectId_fkey requires the project row to exist. *)
Definition goal_create (pid : Id) (name : string) (ds : list TaskData) : M Goal :=
  write ;;;
  s <- getStore ;;
  match project_findUnique s pid with
  | None => throw ForeignKeyViolation
  | Some _ =>
      now <- newDate ;;
      k <- reserveIds (S (List.length ds)) ;;
      fun w =>
        let g := new_goal (cuid w k) pid now name in
        let ts := build_tasks (cuid w) (S k) (g_id g) now ds in
        (Ok g, set_db (mkStore (projects s) (goals s ++ [g]) (tasks s ++ ts)) w)
  end.

(** [prisma.task.create({ data: { goalId, ... } })];
    tasks_goalId_fkey requires the goal row to exist. *)
Definition task_create (gid : Id) (d : TaskData) : M Task :=
  write ;;;
  s <- getStore ;;
  match find (fun g => String.eqb (g_id g) gid) (goals s) with
  | None => throw ForeignKeyViolation
  | Some _ =>
      now <- newDate ;;
      k <- reserveIds 1 ;;
      fun w =>
        let t := new_task (cuid w k) gid now d in
        (Ok t, set_db (set_tasks (tasks s ++ [t]) s) w)
  end.

(** Modelled from the spec: [update] bumps updatedAt (the [@updatedAt]
    columns of schema.prisma), on projects, goals and tasks alike. *)
Definition touch_project (now : Timestamp) (p : Project) : Project :=
  mkProject (p_id p) (p_name p) (p_createdAt p) now (p_deletedAt p).

(** Modelled from the spec: [update] bumps updatedAt. *)
Definition touch_goal (now : Timestamp) (g : Goal) : Goal :=
  mkGoal (g_id g) (g_projectId g) (g_name g) (g_createdAt g) now (g_deletedAt g).

(** Modelled from the spec: [update] bumps updatedAt. *)
Definition touch_task (now : Timestamp) (t : Task) : Task :=
  mkTask (t_id t) (t_goalId t) (t_name t) (t_completed t) (t_urgency t)
         (t_todaysFocus t) (t_createdAt t) now (t_completedAt t) (t_deletedAt t).

(** [prisma.project.update({ where: { id }, data })]: [data] is the
    function [f]; updatedAt is bumped; P2025 when no row has the id. *)
Definition project_update (id : Id) (f : Project -> Project) : M Project :=
  write ;;;
  s <- getStore ;;
  match project_findUnique s id with
  | None => throw RecordNotFound
  | Some p0 =>
      now <- newDate ;;
      putStore (set_projects
                  (map (fun p => if String.eqb (p_id p) id
                                 then touch_project now (f p) else p)
                       (projects s)) s) ;;;
      ret (touch_project now (f p0))
  end.

Definition goal_update (id : Id) (f : Goal -> Goal) : M Goal :=
  write ;;;
  s <- getStore ;;
  match find (fun g => String.eqb (g_id g) id) (goals s) with
  | None => throw RecordNotFound
  | Some g0 =>
      now <- newDate ;;
      putStore (set_goals
                  (map (fun g => if String.eqb (g_id g) id
                                 then touch_goal now (f g) else g)
                       (goals s)) s) ;;;
      ret (touch_goal now (f g0))
  end.

Definition task_update (id : Id) (f : Task -> Task) : M Task :=
  write ;;;
  s <- getStore ;;
  match find (fun t => String.eqb (t_id t) id) (tasks s) with
  | None => throw RecordNotFound
  | Some t0 =>
      now <- newDate ;;
      putStore (set_tasks
                  (map (fun t => if String.eqb (t_id t) id
                                 then touch_task now (f t) else t)
                       (tasks s)) s) ;;;
      ret (touch_task now (f t0))
  end.

(** [updateMany({ where, data })]: every row selected by [sel] is
    rewritten; no error when none is. *)
Definition goal_updateMany (sel : Store -> Goal -> bool) (f : Goal -> Goal) : M unit :=
  write ;;;
  s <- getStore ;;
  now <- newDate ;;
  putStore (set_goals
              (map (fun g => if sel s g then touch_goal now (f g) else g) (goals s)) s).

Definition task_updateMany (sel : Store -> Task -> bool) (f : Task -> Task) : M unit :=
  write ;;;
  s <- getStore ;;
  now <- newDate ;;
  putStore (set_tasks
              (map (fun t => if sel s t then touch_task now (f t) else t) (tasks s)) s).

End Prisma.

(* ================================================================== *)
(** ** Hierarchy reads shared by the controllers *)
(* ================================================================== *)

Record GoalNode : Type := mkGoalNode
  { gn_goal : Goal;
    gn_tasks : list Task }.

Record ProjectNode : Type := mkProjectNode
  { pn_project : Project;
    pn_goals : list GoalNode }.

(** Three-way comparisons for [orderBy] lists. *)
Definition cmp_bool (a b : bool) : comparison :=
  match a, b with
  | false, true => Lt
  | true, false => Gt
  | _, _ => Eq
  end.

Definition lex (c1 c2 : comparison) : comparison :=
  match c1 with
  | Eq => c2
  | _ => c1
  end.

Definition asc (c : comparison) : comparison := c.
Definition desc (c : comparison) : comparison := CompOpp c.

(** [[{ todaysFocus: 'desc' }, { completed: 'asc' }, { createdAt: 'desc' }]] *)
Definition task_list_order (a b : Task) : comparison :=
  lex (desc (cmp_bool (t_todaysFocus a) (t_todaysFocus b)))
      (lex (asc (cmp_bool (t_completed a) (t_completed b)))
           (desc (Z.compare (t_createdAt a) (t_createdAt b)))).

(** [[{ completed: 'asc' }, { urgency: 'desc' }, { createdAt: 'desc' }]];
    urgency is a TEXT column, compared as text. *)
Definition todays_focus_order (a b : Task) : comparison :=
  lex (asc (cmp_bool (t_completed a) (t_completed b)))
      (lex (desc (String.compare (urgency_token (t_urgency a))
                                 (urgency_token (t_urgency b))))
           (desc (Z.compare (t_createdAt a) (t_createdAt b)))).

Definition goal_createdAt_asc (a b : Goal) : comparison :=
  asc (Z.compare (g_createdAt a) (g_createdAt b)).

Definition project_createdAt_asc (a b : Project) : comparison :=
  asc (Z.compare (p_createdAt a) (p_createdAt b)).

(** [tasks: { where: { deletedAt: null } }] under a goal. *)
Definition live_tasks_of (s : Store) (gid : Id) : list Task :=
  filter (fun t => String.eqb (t_goalId t) gid && is_null (t_deletedAt t)) (tasks s).

(** [goals: { where: { deletedAt: null } }] under a project. *)
Definition live_goals_of (s : Store) (pid : Id) : list Goal :=
  filter (fun g => String.eqb (g_projectId g) pid && is_null (g_deletedAt g)) (goals s).

(** The [include] without [orderBy] (syncData, lines 29-38 and 77-86). *)
Definition include_tree (s : Store) (p : Project) : ProjectNode :=
  mkProjectNode p
    (map (fun g => mkGoalNode g (live_tasks_of s (g_id g)))
         (live_goals_of s (p_id p))).

(** The [include] with the list orderings (getAllProjects, and
    syncData lines 179-194). *)
Definition include_tree_ordered (s : Store) (p : Project) : ProjectNode :=
  mkProjectNode p
    (map (fun g => mkGoalNode g (Prisma.orderBy task_list_order (live_tasks_of s (g_id g))))
         (Prisma.orderBy goal_createdAt_asc (live_goals_of s (p_id p)))).

(** [prisma.project.findMany({ where: { deletedAt: null }, include, orderBy })] *)
Definition full_hierarchy (s : Store) : list ProjectNode :=
  map (include_tree_ordered s)
      (Prisma.orderBy project_createdAt_asc
         (filter (fun p => is_null (p_deletedAt p)) (projects s))).

(* ================================================================== *)
(** ** taskController *)
(* ================================================================== *)

(** [TaskQuerySchema] after parsing; ['true'] / ['false'] are kept as
    the boolean they denote (both strings are truthy). *)
Record TaskQuery : Type := mkTaskQuery
  { q_goalId : option Id;
    q_urgency : option Urgency;
    q_todaysFocus : option bool;
    q_completed : option bool }.

Definition urgency_eqb (a b : Urgency) : bool :=
  String.eqb (urgency_token a) (urgency_token b).

Definition opt_test {A : Type} (o : option A) (f : A -> bool) : bool :=
  match o with
  | Some a => f a
  | None => true
  end.

(** The [where] of getAllTasks. *)
Definition task_query_where (q : TaskQuery) (t : Task) : bool :=
  is_null (t_deletedAt t)
  && opt_test (client_id (q_goalId q)) (fun g => String.eqb (t_goalId t) g)
  && opt_test (q_urgency q) (fun u => urgency_eqb (t_urgency t) u)
  && opt_test (q_todaysFocus q) (fun b => Bool.eqb (t_todaysFocus t) b)
  && opt_test (q_completed q) (fun b => Bool.eqb (t_completed t) b).

(** A task with [include: { goal: { include: { project: true } } }]. *)
Record TaskView : Type := mkTaskView
  { tv_task : Task;
    tv_goal : option Goal;
    tv_project : option Project }.

Definition task_view (s : Store) (t : Task) : TaskView :=
  let g := find (fun g => String.eqb (g_id g) (t_goalId t)) (goals s) in
  mkTaskView t g
    (match g with
     | Some g' => Prisma.project_findUnique s (g_projectId g')
     | None => None
     end).

(** GET /api/tasks *)
Definition getAllTasks (q : TaskQuery) : M (list TaskView) :=
  s <- getStore ;;
  ret (map (task_view s)
           (Prisma.orderBy task_list_order (filter (task_query_where q) (tasks s)))).

(** GET /api/tasks/today *)
Definition getTodaysTasks : M (list TaskView) :=
  s <- getStore ;;
  ret (map (task_view s)
           (Prisma.orderBy todays_focus_order
              (filter (fun t => is_null (t_deletedAt t) && Bool.eqb (t_todaysFocus t) true)
                      (tasks s)))).

(** [CreateTaskSchema] after parsing; the optional [id] is ignored by
    the handler, [null] and [undefined] urgency both fall to the
    default. *)
Record CreateTask : Type := mkCreateTask
  { c_goalId : Id;
    c_name : string;
    c_urgency : option Urgency;
    c_todaysFocus : option bool;
    c_completed : option bool }.

Definition or_default {A : Type} (o : option A) (d : A) : A :=
  match o with
  | Some a => a
  | None => d
  end.

(** POST /api/tasks *)
Definition createTask (v : CreateTask) : M Task :=
  s <- getStore ;;
  match Prisma.goal_findFirst s (c_goalId v) with
  | None => throw (NotFoundError "Goal" (c_goalId v))
  | Some _ =>
      Prisma.task_create (c_goalId v)
        (Prisma.mkTaskData (c_name v)
           (or_default (c_completed v) false)
           (or_default (c_urgency v) MIDDEN)
           (or_default (c_todaysFocus v) false)
           None)
  end.

(** [UpdateTaskSchema] after parsing.  [u_urgency = Some None] is an
    explicit [null]. *)
Record UpdateTask : Type := mkUpdateTask
  { u_name : option string;
    u_urgency : option (option Urgency);
    u_todaysFocus : option bool;
    u_completed : option bool;
    u_goalId : option Id }.

(** [data: updateData]: the fields present in the request, plus
    [completedAt] when the handler set it ([stamp = Some v]). *)
Definition apply_update (v : UpdateTask) (stamp : option (option Timestamp))
           (t : Task) : Task :=
  mkTask (t_id t)
         (or_default (u_goalId v) (t_goalId t))
         (or_default (u_name v) (t_name t))
         (or_default (u_completed v) (t_completed t))
         (match u_urgency v with
          | Some (Some u) => u
          | _ => t_urgency t
          end)
         (or_default (u_todaysFocus v) (t_todaysFocus t))
         (t_createdAt t)
         (t_updatedAt t)
         (or_default stamp (t_completedAt t))
         (t_deletedAt t).

(** PUT /api/tasks/:id *)
Definition updateTask (id : Id) (v : UpdateTask) : M Task :=
  s <- getStore ;;
  match Prisma.task_findFirst s id with
  | None => throw (NotFoundError "Task" id)
  | Some existingTask =>
      (match client_id (u_goalId v) with
       | Some gid =>
           match Prisma.goal_findFirst s gid with
           | None => throw (NotFoundError "Goal" gid)
           | Some _ => ret tt
           end
       | None => ret tt
       end) ;;;
      (* Handle completion timestamp *)
      stamp <- (match u_completed v with
                | Some c =>
                    if c && negb (t_completed existingTask)
                    then now <- newDate ;; ret (Some (Some now))
                    else if negb c && t_completed existingTask
                         then ret (Some None)
                         else ret None
                | None => ret None
                end) ;;
      match u_urgency v with
      | Some None => throw ValidationFailure  (* null for a required column *)
      | _ => Prisma.task_update id (apply_update v stamp)
      end
  end.

Definition mark_task_deleted (d : Timestamp) (t : Task) : Task :=
  mkTask (t_id t) (t_goalId t) (t_name t) (t_completed t) (t_urgency t)
         (t_todaysFocus t) (t_createdAt t) (t_updatedAt t) (t_completedAt t) (Some d).

(** DELETE /api/tasks/:id *)
Definition deleteTask (id : Id) : M Id :=
  s <- getStore ;;
  match Prisma.task_findFirst s id with
  | None => throw (NotFoundError "Task" id)
  | Some _ =>
      d <- newDate ;;
      Prisma.task_update id (mark_task_deleted d) ;;;
      ret id
  end.

(* ================================================================== *)
(** ** goalController *)
(* ================================================================== *)

(** [CreateGoalSchema] after parsing. *)
Record CreateGoal : Type := mkCreateGoal
  { cgl_projectId : Id;
    cgl_name : string }.

(** POST /api/goals *)
Definition createGoal (v : CreateGoal) : M Goal :=
  s <- getStore ;;
  match Prisma.project_findFirst s (cgl_projectId v) with
  | None => throw (NotFoundError "Project" (cgl_projectId v))
  | Some _ => Prisma.goal_create (cgl_projectId v) (cgl_name v) []
  end.

(** [UpdateGoalSchema] after parsing. *)
Record UpdateGoal : Type := mkUpdateGoal
  { ug_name : option string;
    ug_projectId : option Id }.

Definition apply_goal_update (v : UpdateGoal) (g : Goal) : Goal :=
  mkGoal (g_id g)
         (or_default (ug_projectId v) (g_projectId g))
         (or_default (ug_name v) (g_name g))
         (g_createdAt g) (g_updatedAt g) (g_deletedAt g).

(** PUT /api/goals/:id *)
Definition updateGoal (id : Id) (v : UpdateGoal) : M Goal :=
  s <- getStore ;;
  match Prisma.goal_findFirst s id with
  | None => throw (NotFoundError "Goal" id)
  | Some _ =>
      (match client_id (ug_projectId v) with
       | Some pid =>
           match Prisma.project_findFirst s pid with
           | None => throw (NotFoundError "Project" pid)
           | Some _ => ret tt
           end
       | None => ret tt
       end) ;;;
      Prisma.goal_update id (apply_goal_update v)
  end.

Definition mark_goal_deleted (d : Timestamp) (g : Goal) : Goal :=
  mkGoal (g_id g) (g_projectId g) (g_name g) (g_createdAt g) (g_updatedAt g) (Some d).

(** DELETE /api/goals/:id *)
Definition deleteGoal (id : Id) : M Id :=
  s <- getStore ;;
  match Prisma.goal_findFirst s id with
  | None => throw (NotFoundError "Goal" id)
  | Some _ =>
      transaction
        (d1 <- newDate ;;
         Prisma.task_updateMany
           (fun _ t => String.eqb (t_goalId t) id && is_null (t_deletedAt t))
           (mark_task_deleted d1) ;;;
         d2 <- newDate ;;
         Prisma.goal_update id (mark_goal_deleted d2) ;;;
         ret tt) ;;;
      ret id
  end.

(* ================================================================== *)
(** ** projectController *)
(* ================================================================== *)

Definition mark_project_deleted (d : Timestamp) (p : Project) : Project :=
  mkProject (p_id p) (p_name p) (p_createdAt p) (p_updatedAt p) (Some d).

(** [where: { goal: { projectId: id }, deletedAt: null }] on tasks. *)
Definition task_in_project (id : Id) (s : Store) (t : Task) : bool :=
  existsb (fun g => String.eqb (g_id g) (t_goalId t) && String.eqb (g_projectId g) id)
          (goals s)
  && is_null (t_deletedAt t).

(** DELETE /api/projects/:id *)
Definition deleteProject (id : Id) : M unit :=
  s <- getStore ;;
  match Prisma.project_findFirst s id with
  | None => throw (NotFoundError "Project" id)
  | Some _ =>
      transaction
        (d1 <- newDate ;;
         Prisma.task_updateMany (task_in_project id) (mark_task_deleted d1) ;;;
         d2 <- newDate ;;
         Prisma.goal_updateMany
           (fun _ g => String.eqb (g_projectId g) id && is_null (g_deletedAt g))
           (mark_goal_deleted d2) ;;;
         d3 <- newDate ;;
         Prisma.project_update id (mark_project_deleted d3) ;;;
         ret tt)
  end.

(* ================================================================== *)
(** ** syncController *)
(* ================================================================== *)

(** [SyncSchema] after parsing.  [completedAt] is kept as the instant
    the validated ISO-8601 string denotes; [null] and [undefined] are
    both [None]. *)
Record ClientTask : Type := mkClientTask
  { ct_id : option Id;
    ct_name : string;
    ct_completed : bool;
    ct_urgency : Urgency;
    ct_todaysFocus : bool;
    ct_completedAt : option Timestamp }.

Record ClientGoal : Type := mkClientGoal
  { cg_id : option Id;
    cg_name : string;
    cg_tasks : list ClientTask }.

Record ClientProject : Type := mkClientProject
  { cp_id : option Id;
    cp_name : string;
    cp_goals : list ClientGoal }.

Record Counts : Type := mkCounts
  { n_projects : nat;
    n_goals : nat;
    n_tasks : nat }.

Record SyncResults : Type := mkSyncResults
  { created : Counts;
    updated : Counts;
    conflicts : list string }.

Definition no_results : SyncResults :=
  mkSyncResults (mkCounts 0 0 0) (mkCounts 0 0 0) [].

Definition add_created (p g t : nat) (r : SyncResults) : SyncResults :=
  mkSyncResults
    (mkCounts (n_projects (created r) + p) (n_goals (created r) + g)
              (n_tasks (created r) + t))
    (updated r) (conflicts r).

Definition add_updated (p g t : nat) (r : SyncResults) : SyncResults :=
  mkSyncResults
    (created r)
    (mkCounts (n_projects (updated r) + p) (n_goals (updated r) + g)
              (n_tasks (updated r) + t))
    (conflicts r).

Record SyncResponse : Type := mkSyncResponse
  { syncResults : SyncResults;
    serverState : list ProjectNode;
    syncedAt : Timestamp }.

(** The five fields every task write of the reconciler supplies. *)
Definition task_data (t : ClientTask) : Prisma.TaskData :=
  Prisma.mkTaskData (ct_name t) (ct_completed t) (ct_urgency t)
                    (ct_todaysFocus t) (ct_completedAt t).

Definition overwrite_task (d : Prisma.TaskData) (t : Task) : Task :=
  mkTask (t_id t) (t_goalId t) (Prisma.td_name d) (Prisma.td_completed d)
         (Prisma.td_urgency d) (Prisma.td_todaysFocus d)
         (t_createdAt t) (t_updatedAt t) (Prisma.td_completedAt d) (t_deletedAt t).

Definition rename_goal (name : string) (g : Goal) : Goal :=
  mkGoal (g_id g) (g_projectId g) name (g_createdAt g) (g_updatedAt g) (g_deletedAt g).

Definition rename_project (name : string) (p : Project) : Project :=
  mkProject (p_id p) name (p_createdAt p) (p_updatedAt p) (p_deletedAt p).

Definition goal_data (g : ClientGoal) : string * list Prisma.TaskData :=
  (cg_name g, map task_data (cg_tasks g)).

(** The first query of syncData (lines 20-39). *)
Definition server_projects_since (s : Store) (lastSyncedAt : option Timestamp)
  : list ProjectNode :=
  map (include_tree s)
      (filter (fun p => is_null (p_deletedAt p)
                        && opt_test lastSyncedAt (fun since => Z.ltb since (p_updatedAt p)))
              (projects s)).

(** Body of [for (const clientTask of clientGoal.tasks)] (lines 135-168). *)
Definition syncTask (goalId : Id) (serverGoal : GoalNode)
           (r : SyncResults) (clientTask : ClientTask) : M SyncResults :=
  match client_id (ct_id clientTask) with
  | None =>
      (* New task from client *)
      Prisma.task_create goalId (task_data clientTask) ;;;
      ret (add_created 0 0 1 r)
  | Some id =>
      match find (fun t => String.eqb (t_id t) id) (gn_tasks serverGoal) with
      | Some _ =>
          (* Simple last-write-wins: always update with client data *)
          Prisma.task_update id (overwrite_task (task_data clientTask)) ;;;
          ret (add_updated 0 0 1 r)
      | None => ret r
      end
  end.

(** Body of [for (const clientGoal of clientProject.goals)] (lines 100-171). *)
Definition syncGoal (projectId : Id) (serverProject : ProjectNode)
           (r : SyncResults) (clientGoal : ClientGoal) : M SyncResults :=
  match client_id (cg_id clientGoal) with
  | None =>
      (* New goal from client *)
      Prisma.goal_create projectId (cg_name clientGoal)
                         (map task_data (cg_tasks clientGoal)) ;;;
      ret (add_created 0 1 (List.length (cg_tasks clientGoal)) r)
  | Some id =>
      match find (fun n => String.eqb (g_id (gn_goal n)) id) (pn_goals serverProject) with
      | Some serverGoal =>
          r1 <- (if negb (String.eqb (g_name (gn_goal serverGoal)) (cg_name clientGoal))
                 then Prisma.goal_update id (rename_goal (cg_name clientGoal)) ;;;
                      ret (add_updated 0 1 0 r)
                 else ret r) ;;
          foldM (syncTask id serverGoal) r1 (cg_tasks clientGoal)
      | None => ret r
      end
  end.

(** Body of [for (const clientProject of projects)] (lines 48-174). *)
Definition syncProject (r : SyncResults) (clientProject : ClientProject)
  : M SyncResults :=
  match client_id (cp_id clientProject) with
  | None =>
      (* New project from client - create on server *)
      Prisma.project_create (cp_name clientProject)
                            (map goal_data (cp_goals clientProject)) ;;;
      ret (add_created 1
             (List.length (cp_goals clientProject))
             (fold_left (fun sum g => (sum + List.length (cg_tasks g))%nat)
                        (cp_goals clientProject) O)
             r)
  | Some id =>
      s <- getStore ;;
      match Prisma.project_findUnique s id with
      | Some p =>
          let serverProject := include_tree s p in
          r1 <- (if negb (String.eqb (p_name p) (cp_name clientProject))
                 then Prisma.project_update id (rename_project (cp_name clientProject)) ;;;
                      ret (add_updated 1 0 0 r)
                 else ret r) ;;
          foldM (syncGoal id serverProject) r1 (cp_goals clientProject)
      | None => ret r
      end
  end.

(** POST /api/sync *)
Definition syncData (projects : list ClientProject) (lastSyncedAt : option Timestamp)
  : M SyncResponse :=
  s0 <- getStore ;;
  let serverProjects := server_projects_since s0 lastSyncedAt in
  results <- foldM syncProject no_results projects ;;
  s1 <- getStore ;;
  let updatedServerState := full_hierarchy s1 in
  now <- newDate ;;
  ret (mkSyncResponse results updatedServerState now).

(* ================================================================== *)
(** ** Orderings of the task listings *)
(* ================================================================== *)

Definition rank (b : bool) : Z := if b then 1 else 0.

(** Position of an urgency token in the text order of the column:
    "HOOG" < "LAAG" < "MIDDEN".  A sort on the TEXT column follows this
    order, which is not the order of the urgency levels. *)
Definition urgency_token_rank (u : Urgency) : Z :=
  match u with
  | HOOG => 0
  | LAAG => 1
  | MIDDEN => 2
  end.

(** The urgency levels of the data model: LAAG (low) < MIDDEN (medium)
    < HOOG (high). *)
Definition urgency_level (u : Urgency) : Z :=
  match u with
  | LAAG => 0
  | MIDDEN => 1
  | HOOG => 2
  end.

(** todaysFocus descending, then completed ascending, then createdAt
    descending. *)
Definition task_list_precedes (a b : Task) : Prop :=
  rank (t_todaysFocus a) > rank (t_todaysFocus b) \/
  (t_todaysFocus a = t_todaysFocus b /\
   (rank (t_completed a) < rank (t_completed b) \/
    (t_completed a = t_completed b /\ t_createdAt a >= t_createdAt b))).

(** The order the today's-focus query produces: completed ascending,
    then the urgency token in descending text order (MIDDEN, LAAG,
    HOOG), then createdAt descending. *)
Definition todays_focus_by_token (a b : Task) : Prop :=
  rank (t_completed a) < rank (t_completed b) \/
  (t_completed a = t_completed b /\
   (urgency_token_rank (t_urgency a) > urgency_token_rank (t_urgency b) \/
    (t_urgency a = t_urgency b /\ t_createdAt a >= t_createdAt b))).

(** The order the specification asks of the today's-focus listing:
    completed ascending, then urgency descending (HOOG, MIDDEN, LAAG),
    then createdAt descending. *)
Definition todays_focus_as_specified (a b : Task) : Prop :=
  rank (t_completed a) < rank (t_completed b) \/
  (t_completed a = t_completed b /\
   (urgency_level (t_urgency a) > urgency_level (t_urgency b) \/
    (t_urgency a = t_urgency b /\ t_createdAt a >= t_createdAt b))).

(** [h] is the complete non-deleted hierarchy of [s]: its roots are
    the non-deleted projects, under each root the non-deleted goals of
    that project, under each goal its non-deleted tasks. *)
Definition complete_live_hierarchy (s : Store) (h : list ProjectNode) : Prop :=
  (forall p, In p (map pn_project h) <-> In p (projects s) /\ p_deletedAt p = None) /\
  (forall n, In n h ->
     forall g, In g (map gn_goal (pn_goals n)) <->
               In g (goals s) /\ g_projectId g = p_id (pn_project n) /\ g_deletedAt g = None) /\
  (forall n gn, In n h -> In gn (pn_goals n) ->
     forall t, In t (gn_tasks gn) <->
               In t (tasks s) /\ t_goalId t = g_id (gn_goal gn) /\ t_deletedAt t = None).

(** A stored task carries the five client-supplied fields of [ct], hangs
    under goal [gid] and is not deleted. *)
Definition task_reflects (gid : Id) (ct : ClientTask) (t : Task) : Prop :=
  t_goalId t = gid /\
  t_name t = ct_name ct /\
  t_completed t = ct_completed ct /\
  t_urgency t = ct_urgency ct /\
  t_todaysFocus t = ct_todaysFocus ct /\
  t_completedAt t = ct_completedAt ct /\
  t_deletedAt t = None.

(** [gs] and [ts] are the rows of the client subtrees [cgs] created
    under project [pid]: one goal per client goal, in order, and under
    each of them one task per client task, in order. *)
Inductive goals_reflect (pid : Id) : list ClientGoal -> list Goal -> list Task -> Prop :=
| reflect_nil : goals_reflect pid [] [] []
| reflect_cons (cg : ClientGoal) (cgs : list ClientGoal) (g : Goal) (gs : list Goal)
               (ts rest : list Task) :
    g_projectId g = pid ->
    g_name g = cg_name cg ->
    g_deletedAt g = None ->
    Forall2 (task_reflects (g_id g)) (cg_tasks cg) ts ->
    goals_reflect pid cgs gs rest ->
    goals_reflect pid (cg :: cgs) (g :: gs) (ts ++ rest).

(** The completion-timestamp invariant of the data model. *)
Definition completion_stamped (t : Task) : Prop :=
  t_completedAt t <> None <-> t_completed t = true.

(** The referential invariants of the data model. *)
Definition references_live_project (s : Store) (g : Goal) : Prop :=
  exists p, In p (projects s) /\ p_id p = g_projectId g /\ p_deletedAt p = None.

Definition references_live_goal (s : Store) (t : Task) : Prop :=
  exists g, In g (goals s) /\ g_id g = t_goalId t /\ g_deletedAt g = None.

(** Primary keys. *)
Definition unique_keys (s : Store) : Prop :=
  NoDup (map p_id (projects s)) /\
  NoDup (map g_id (goals s)) /\
  NoDup (map t_id (tasks s)).

(** *** Cascading soft delete *)

(** [s'] is [s] after the cascade from project [id]: the project row,
    its goals that were not deleted and the not-deleted tasks of its
    goals carry a deletion stamp [d3], [d2], [d1] (and a bumped
    updatedAt); every other row is the row of [s]. *)
Definition cascaded_project (id : Id) (s s' : Store) : Prop :=
  exists d1 d2 d3 n1 n2 n3,
    s' = mkStore
           (map (fun p => if String.eqb (p_id p) id
                          then Prisma.touch_project n3 (mark_project_deleted d3 p) else p)
                (projects s))
           (map (fun g => if String.eqb (g_projectId g) id && is_null (g_deletedAt g)
                          then Prisma.touch_goal n2 (mark_goal_deleted d2 g) else g)
                (goals s))
           (map (fun t => if task_in_project id s t
                          then Prisma.touch_task n1 (mark_task_deleted d1 t) else t)
                (tasks s)).

Definition cascaded_goal (id : Id) (s s' : Store) : Prop :=
  exists d1 d2 n1 n2,
    s' = mkStore
           (projects s)
           (map (fun g => if String.eqb (g_id g) id
                          then Prisma.touch_goal n2 (mark_goal_deleted d2 g) else g)
                (goals s))
           (map (fun t => if String.eqb (t_goalId t) id && is_null (t_deletedAt t)
                          then Prisma.touch_task n1 (mark_task_deleted d1 t) else t)
                (tasks s)).

(** No row is removed or added: each table holds the same keys in the
    same order. *)
Definition rows_kept (s s' : Store) : Prop :=
  map p_id (projects s') = map p_id (projects s) /\
  map g_id (goals s') = map g_id (goals s) /\
  map t_id (tasks s') = map t_id (tasks s).

(** Project [id] and everything under it is deleted. *)
Definition project_subtree_deleted (id : Id) (s : Store) : Prop :=
  (forall p, In p (projects s) -> p_id p = id -> p_deletedAt p <> None) /\
  (forall g, In g (goals s) -> g_projectId g = id -> g_deletedAt g <> None) /\
  (forall g t, In g (goals s) -> In t (tasks s) ->
               g_projectId g = id -> t_goalId t = g_id g -> t_deletedAt t <> None).

(** Goal [id] and everything under it is deleted. *)
Definition goal_subtree_deleted (id : Id) (s : Store) : Prop :=
  (forall g, In g (goals s) -> g_id g = id -> g_deletedAt g <> None) /\
  (forall t, In t (tasks s) -> t_goalId t = id -> t_deletedAt t <> None).

(** Goals and tasks that were already deleted are left as they were. *)
Definition earlier_deletions_kept (s s' : Store) : Prop :=
  Forall2 (fun g g' => g_deletedAt g <> None -> g' = g) (goals s) (goals s') /\
  Forall2 (fun t t' => t_deletedAt t <> None -> t' = t) (tasks s) (tasks s').

(** Between [s] and [s'] the cascade from project [id] has stamped the
    rows it marks: the non-deleted tasks of the project's goals with
    [dt], the non-deleted goals of the project with [dg], the project
    with [dp]. *)
Definition project_cascade_stamped (id : Id) (dt dg dp : Timestamp) (s s' : Store) : Prop :=
  Forall2 (fun t t' =>
             t_deletedAt t = None ->
             (exists g, In g (goals s) /\ g_id g = t_goalId t /\ g_projectId g = id) ->
             t_deletedAt t' = Some dt)
          (tasks s) (tasks s') /\
  Forall2 (fun g g' => g_deletedAt g = None -> g_projectId g = id -> g_deletedAt g' = Some dg)
          (goals s) (goals s') /\
  Forall2 (fun p p' => p_id p = id -> p_deletedAt p' = Some dp)
          (projects s) (projects s').

(** The same for the cascade from goal [id]: its non-deleted tasks
    carry [dt], the goal carries [dg]. *)
Definition goal_cascade_stamped (id : Id) (dt dg : Timestamp) (s s' : Store) : Prop :=
  Forall2 (fun t t' => t_deletedAt t = None -> t_goalId t = id -> t_deletedAt t' = Some dt)
          (tasks s) (tasks s') /\
  Forall2 (fun g g' => g_id g = id -> g_deletedAt g' = Some dg)
          (goals s) (goals s').

(** One consistent timestamp: the entity and every descendant the
    operation marked carry one and the same [deletedAt]. *)
Definition one_consistent_timestamp_project (id : Id) (s s' : Store) : Prop :=
  exists d, project_cascade_stamped id d d d s s'.

Definition one_consistent_timestamp_goal (id : Id) (s s' : Store) : Prop :=
  exists d, goal_cascade_stamped id d d s s'.

(** *** Snapshots whose entities all carry ids known to the server *)

Definition all_goals (cps : list ClientProject) : list ClientGoal :=
  flat_map cp_goals cps.

Definition all_tasks (cps : list ClientProject) : list ClientTask :=
  flat_map cg_tasks (all_goals cps).

(** The identifiers carried by a list of client entities. *)
Definition ids_of {C : Type} (cid : C -> option Id) (cs : list C) : list Id :=
  flat_map (fun c => match client_id (cid c) with
                     | Some i => [i]
                     | None => []
                     end) cs.

Definition task_matched (s : Store) (gid : Id) (ct : ClientTask) : Prop :=
  exists t,
    client_id (ct_id ct) = Some (t_id t) /\
    In t (tasks s) /\ t_goalId t = gid /\ t_deletedAt t = None.

Definition goal_matched (s : Store) (pid : Id) (cg : ClientGoal) : Prop :=
  exists g,
    client_id (cg_id cg) = Some (g_id g) /\
    In g (goals s) /\ g_projectId g = pid /\ g_deletedAt g = None /\
    Forall (task_matched s (g_id g)) (cg_tasks cg).

Definition project_matched (s : Store) (cp : ClientProject) : Prop :=
  exists p,
    client_id (cp_id cp) = Some (p_id p) /\
    In p (projects s) /\
    Forall (goal_matched s (p_id p)) (cp_goals cp).

(** Every project, goal and task of the snapshot carries the id of a
    server row in the place the reconciler looks for it. *)
Definition snapshot_matched (s : Store) (cps : list ClientProject) : Prop :=
  Forall (project_matched s) cps.

(** No id occurs twice in the snapshot. *)
Definition distinct_ids (cps : list ClientProject) : Prop :=
  NoDup (ids_of cp_id cps) /\
  NoDup (ids_of cg_id (all_goals cps)) /\
  NoDup (ids_of ct_id (all_tasks cps)).

(** Rows and snapshots with [updatedAt] blanked. *)
Definition forget_project (p : Project) : Project :=
  mkProject (p_id p) (p_name p) (p_createdAt p) 0 (p_deletedAt p).

Definition forget_goal (g : Goal) : Goal :=
  mkGoal (g_id g) (g_projectId g) (g_name g) (g_createdAt g) 0 (g_deletedAt g).

Definition forget_task (t : Task) : Task :=
  mkTask (t_id t) (t_goalId t) (t_name t) (t_completed t) (t_urgency t)
         (t_todaysFocus t) (t_createdAt t) 0 (t_completedAt t) (t_deletedAt t).

Definition forget_store (s : Store) : Store :=
  mkStore (map forget_project (projects s)) (map forget_goal (goals s))
          (map forget_task (tasks s)).

Definition forget_goal_node (n : GoalNode) : GoalNode :=
  mkGoalNode (forget_goal (gn_goal n)) (map forget_task (gn_tasks n)).

Definition forget_node (n : ProjectNode) : ProjectNode :=
  mkProjectNode (forget_project (pn_project n)) (map forget_goal_node (pn_goals n)).

(** *** What the reconciler leaves of a table

    [overwritten cs a a']: row [a'] is row [a] after the id-matched
    entries of [cs] were applied to it.  If an entry of [cs] carries the
    id of [a], the fields the reconciler never writes are kept and
    [a'] agrees with that entry; if none does, the row is untouched. *)
Section Overwrite.

Context {Row C : Type}.
Variable rid : Row -> Id.
Variable cid : C -> option Id.
Variable kept : Row -> Row -> Prop.
Variable agrees : C -> Row -> Prop.

Definition overwritten (cs : list C) (a a' : Row) : Prop :=
  (forall c, In c cs -> client_id (cid c) = Some (rid a) -> kept a a' /\ agrees c a') /\
  (~ In (rid a) (ids_of cid cs) -> a' = a).

Definition table_overwritten (cs : list C) (l l' : list Row) : Prop :=
  Forall2 (overwritten cs) l l'.

Definition agreeing (cs : list C) (l : list Row) : Prop :=
  forall c a, In c cs -> In a l -> client_id (cid c) = Some (rid a) -> agrees c a.

End Overwrite.

Definition project_kept (p p' : Project) : Prop :=
  p_id p' = p_id p /\ p_createdAt p' = p_createdAt p /\ p_deletedAt p' = p_deletedAt p.

Definition project_agrees (cp : ClientProject) (p : Project) : Prop :=
  p_name p = cp_name cp.

Definition goal_kept (g g' : Goal) : Prop :=
  g_id g' = g_id g /\ g_projectId g' = g_projectId g /\
  g_createdAt g' = g_createdAt g /\ g_deletedAt g' = g_deletedAt g.

Definition goal_agrees (cg : ClientGoal) (g : Goal) : Prop :=
  g_name g = cg_name cg.

Definition task_kept (t t' : Task) : Prop :=
  t_id t' = t_id t /\ t_goalId t' = t_goalId t /\
  t_createdAt t' = t_createdAt t /\ t_deletedAt t' = t_deletedAt t.

Definition task_agrees (ct : ClientTask) (t : Task) : Prop :=
  t_name t = ct_name ct /\
  t_completed t = ct_completed ct /\
  t_urgency t = ct_urgency ct /\
  t_todaysFocus t = ct_todaysFocus ct /\
  t_completedAt t = ct_completedAt ct.

(** The store [s'] is [s] with the id-matched projects, goals and tasks
    of the three lists written over it. *)
Definition merged (cps : list ClientProject) (cgs : list ClientGoal)
           (cts : list ClientTask) (s s' : Store) : Prop :=
  table_overwritten p_id cp_id project_kept project_agrees cps (projects s) (projects s') /\
  table_overwritten g_id cg_id goal_kept goal_agrees cgs (goals s) (goals s') /\
  table_overwritten t_id ct_id task_kept task_agrees cts (tasks s) (tasks s').

(** The store already holds what the snapshot says. *)
Definition in_sync (cps : list ClientProject) (s : Store) : Prop :=
  agreeing p_id cp_id project_agrees cps (projects s) /\
  agreeing g_id cg_id goal_agrees (all_goals cps) (goals s) /\
  agreeing t_id ct_id task_agrees (all_tasks cps) (tasks s).

(** Two lists of identifiers with no common element. *)
Definition disjoint (l1 l2 : list Id) : Prop := forall i, In i l1 -> ~ In i l2.

(** What a merge never changes: keys, parents and deletion stamps. *)
Definition goal_place (g : Goal) : Id * Id * option Timestamp :=
  (g_id g, g_projectId g, g_deletedAt g).

Definition task_place (t : Task) : Id * Id * option Timestamp :=
  (t_id t, t_goalId t, t_deletedAt t).

Definition same_shape (s s' : Store) : Prop :=
  map p_id (projects s') = map p_id (projects s) /\
  map goal_place (goals s') = map goal_place (goals s) /\
  map task_place (tasks s') = map task_place (tasks s).

(** Idempotence in the words of the specification: the second of two
    identical submissions returns the [serverState] of the first, and
    its updated counts are zero when the submitted content already
    matched the server, and the counts of the first call when it did
    not. *)
Definition resync_as_claimed (cps : list ClientProject) (w0 : World) : Prop :=
  forall resp1 w1 resp2 w2,
    syncData cps None w0 = (Ok resp1, w1) ->
    syncData cps None w1 = (Ok resp2, w2) ->
    serverState resp2 = serverState resp1 /\
    (in_sync cps (db w0) -> updated (syncResults resp2) = mkCounts 0 0 0) /\
    (~ in_sync cps (db w0) ->
     updated (syncResults resp2) = updated (syncResults resp1)).

(* ================================================================== *)
(** ** Read handlers and the remaining CRUD handlers *)
(* ================================================================== *)

(** GET /api/tasks/:id *)
Definition getTaskById (id : Id) : M TaskView :=
  s <- getStore ;;
  match Prisma.task_findFirst s id with
  | None => throw (NotFoundError "Task" id)
  | Some task => ret (task_view s task)
  end.

(** A goal with its listed tasks and the two computed fields
    [completedCount] and [totalCount]. *)
Record GoalWithStats : Type := mkGoalWithStats
  { gws_node : GoalNode;
    completedCount : nat;
    totalCount : nat }.

(** [{ ...goal, completedCount: goal.tasks.filter(t => t.completed).length,
       totalCount: goal.tasks.length }] *)
Definition with_stats (n : GoalNode) : GoalWithStats :=
  mkGoalWithStats n
    (List.length (filter (fun t => t_completed t) (gn_tasks n)))
    (List.length (gn_tasks n)).

(** A goal of the goal endpoints: [include: { project: true, tasks }]. *)
Record GoalView : Type := mkGoalView
  { gv_stats : GoalWithStats;
    gv_project : option Project }.

(** [tasks: { where: { deletedAt: null }, orderBy: [...] }] under a goal. *)
Definition goal_node_ordered (s : Store) (g : Goal) : GoalNode :=
  mkGoalNode g (Prisma.orderBy task_list_order (live_tasks_of s (g_id g))).

Definition goal_view (s : Store) (g : Goal) : GoalView :=
  mkGoalView (with_stats (goal_node_ordered s g))
             (Prisma.project_findUnique s (g_projectId g)).




(** The [where] of getAllGoals; [projectId] is the query parameter as
    GoalQuerySchema.parse returns it, so when present a string that
    passed the cuid check above. *)
Definition goal_query_where (projectId : option Id) (g : Goal) : bool :=
  is_null (g_deletedAt g)
  && opt_test (client_id projectId) (fun p => String.eqb (g_projectId g) p).

(** GET /api/goals *)
Definition getAllGoals (projectId : option Id) : M (list GoalView) :=
  s <- getStore ;;
  ret (map (goal_view s)
           (Prisma.orderBy goal_createdAt_asc
              (filter (goal_query_where projectId) (goals s)))).

(** GET /api/goals/:id *)
Definition getGoalById (id : Id) : M GoalView :=
  s <- getStore ;;
  match Prisma.goal_findFirst s id with
  | None => throw (NotFoundError "Goal" id)
  | Some goal => ret (goal_view s goal)
  end.

(** A project with its goals and their computed fields. *)
Record ProjectWithStats : Type := mkProjectWithStats
  { pws_project : Project;
    pws_goals : list GoalWithStats }.

(** [{ ...project, goals: project.goals.map(goal => ({ ...goal, ... })) }] *)
Definition project_with_stats (n : ProjectNode) : ProjectWithStats :=
  mkProjectWithStats (pn_project n) (map with_stats (pn_goals n)).

(** GET /api/projects *)
Definition getAllProjects : M (list ProjectWithStats) :=
  s <- getStore ;;
  ret (map project_with_stats (full_hierarchy s)).

(** GET /api/projects/:id *)
Definition getProjectById (id : Id) : M ProjectWithStats :=
  s <- getStore ;;
  match Prisma.project_findFirst s id with
  | None => throw (NotFoundError "Project" id)
  | Some project => ret (project_with_stats (include_tree_ordered s project))
  end.

(** [ColorSchema] *)
Inductive Color : Type :=
| teal | blue | purple | pink | orange | green | red | yellow.

(** [CreateProjectSchema] after parsing. *)
Record CreateProject : Type := mkCreateProject
  { cpj_name : string;
    cpj_color : option Color }.

(** Modelled from the spec: a Project has the fields id, name,
    createdAt, updatedAt and deletedAt (section 3; so does the table of
    migration.sql), hence [data] with a [color] is refused by the
    client before anything is written. *)
Definition refuse_color (c : option Color) : M unit :=
  match c with
  | Some _ => throw ValidationFailure
  | None => ret tt
  end.

(** POST /api/projects *)
Definition createProject (v : CreateProject) : M Project :=
  refuse_color (cpj_color v) ;;;
  Prisma.project_create (cpj_name v) [].

(** [UpdateProjectSchema] after parsing. *)
Record UpdateProject : Type := mkUpdateProject
  { upj_name : option string;
    upj_color : option Color }.

Definition apply_project_update (v : UpdateProject) (p : Project) : Project :=
  mkProject (p_id p) (or_default (upj_name v) (p_name p))
            (p_createdAt p) (p_updatedAt p) (p_deletedAt p).

(** PUT /api/projects/:id *)
Definition updateProject (id : Id) (v : UpdateProject) : M ProjectNode :=
  s <- getStore ;;
  match Prisma.project_findFirst s id with
  | None => throw (NotFoundError "Project" id)
  | Some _ =>
      refuse_color (upj_color v) ;;;
      p <- Prisma.project_update id (apply_project_update v) ;;
      s' <- getStore ;;
      ret (include_tree s' p)
  end.

(* ================================================================== *)
(** ** Responses (src/utils/response.ts, src/utils/errors.ts) *)
(* ================================================================== *)

(** What a client sees of a response: the status line and, when there
    is a JSON body, its [success] flag. *)
Record HttpResponse : Type := mkHttpResponse
  { status : nat;
    success : option bool }.

Definition successResponse (statusCode : nat) : HttpResponse :=
  mkHttpResponse statusCode (Some true).

Definition createdResponse : HttpResponse := successResponse 201.

Definition noContentResponse : HttpResponse := mkHttpResponse 204 None.

(** [handleError]: an [AppError] answers with its status code, a known
    Prisma request error with 404 (P2025) or 400 (P2003), anything else
    with 500.  In this model [ValidationFailure] is only raised by the
    Prisma client refusing its arguments, which [handleError] does not
    recognise. *)
Definition handleError (e : Failure) : HttpResponse :=
  match e with
  | NotFoundError _ _ => mkHttpResponse 404 (Some false)
  | RecordNotFound => mkHttpResponse 404 (Some false)
  | ForeignKeyViolation => mkHttpResponse 400 (Some false)
  | ValidationFailure => mkHttpResponse 500 (Some false)
  | StoreFailure => mkHttpResponse 500 (Some false)
  end.

(** [asyncHandler(fn)]: run the handler, answer with [respond] when it
    returns and with [handleError] when it throws. *)
Definition asyncHandler {A : Type} (fn : M A) (respond : A -> HttpResponse)
  : World -> HttpResponse * World :=
  fun w =>
    match fn w with
    | (Ok a, w') => (respond a, w')
    | (Thrown e, w') => (handleError e, w')
    end.

(** The routes, with the responder each handler ends with. *)
Inductive Request : Type :=
| GetProjects
| GetProject (id : Id)
| PostProject (v : CreateProject)
| PutProject (id : Id) (v : UpdateProject)
| DeleteProject (id : Id)
| GetGoals (projectId : option Id)
| GetGoal (id : Id)
| PostGoal (v : CreateGoal)
| PutGoal (id : Id) (v : UpdateGoal)
| DeleteGoal (id : Id)
| GetTasks (q : TaskQuery)
| GetTodaysTasks
| GetTask (id : Id)
| PostTask (v : CreateTask)
| PutTask (id : Id) (v : UpdateTask)
| DeleteTask (id : Id)
| PostSync (projects : list ClientProject) (lastSyncedAt : option Timestamp).

Definition serve (q : Request) : World -> HttpResponse * World :=
  match q with
  | GetProjects => asyncHandler getAllProjects (fun _ => successResponse 200)
  | GetProject id => asyncHandler (getProjectById id) (fun _ => successResponse 200)
  | PostProject v => asyncHandler (createProject v) (fun _ => createdResponse)
  | PutProject id v => asyncHandler (updateProject id v) (fun _ => successResponse 200)
  | DeleteProject id => asyncHandler (deleteProject id) (fun _ => noContentResponse)
  | GetGoals p => asyncHandler (getAllGoals p) (fun _ => successResponse 200)
  | GetGoal id => asyncHandler (getGoalById id) (fun _ => successResponse 200)
  | PostGoal v => asyncHandler (createGoal v) (fun _ => createdResponse)
  | PutGoal id v => asyncHandler (updateGoal id v) (fun _ => successResponse 200)
  | DeleteGoal id => asyncHandler (deleteGoal id) (fun _ => successResponse 200)
  | GetTasks q => asyncHandler (getAllTasks q) (fun _ => successResponse 200)
  | GetTodaysTasks => asyncHandler getTodaysTasks (fun _ => successResponse 200)
  | GetTask id => asyncHandler (getTaskById id) (fun _ => successResponse 200)
  | PostTask v => asyncHandler (createTask v) (fun _ => createdResponse)
  | PutTask id v => asyncHandler (updateTask id v) (fun _ => successResponse 200)
  | DeleteTask id => asyncHandler (deleteTask id) (fun _ => successResponse 200)
  | PostSync ps l => asyncHandler (syncData ps l) (fun _ => successResponse 200)
  end.

(* ================================================================== *)
(** ** Store-wide properties used below *)
(* ================================================================== *)

(** Every non-deleted goal hangs under a non-deleted project and every
    non-deleted task under a non-deleted goal. *)
Definition referentially_sound (s : Store) : Prop :=
  (forall g, In g (goals s) -> g_deletedAt g = None -> references_live_project s g) /\
  (forall t, In t (tasks s) -> t_deletedAt t = None -> references_live_goal s t).

(** What no handler but a delete changes of a row: key, parent,
    creation and deletion stamps. *)
Definition project_frame (p : Project) : Id * Timestamp * option Timestamp :=
  (p_id p, p_createdAt p, p_deletedAt p).

Definition goal_frame (g : Goal) : Id * Id * Timestamp * option Timestamp :=
  (g_id g, g_projectId g, g_createdAt g, g_deletedAt g).

Definition task_frame (t : Task) : Id * Id * Timestamp * option Timestamp :=
  (t_id t, t_goalId t, t_createdAt t, t_deletedAt t).

(** [s'] holds every row of [s], in place and with the same frame,
    followed by rows that [s] did not have. *)
Definition grown (s s' : Store) : Prop :=
  (exists l, map project_frame (projects s') = map project_frame (projects s) ++ l) /\
  (exists l, map goal_frame (goals s') = map goal_frame (goals s) ++ l) /\
  (exists l, map task_frame (tasks s') = map task_frame (tasks s) ++ l).

(** A computation relates the store it starts from and the store it
    ends with by [R], whether it returns or throws. *)
Definition preserves {A : Type} (R : Store -> Store -> Prop) (m : M A) : Prop :=
  forall w out w', m w = (out, w') -> R (db w) (db w').

(** The created counters of [r'] exceed those of [r] by exactly the
    number of rows [s'] has more than [s], table by table, and the
    list of conflicts is the same. *)
Definition tallied (r : SyncResults) (s : Store) (r' : SyncResults) (s' : Store) : Prop :=
  (n_projects (created r') + List.length (projects s)
   = n_projects (created r) + List.length (projects s'))%nat /\
  (n_goals (created r') + List.length (goals s)
   = n_goals (created r) + List.length (goals s'))%nat /\
  (n_tasks (created r') + List.length (tasks s)
   = n_tasks (created r) + List.length (tasks s'))%nat /\
  conflicts r' = conflicts r.

(** The two computed fields of a goal count the non-deleted tasks of
    that goal in the store, and those of them that are completed. *)
Definition stats_exact (s : Store) (v : GoalWithStats) : Prop :=
  let gid := g_id (gn_goal (gws_node v)) in
  totalCount v = List.length (live_tasks_of s gid) /\
  completedCount v = List.length (filter (fun t => t_completed t) (live_tasks_of s gid)) /\
  (completedCount v <= totalCount v)%nat.

(** createdAt ascending. *)
Definition goal_older (a b : Goal) : Prop := g_createdAt a <= g_createdAt b.
Definition project_older (a b : Project) : Prop := p_createdAt a <= p_createdAt b.

(** A computation that leaves the store as it found it whenever it
    throws. *)
Definition failsafe {A : Type} (m : M A) : Prop :=
  forall w e w', m w = (Thrown e, w') -> db w' = db w.

(** A computation that never changes the store. *)
Definition unchanged (s s' : Store) : Prop := s' = s.

Definition readonly {A : Type} (m : M A) : Prop := preserves unchanged m.

(** The [completedAt] entry PUT /api/tasks/:id adds to [data]: the
    current time when an open task is completed, [null] when a
    completed task is reopened, nothing otherwise. *)
Definition completion_stamp (v : UpdateTask) (existingTask : Task) (now : Timestamp)
  : option (option Timestamp) :=
  match u_completed v with
  | Some c =>
      if c && negb (t_completed existingTask) then Some (Some now)
      else if negb c && t_completed existingTask then Some None else None
  | None => None
  end.

(** The GET routes. *)
Definition reads_only (q : Request) : bool :=
  match q with
  | GetProjects | GetProject _ | GetGoals _ | GetGoal _
  | GetTasks _ | GetTodaysTasks | GetTask _ => true
  | _ => false
  end.

Definition is_sync (q : Request) : bool :=
  match q with
  | PostSync _ _ => true
  | _ => false
  end.

(** [z.string().cuid()]: a parent id sent with PUT /api/goals/:id or
    PUT /api/tasks/:id is never the empty string. *)
Definition parent_id_parsed (q : Request) : Prop :=
  match q with
  | PutGoal _ v => ug_projectId v <> Some EmptyString
  | PutTask _ v => u_goalId v <> Some EmptyString
  | _ => True
  end.

(** The row a by-id route addresses is missing or soft-deleted. *)
Definition addresses_no_live_row (s : Store) (q : Request) : Prop :=
  match q with
  | GetProject id | PutProject id _ | DeleteProject id =>
      Prisma.project_findFirst s id = None
  | GetGoal id | PutGoal id _ | DeleteGoal id =>
      Prisma.goal_findFirst s id = None
  | GetTask id | PutTask id _ | DeleteTask id =>
      Prisma.task_findFirst s id = None
  | _ => False
  end.

(** Referential soundness is carried from the first store to the
    second. *)
Definition sound_kept (s s' : Store) : Prop :=
  referentially_sound s -> referentially_sound s'.


(* ================================================================== *)
(** ** The rest of a sync request *)
(* ================================================================== *)

(** [syncData] from the point where its loop has the client projects
    [rest] left and the counters stand at [r]: the remaining
    iterations, the final query and the response. *)
Definition sync_from (r : SyncResults) (rest : list ClientProject) : M SyncResponse :=
  results <- foldM syncProject r rest ;;
  s1 <- getStore ;;
  now <- newDate ;;
  ret (mkSyncResponse results (full_hierarchy s1) now).

(** The nested client goals that carry no id. *)
Definition goals_without_id (cgs : list ClientGoal) : list ClientGoal :=
  filter (fun cg => is_null (client_id (cg_id cg))) cgs.

(** Relations between the store before and after a step of the
    reconciler, and between its counters. *)
Definition projects_kept (s s' : Store) : Prop := projects s' = projects s.

Definition goal_frames_kept (s s' : Store) : Prop :=
  map goal_frame (goals s') = map goal_frame (goals s).

(** [s'] has the goal rows of [s], in place and with the same frame,
    followed by [n] rows that are not deleted and hang under project
    [pid]. *)
Definition goals_appended (pid : Id) (n : nat) (s s' : Store) : Prop :=
  exists old gs,
    goals s' = old ++ gs /\
    map goal_frame old = map goal_frame (goals s) /\
    List.length gs = n /\
    Forall (fun g => g_projectId g = pid /\ g_deletedAt g = None) gs.

(** The task steps of the reconciler leave the project and goal
    counters alone and never lower [created.tasks]. *)
Definition counters_kept (r r' : SyncResults) : Prop :=
  n_projects (created r') = n_projects (created r) /\
  n_goals (created r') = n_goals (created r) /\
  n_projects (updated r') = n_projects (updated r) /\
  (n_tasks (created r) <= n_tasks (created r'))%nat.

(** The rows a hierarchy lists, level by level. *)
Definition listed_projects (h : list ProjectNode) : list Project := map pn_project h.

Definition listed_goals (h : list ProjectNode) : list Goal :=
  flat_map (fun n => map gn_goal (pn_goals n)) h.

Definition listed_tasks (h : list ProjectNode) : list Task :=
  flat_map (fun n => flat_map gn_tasks (pn_goals n)) h.

(** Two hierarchies list the same projects, goals and tasks up to
    [updatedAt]; the order in which they list them may differ. *)
Definition same_rows_listed (h h' : list ProjectNode) : Prop :=
  Permutation (map forget_project (listed_projects h))
              (map forget_project (listed_projects h')) /\
  Permutation (map forget_goal (listed_goals h)) (map forget_goal (listed_goals h')) /\
  Permutation (map forget_task (listed_tasks h)) (map forget_task (listed_tasks h')).

(** The non-deleted projects of a store, the non-deleted goals under
    them and the non-deleted tasks under those, in table order. *)
Definition live_projects (s : Store) : list Project :=
  filter (fun p => is_null (p_deletedAt p)) (projects s).

Definition nested_goals (s : Store) : list Goal :=
  flat_map (fun p => live_goals_of s (p_id p)) (live_projects s).

Definition nested_tasks (s : Store) : list Task :=
  flat_map (fun p => flat_map (fun g => live_tasks_of s (g_id g)) (live_goals_of s (p_id p)))
           (live_projects s).

(* ================================================================== *)
(** ** Concrete worlds used to exercise the model *)
(* ================================================================== *)

Module Demo.

Local Open Scope string_scope.

(** A clock that advances by one millisecond per reading. *)
Definition ticking (n : nat) : Timestamp := 1000 + Z.of_nat n.

(** A clock that stands still. *)
Definition frozen (_ : nat) : Timestamp := 1000.

(** A clock that shows 20 for its first four readings and 90 from
    then on: two requests, a while apart, each served within one
    millisecond. *)
Definition two_requests (n : nat) : Timestamp := if Nat.ltb n 4 then 20 else 90.

(** Identifiers "c" followed by [n] quotes-free marks: "c", "cx", "cxx", ... *)
Fixpoint marks (n : nat) : string :=
  match n with
  | O => EmptyString
  | S n' => String "x"%char (marks n')
  end.

Definition gen (n : nat) : Id := String "c"%char (marks n).

Definition world (s : Store) (clk : nat -> Timestamp) (b : option nat) : World :=
  mkWorld s clk 0 gen 0 b.

(** One project "P" with one goal "G" holding one open task "T". *)
Definition project_P : Project := mkProject "p1" "P" 10 10 None.
Definition goal_G : Goal := mkGoal "g1" "p1" "G" 11 11 None.
Definition task_T : Task := mkTask "t1" "g1" "T" false MIDDEN false 12 12 None None.

Definition small_store : Store := mkStore [project_P] [goal_G] [task_T].

(** The same hierarchy after DELETE /api/projects/p1 at instant 50. *)
Definition deleted_store : Store :=
  mkStore [mkProject "p1" "P" 10 50 (Some 50)]
          [mkGoal "g1" "p1" "G" 11 50 (Some 50)]
          [mkTask "t1" "g1" "T" false MIDDEN false 12 50 None (Some 50)].

(** Goal "g1" with three open today's-focus tasks, one per urgency. *)
Definition urgency_store : Store :=
  mkStore [project_P] [goal_G]
          [mkTask "t1" "g1" "Call" false HOOG true 12 12 None None;
           mkTask "t2" "g1" "Mail" false LAAG true 13 13 None None;
           mkTask "t3" "g1" "Plan" false MIDDEN true 14 14 None None].

(** The snapshot a client holds of [small_store]. *)
Definition client_T : ClientTask := mkClientTask (Some "t1") "T" false MIDDEN false None.
Definition client_G : ClientGoal := mkClientGoal (Some "g1") "G" [client_T].
Definition client_P : ClientProject := mkClientProject (Some "p1") "P" [client_G].

(** A brand-new subtree: no id on the project, ids of another device
    on what is nested in it. *)
Definition fresh_T : ClientTask := mkClientTask None "T1" false HOOG true None.
Definition fresh_P : ClientProject :=
  mkClientProject None "New"
    [mkClientGoal (Some "g1") "Ga" [fresh_T; client_T]; mkClientGoal None "Gb" []].


End Demo.

(* ================================================================== *)
(** ** Generic facts: the monad and [orderBy] *)
(* ================================================================== *)

Lemma foldM_app {A B : Type} (f : A -> B -> M A) (l1 l2 : list B) (a : A) (w : World) :
  foldM f a (l1 ++ l2) w =
  match foldM f a l1 w with
  | (Ok a', w') => foldM f a' l2 w'
  | (Thrown e, w') => (Thrown e, w')
  end.
Proof.
  revert a w; induction l1 as [|x l1 IH]; intros a w; simpl.
  - reflexivity.
  - unfold bind. destruct (f a x w) as [[a'|e] w']; [apply IH | reflexivity].
Qed.

Section OrderBy.

Context {A : Type} (cmp : A -> A -> comparison).

Lemma insert_by_perm (x : A) (l : list A) :
  Permutation (x :: l) (Prisma.insert_by cmp x l).
Proof.
  induction l as [|y l IH]; simpl.
  - apply Permutation_refl.
  - destruct (cmp x y); try apply Permutation_refl.
    eapply perm_trans; [apply perm_swap | apply perm_skip, IH].
Qed.

Lemma orderBy_perm (l : list A) : Permutation l (Prisma.orderBy cmp l).
Proof.
  induction l as [|x l IH]; simpl.
  - apply perm_nil.
  - eapply perm_trans; [apply perm_skip, IH | apply insert_by_perm].
Qed.

Lemma orderBy_In (l : list A) (x : A) : In x (Prisma.orderBy cmp l) <-> In x l.
Proof.
  split; apply Permutation_in;
    [apply Permutation_sym |]; apply orderBy_perm.
Qed.

Variable precedes : A -> A -> Prop.
Hypothesis precedes_le : forall a b, cmp a b <> Gt -> precedes a b.
Hypothesis precedes_gt : forall a b, cmp a b = Gt -> precedes b a.

Lemma insert_by_sorted (x : A) (l : list A) :
  Sorted precedes l -> Sorted precedes (Prisma.insert_by cmp x l).
Proof.
  induction l as [|y l IH]; intros Hs; simpl.
  - repeat constructor.
  - destruct (cmp x y) eqn:E.
    + constructor; [assumption | constructor; apply precedes_le; congruence].
    + constructor; [assumption | constructor; apply precedes_le; congruence].
    + apply Sorted_inv in Hs as [Hs Hd].
      constructor; [apply IH, Hs |].
      destruct l as [|z l]; simpl.
      * constructor. apply precedes_gt, E.
      * destruct (cmp x z); constructor;
          try (apply precedes_gt, E); apply HdRel_inv in Hd; exact Hd.
Qed.

Lemma orderBy_sorted (l : list A) : Sorted precedes (Prisma.orderBy cmp l).
Proof.
  induction l as [|x l IH]; simpl; [constructor | apply insert_by_sorted, IH].
Qed.

End OrderBy.

Lemma cmp_bool_rank (a b : bool) :
  match cmp_bool a b with
  | Lt => rank a < rank b
  | Eq => a = b
  | Gt => rank a > rank b
  end.
Proof. destruct a, b; simpl; lia || reflexivity. Qed.

Lemma urgency_text_order (a b : Urgency) :
  match String.compare (urgency_token a) (urgency_token b) with
  | Lt => urgency_token_rank a < urgency_token_rank b
  | Eq => a = b
  | Gt => urgency_token_rank a > urgency_token_rank b
  end.
Proof. destruct a, b; vm_compute; reflexivity || discriminate. Qed.

Lemma task_list_order_sound (a b : Task) :
  (task_list_order a b <> Gt -> task_list_precedes a b) /\
  (task_list_order a b = Gt -> task_list_precedes b a).
Proof.
  unfold task_list_order, task_list_precedes, lex, asc, desc.
  pose proof (cmp_bool_rank (t_todaysFocus a) (t_todaysFocus b)) as H1.
  pose proof (cmp_bool_rank (t_completed a) (t_completed b)) as H2.
  pose proof (Z.compare_spec (t_createdAt a) (t_createdAt b)) as H3.
  destruct (cmp_bool (t_todaysFocus a) (t_todaysFocus b));
    destruct (cmp_bool (t_completed a) (t_completed b));
    inversion H3; simpl; split; intros Hc; try congruence;
      try (left; lia);
      try (right; split; [congruence | left; lia]);
      try (right; split; [congruence | right; split; [congruence | lia]]).
Qed.

Lemma todays_focus_order_sound (a b : Task) :
  (todays_focus_order a b <> Gt -> todays_focus_by_token a b) /\
  (todays_focus_order a b = Gt -> todays_focus_by_token b a).
Proof.
  unfold todays_focus_order, todays_focus_by_token, lex, asc, desc.
  pose proof (cmp_bool_rank (t_completed a) (t_completed b)) as H1.
  pose proof (urgency_text_order (t_urgency a) (t_urgency b)) as H2.
  pose proof (Z.compare_spec (t_createdAt a) (t_createdAt b)) as H3.
  destruct (cmp_bool (t_completed a) (t_completed b));
    destruct (String.compare (urgency_token (t_urgency a)) (urgency_token (t_urgency b)));
    inversion H3; simpl; split; intros Hc; try congruence;
      try (left; lia);
      try (right; split; [congruence | left; lia]);
      try (right; split; [congruence | right; split; [congruence | lia]]).
Qed.

Lemma rank_inj (a b : bool) : rank a = rank b -> a = b.
Proof. destruct a, b; simpl; intros; congruence || lia. Qed.

Lemma task_list_precedes_trans : Transitive task_list_precedes.
Proof.
  intros a b c. unfold task_list_precedes.
  intros [H1|[E1 [H1|[F1 H1]]]] [H2|[E2 [H2|[F2 H2]]]];
    rewrite ?E1, ?E2, ?F1, ?F2 in *;
    try (left; lia);
    try (right; split; [congruence | left; lia]);
    try (right; split; [congruence | right; split; [congruence | lia]]).
Qed.

Lemma todays_focus_by_token_trans : Transitive todays_focus_by_token.
Proof.
  intros a b c. unfold todays_focus_by_token.
  intros [H1|[E1 [H1|[F1 H1]]]] [H2|[E2 [H2|[F2 H2]]]];
    rewrite ?E1, ?E2, ?F1, ?F2 in *;
    try (left; lia);
    try (right; split; [congruence | left; lia]);
    try (right; split; [congruence | right; split; [congruence | lia]]).
Qed.

(* ================================================================== *)
(** ** Task listings *)
(* ================================================================== *)

(** X23.  GET /api/tasks answers with exactly the rows selected by its
    filter, ordered by todaysFocus descending, then completed
    ascending, then createdAt descending; GET /api/tasks/today answers
    with the non-deleted today's-focus rows ordered by completed
    ascending, then by the stored urgency token in descending text
    order (MIDDEN, LAAG, HOOG), then createdAt descending.  Neither
    changes the world. *)
Theorem task_listings_ordered (q : TaskQuery) (w : World) :
  (exists views,
      getAllTasks q w = (Ok views, w) /\
      Permutation (filter (task_query_where q) (tasks (db w))) (map tv_task views) /\
      StronglySorted task_list_precedes (map tv_task views)) /\
  (exists views,
      getTodaysTasks w = (Ok views, w) /\
      Permutation (filter (fun t => is_null (t_deletedAt t) && Bool.eqb (t_todaysFocus t) true)
                          (tasks (db w)))
                  (map tv_task views) /\
      StronglySorted todays_focus_by_token (map tv_task views)).
Proof.
  split; eexists; (split; [reflexivity |]);
    rewrite map_map; simpl; rewrite map_id; split.
  - apply orderBy_perm.
  - apply Sorted_StronglySorted; [exact task_list_precedes_trans |].
    apply orderBy_sorted; intros a b; apply task_list_order_sound.
  - apply orderBy_perm.
  - apply Sorted_StronglySorted; [exact todays_focus_by_token_trans |].
    apply orderBy_sorted; intros a b; apply todays_focus_order_sound.
Qed.

(** C9 (divergence).  [{ urgency: 'desc' }] sorts the TEXT column,
    so GET /api/tasks/today lists three open today's-focus tasks of
    urgency HOOG, LAAG and MIDDEN as MIDDEN, LAAG, HOOG: the task of
    high urgency comes last, and the listing is not in the order
    completed ascending, urgency descending, createdAt descending. *)
Theorem todays_listing_puts_high_urgency_last :
  let w := Demo.world Demo.urgency_store Demo.ticking None in
  exists views,
    getTodaysTasks w = (Ok views, w) /\
    map (fun v => t_urgency (tv_task v)) views = [MIDDEN; LAAG; HOOG] /\
    ~ StronglySorted todays_focus_as_specified (map tv_task views).
Proof.
  intros w. eexists. split; [vm_compute; reflexivity |].
  split; [reflexivity |]. simpl. intros H.
  apply StronglySorted_inv in H as [_ H]. apply Forall_inv_tail in H.
  apply Forall_inv in H. unfold todays_focus_as_specified in H; simpl in H.
  destruct H as [H | [_ [H | [H _]]]]; [lia | lia | discriminate].
Qed.

(* ================================================================== *)
(** ** The snapshot returned by a sync *)
(* ================================================================== *)

Lemma is_null_true {A : Type} (o : option A) : is_null o = true <-> o = None.
Proof. destruct o; simpl; split; congruence. Qed.

Lemma full_hierarchy_complete (s : Store) :
  complete_live_hierarchy s (full_hierarchy s).
Proof.
  unfold complete_live_hierarchy, full_hierarchy. split; [|split].
  - intros p. rewrite map_map; simpl; rewrite map_id, orderBy_In, filter_In, is_null_true.
    tauto.
  - intros n Hn g. apply in_map_iff in Hn as [p [<- _]]. simpl.
    rewrite map_map; simpl; rewrite map_id, orderBy_In.
    unfold live_goals_of. rewrite filter_In, andb_true_iff, String.eqb_eq, is_null_true.
    tauto.
  - intros n gn Hn Hgn t. apply in_map_iff in Hn as [p [<- _]]. simpl in Hgn.
    apply in_map_iff in Hgn as [g [<- _]]. simpl.
    rewrite orderBy_In. unfold live_tasks_of.
    rewrite filter_In, andb_true_iff, String.eqb_eq, is_null_true. tauto.
Qed.

(** C8.  The response of a sync does not depend on [lastSyncedAt]: with
    or without it the handler ends in the same world with the same
    outcome, and the [serverState] of a successful response is the
    complete non-deleted hierarchy of the store as the merge left it. *)
Theorem serverState_ignores_lastSyncedAt
        (cps : list ClientProject) (since : Timestamp) (w : World) :
  syncData cps (Some since) w = syncData cps None w /\
  (forall l resp w',
      syncData cps l w = (Ok resp, w') ->
      serverState resp = full_hierarchy (db w') /\
      complete_live_hierarchy (db w') (serverState resp)).
Proof.
  split; [reflexivity |].
  intros l resp w'. unfold syncData, bind, getStore, newDate, ret.
  destruct (foldM syncProject no_results cps w) as [[r|e] w1]; [|discriminate].
  intros H; inversion H; subst; simpl.
  split; [reflexivity | apply full_hierarchy_complete].
Qed.

(* ================================================================== *)
(** ** Creation of subtrees by the reconciler *)
(* ================================================================== *)

Lemma build_tasks_reflect (gen : nat -> Id) (gid : Id) (now : Timestamp)
      (cts : list ClientTask) (k : nat) :
  Forall2 (task_reflects gid) cts (Prisma.build_tasks gen k gid now (map task_data cts)).
Proof.
  revert k; induction cts as [|ct cts IH]; intros k; simpl; constructor.
  - unfold task_reflects; simpl; repeat split.
  - apply IH.
Qed.

Lemma build_goals_reflect (gen : nat -> Id) (pid : Id) (now : Timestamp)
      (cgs : list ClientGoal) (k : nat) :
  goals_reflect pid cgs
                (fst (Prisma.build_goals gen k pid now (map goal_data cgs)))
                (snd (Prisma.build_goals gen k pid now (map goal_data cgs))).
Proof.
  revert k; induction cgs as [|cg cgs IH]; intros k; simpl.
  - constructor.
  - constructor; simpl; try reflexivity.
    + apply build_tasks_reflect.
    + apply IH.
Qed.

Lemma goals_reflect_length (pid : Id) (cgs : list ClientGoal) (gs : list Goal)
      (ts : list Task) :
  goals_reflect pid cgs gs ts ->
  List.length gs = List.length cgs /\
  List.length ts = List.length (flat_map cg_tasks cgs).
Proof.
  induction 1 as [|cg cgs g gs ts rest _ _ _ Hts _ [IHg IHt]]; simpl.
  - split; reflexivity.
  - rewrite !length_app, IHg, IHt. apply Forall2_length in Hts. split; congruence.
Qed.

Lemma count_nested_tasks (cgs : list ClientGoal) (n : nat) :
  fold_left (fun sum g => (sum + List.length (cg_tasks g))%nat) cgs n
  = (n + List.length (flat_map cg_tasks cgs))%nat.
Proof.
  revert n; induction cgs as [|cg cgs IH]; intros n; simpl.
  - lia.
  - rewrite IH, length_app. lia.
Qed.

(** The iteration of the loop for a client project without an id. *)
Lemma syncProject_creates_subtree
        (r : SyncResults) (cp : ClientProject) (w : World) :
  client_id (cp_id cp) = None ->
  budget w <> Some O ->
  exists p gs ts w',
    syncProject r cp w
    = (Ok (add_created 1 (List.length (cp_goals cp))
                       (List.length (flat_map cg_tasks (cp_goals cp))) r), w') /\
    projects (db w') = projects (db w) ++ [p] /\
    goals (db w') = goals (db w) ++ gs /\
    tasks (db w') = tasks (db w) ++ ts /\
    p_name p = cp_name cp /\ p_deletedAt p = None /\
    goals_reflect (p_id p) (cp_goals cp) gs ts /\
    List.length gs = List.length (cp_goals cp) /\
    List.length ts = List.length (flat_map cg_tasks (cp_goals cp)).
Proof.
  intros Hid Hb. unfold syncProject. rewrite Hid.
  destruct w as [s clk rd gen iss b].
  unfold Prisma.project_create, bind, write, newDate, reserveIds, ret; simpl in *.
  rewrite count_nested_tasks; simpl.
  pose proof (build_goals_reflect gen (gen iss) (clk rd) (cp_goals cp) (S iss)) as Hr.
  destruct b as [[|n]|]; [congruence | |]; simpl;
    (do 4 eexists; split; [reflexivity |]; simpl;
     repeat (split; [reflexivity |]);
     split; [exact Hr | exact (goals_reflect_length Hr)]).
Qed.

(* ================================================================== *)
(** ** Identifiers the server does not know *)
(* ================================================================== *)

Lemma find_absent {A : Type} (f : A -> bool) (l : list A) :
  (forall x, In x l -> f x = false) -> find f l = None.
Proof.
  induction l as [|a l IH]; intros H; simpl; [reflexivity |].
  rewrite (H a (or_introl eq_refl)). apply IH. intros x Hx; apply H; right; exact Hx.
Qed.

Lemma not_null_false {A : Type} (o : option A) : o <> None -> is_null o = false.
Proof. destruct o; simpl; congruence. Qed.



(* ================================================================== *)
(** ** Counters *)
(* ================================================================== *)

Lemma add_created_zero (r : SyncResults) : add_created 0 0 0 r = r.
Proof.
  destruct r as [[a b c] u k]. unfold add_created; simpl.
  rewrite !Nat.add_0_r. reflexivity.
Qed.

Lemma add_updated_zero (r : SyncResults) : add_updated 0 0 0 r = r.
Proof.
  destruct r as [k [a b c] u]. unfold add_updated; simpl.
  rewrite !Nat.add_0_r. reflexivity.
Qed.

Lemma add_created_twice (a b c a' b' c' : nat) (r : SyncResults) :
  add_created a' b' c' (add_created a b c r)
  = add_created (a + a') (b + b') (c + c') r.
Proof. unfold add_created; simpl. rewrite !Nat.add_assoc. reflexivity. Qed.

Lemma add_updated_twice (a b c a' b' c' : nat) (r : SyncResults) :
  add_updated a' b' c' (add_updated a b c r)
  = add_updated (a + a') (b + b') (c + c') r.
Proof. unfold add_updated; simpl. rewrite !Nat.add_assoc. reflexivity. Qed.

Lemma add_created_updated (a b c a' b' c' : nat) (r : SyncResults) :
  add_created a b c (add_updated a' b' c' r)
  = add_updated a' b' c' (add_created a b c r).
Proof. reflexivity. Qed.

(* ================================================================== *)
(** ** Failure of a write in the middle of a sync *)
(* ================================================================== *)

(** C1 (divergence).  syncData issues its writes one by one, without
    [prisma.$transaction]: when the database refuses the second write
    of a request, the handler ends with an error and the subtree
    inserted by the first write is in the store. *)
Theorem sync_failure_keeps_earlier_writes :
  let w := Demo.world empty_store Demo.ticking (Some 1%nat) in
  exists w',
    syncData [Demo.fresh_P; Demo.fresh_P] None w = (Thrown StoreFailure, w') /\
    db w' <> db w /\
    map p_name (projects (db w')) = ["New"%string] /\
    map g_name (goals (db w')) = ["Ga"%string; "Gb"%string] /\
    List.length (tasks (db w')) = 2%nat.
Proof.
  intros w. eexists. split; [vm_compute; reflexivity |].
  simpl. repeat split. discriminate.
Qed.

(** The same request against a database that accepts every write. *)
Example sync_two_new_projects :
  exists resp w',
    syncData [Demo.fresh_P; Demo.fresh_P] None (Demo.world empty_store Demo.ticking None)
    = (Ok resp, w') /\
    created (syncResults resp) = mkCounts 2 4 4 /\
    updated (syncResults resp) = mkCounts 0 0 0.
Proof. do 2 eexists. split; [vm_compute; reflexivity |]. split; reflexivity. Qed.

(* ================================================================== *)
(** ** Completion timestamps *)
(* ================================================================== *)

(** C2 (divergence).  The reconciler writes the client's [completed] and
    [completedAt] side by side: a matched task sent with
    [completed: true] and no [completedAt] is stored completed with a
    null completion timestamp. *)
Theorem sync_completed_without_timestamp :
  let done := mkClientTask (Some "t1"%string) "T" true MIDDEN false None in
  let cp := mkClientProject (Some "p1"%string) "P" [mkClientGoal (Some "g1"%string) "G" [done]] in
  exists resp w' t,
    syncData [cp] None (Demo.world Demo.small_store Demo.ticking None) = (Ok resp, w') /\
    updated (syncResults resp) = mkCounts 0 0 1 /\
    tasks (db w') = [t] /\
    t_id t = "t1"%string /\ t_completed t = true /\ t_completedAt t = None /\
    ~ completion_stamped t /\
    Forall completion_stamped (tasks Demo.small_store).
Proof.
  intros done cp. do 3 eexists. split; [vm_compute; reflexivity |]. simpl.
  repeat split; try reflexivity.
  - intros [_ H]. apply H; reflexivity.
  - repeat constructor; simpl; intros H; congruence.
Qed.

Lemma unique_row {A : Type} (key : A -> Id) (l : list A) (a b : A) :
  NoDup (map key l) -> In a l -> In b l -> key a = key b -> a = b.
Proof.
  induction l as [|x l IH]; simpl; intros Hnd Ha Hb E; [contradiction |].
  inversion Hnd as [|? ? Hx Hl]; subst.
  destruct Ha as [<- | Ha], Hb as [<- | Hb]; try reflexivity.
  - exfalso; apply Hx. rewrite E. apply in_map, Hb.
  - exfalso; apply Hx. rewrite <- E. apply in_map, Ha.
  - apply IH; assumption.
Qed.

Lemma task_update_ok (id : Id) (f : Task -> Task) (w w' : World) (t' : Task) :
  Prisma.task_update id f w = (Ok t', w') ->
  exists now,
    db w' = set_tasks (map (fun t => if String.eqb (t_id t) id
                                     then Prisma.touch_task now (f t) else t)
                           (tasks (db w))) (db w).
Proof.
  destruct w as [s clk rd gen iss b].
  unfold Prisma.task_update, bind, write, getStore, newDate, putStore, ret; simpl.
  destruct b as [[|n]|]; simpl; try discriminate;
    destruct (find (fun t => String.eqb (t_id t) id) (tasks s)); simpl;
      intros H; inversion H; subst; simpl; eexists; reflexivity.
Qed.

(** X12.  The CRUD update keeps the completion timestamp in step with the
    flag: PUT /api/tasks/:id preserves the invariant on every row. *)
Lemma updateTask_keeps_completion_stamp
      (id : Id) (v : UpdateTask) (w w' : World) (t' : Task) :
  NoDup (map t_id (tasks (db w))) ->
  Forall completion_stamped (tasks (db w)) ->
  updateTask id v w = (Ok t', w') ->
  Forall completion_stamped (tasks (db w')).
Proof.
  intros Hnd Hinv. unfold updateTask. unfold bind at 1, getStore at 1.
  destruct (Prisma.task_findFirst (db w) id) as [ex|] eqn:Hex; [|discriminate].
  unfold bind at 1.
  destruct ((match client_id (u_goalId v) with
             | Some gid =>
                 match Prisma.goal_findFirst (db w) gid with
                 | Some _ => ret tt
                 | None => throw (NotFoundError "Goal" gid)
                 end
             | None => ret tt
             end) w) as [[[]|e] w1] eqn:Hchk; [|discriminate].
  assert (Hdb1 : db w1 = db w).
  { destruct (client_id (u_goalId v)); [destruct (Prisma.goal_findFirst (db w) i) |];
      inversion Hchk; reflexivity. }
  apply find_some in Hex as [Hin Hkey].
  apply andb_true_iff in Hkey as [Hkey _]. apply String.eqb_eq in Hkey.
  assert (Hgoal : forall stamp w2 w3 t3,
             db w2 = db w ->
             (stamp = None \/
              (stamp = Some None /\ u_completed v = Some false) \/
              (exists n, stamp = Some (Some n)) /\ u_completed v = Some true) ->
             (stamp = None -> or_default (u_completed v) (t_completed ex) = t_completed ex) ->
             match u_urgency v with
             | Some None => throw ValidationFailure
             | _ => Prisma.task_update id (apply_update v stamp)
             end w2 = (Ok t3, w3) ->
             Forall completion_stamped (tasks (db w3))).
  { intros stamp w2 w3 t3 Hdb2 Hst Hsame Hrun.
    assert (Hupd : Prisma.task_update id (apply_update v stamp) w2 = (Ok t3, w3)).
    { destruct (u_urgency v) as [[u|]|]; [exact Hrun | discriminate | exact Hrun]. }
    apply task_update_ok in Hupd as [now ->]. simpl. rewrite Hdb2.
    apply Forall_forall. intros t Ht. apply in_map_iff in Ht as [t0 [<- Ht0]].
    rewrite Forall_forall in Hinv. specialize (Hinv t0 Ht0).
    destruct (String.eqb (t_id t0) id) eqn:E; [|exact Hinv].
    apply String.eqb_eq in E.
    assert (t0 = ex) by (apply (unique_row t_id (tasks (db w))); congruence).
    subst t0. unfold completion_stamped in *; simpl.
    destruct Hst as [-> | [[-> Hc] | [[n ->] Hc]]]; simpl.
    - rewrite (Hsame eq_refl). exact Hinv.
    - rewrite Hc; simpl. split; congruence.
    - rewrite Hc; simpl. split; congruence. }
  unfold bind at 1.
  destruct (u_completed v) as [c|] eqn:Hc; simpl.
  - destruct c, (t_completed ex) eqn:Hdone; cbv [andb negb bind newDate ret];
      intros Hrun; refine (Hgoal _ _ _ _ _ _ _ Hrun); simpl;
        try exact Hdb1; try reflexivity; try discriminate.
    + left; reflexivity.
    + right; right; eauto.
    + right; left; split; reflexivity.
    + left; reflexivity.
  - intros Hrun; refine (Hgoal _ _ _ _ _ _ _ Hrun);
      [exact Hdb1 | left; reflexivity | reflexivity].
Qed.

(* ================================================================== *)
(** ** Referential invariant *)
(* ================================================================== *)

Lemma goal_create_ok (pid : Id) (name : string) (ds : list Prisma.TaskData)
      (w w' : World) (g : Goal) :
  Prisma.goal_create pid name ds w = (Ok g, w') ->
  exists ts,
    g = Prisma.new_goal (cuid w (issued w)) pid (clock w (reads w)) name /\
    db w' = mkStore (projects (db w)) (goals (db w) ++ [g]) (tasks (db w) ++ ts).
Proof.
  destruct w as [s clk rd gen iss b].
  unfold Prisma.goal_create, bind, write, getStore, newDate, reserveIds.
  destruct b as [[|n]|]; simpl; try discriminate;
    destruct (Prisma.project_findUnique s pid); simpl; try discriminate;
      intros H; inversion H; subst; simpl; eexists; split; reflexivity.
Qed.

Lemma task_create_ok (gid : Id) (d : Prisma.TaskData) (w w' : World) (t : Task) :
  Prisma.task_create gid d w = (Ok t, w') ->
  t = Prisma.new_task (cuid w (issued w)) gid (clock w (reads w)) d /\
  db w' = set_tasks (tasks (db w) ++ [t]) (db w).
Proof.
  destruct w as [s clk rd gen iss b].
  unfold Prisma.task_create, bind, write, getStore, newDate, reserveIds.
  destruct b as [[|n]|]; simpl; try discriminate;
    destruct (find (fun g => String.eqb (g_id g) gid) (goals s)); simpl; try discriminate;
      intros H; inversion H; subst; simpl; split; reflexivity.
Qed.

(** X15.  POST /api/goals only creates under a non-deleted project. *)
Lemma createGoal_references_live_project (v : CreateGoal) (w w' : World) (g : Goal) :
  createGoal v w = (Ok g, w') ->
  In g (goals (db w')) /\ g_projectId g = cgl_projectId v /\
  references_live_project (db w') g.
Proof.
  unfold createGoal. unfold bind at 1, getStore at 1.
  destruct (Prisma.project_findFirst (db w) (cgl_projectId v)) as [p|] eqn:Hp;
    [|discriminate].
  apply find_some in Hp as [Hin Hlive]. apply andb_true_iff in Hlive as [Hk Hnull].
  apply String.eqb_eq in Hk. apply is_null_true in Hnull.
  intros H. apply goal_create_ok in H as [ts [Hg Hdb]].
  rewrite Hdb; simpl. split; [apply in_or_app; right; left; reflexivity |].
  split; [subst g; reflexivity |].
  exists p. simpl. subst g; simpl. auto.
Qed.

(** X14.  POST /api/tasks only creates under a non-deleted goal. *)
Lemma createTask_references_live_goal (v : CreateTask) (w w' : World) (t : Task) :
  createTask v w = (Ok t, w') ->
  In t (tasks (db w')) /\ t_goalId t = c_goalId v /\
  references_live_goal (db w') t.
Proof.
  unfold createTask. unfold bind at 1, getStore at 1.
  destruct (Prisma.goal_findFirst (db w) (c_goalId v)) as [g|] eqn:Hg; [|discriminate].
  apply find_some in Hg as [Hin Hlive]. apply andb_true_iff in Hlive as [Hk Hnull].
  apply String.eqb_eq in Hk. apply is_null_true in Hnull.
  intros H. apply task_create_ok in H as [Ht Hdb].
  rewrite Hdb; simpl. split; [apply in_or_app; right; left; reflexivity |].
  split; [subst t; reflexivity |].
  exists g. simpl. subst t; simpl. auto.
Qed.

(** C6 (divergence).  The reconciler finds a client project by id
    without looking at [deletedAt]: a goal sent without an id under
    the id of a soft-deleted project is created, not deleted itself,
    under that deleted project. *)
Theorem sync_creates_goal_under_deleted_project :
  let cp := mkClientProject (Some "p1"%string) "P" [mkClientGoal None "Gn" [Demo.fresh_T]] in
  let w := Demo.world Demo.deleted_store Demo.ticking None in
  exists resp w' g p,
    syncData [cp] None w = (Ok resp, w') /\
    created (syncResults resp) = mkCounts 0 1 1 /\
    goals (db w') = goals (db w) ++ [g] /\
    g_deletedAt g = None /\
    In p (projects (db w')) /\ p_id p = g_projectId g /\ p_deletedAt p = Some 50 /\
    unique_keys (db w') /\
    ~ references_live_project (db w') g /\
    serverState resp = [].
Proof.
  intros cp w. do 3 eexists. exists (mkProject "p1" "P" 10 50 (Some 50)).
  split; [vm_compute; reflexivity |]. simpl.
  split; [reflexivity |]. split; [reflexivity |]. split; [reflexivity |].
  split; [left; reflexivity |]. split; [reflexivity |]. split; [reflexivity |].
  split; [| split; [| reflexivity]].
  - unfold unique_keys; simpl.
    repeat split; repeat constructor; simpl; intuition discriminate.
  - intros [q [[<- | []] [_ H]]]. discriminate.
Qed.

(* ================================================================== *)
(** ** Cascading soft delete *)
(* ================================================================== *)

Lemma cascaded_project_rows_kept (id : Id) (s s' : Store) :
  cascaded_project id s s' -> rows_kept s s'.
Proof.
  intros [d1 [d2 [d3 [n1 [n2 [n3 ->]]]]]]. unfold rows_kept; simpl.
  rewrite !map_map. repeat split; apply map_ext; intros a;
    match goal with |- context [if ?c then _ else _] => destruct c end; reflexivity.
Qed.

Lemma cascaded_goal_rows_kept (id : Id) (s s' : Store) :
  cascaded_goal id s s' -> rows_kept s s'.
Proof.
  intros [d1 [d2 [n1 [n2 ->]]]]. unfold rows_kept; simpl.
  rewrite !map_map. repeat split; try reflexivity; apply map_ext; intros a;
    match goal with |- context [if ?c then _ else _] => destruct c end; reflexivity.
Qed.

Lemma Forall2_map_self {A : Type} (R : A -> A -> Prop) (f : A -> A) (l : list A) :
  (forall a, R a (f a)) -> Forall2 R l (map f l).
Proof. intros H; induction l; simpl; constructor; auto. Qed.

Lemma cascaded_project_earlier_kept (id : Id) (s s' : Store) :
  cascaded_project id s s' -> earlier_deletions_kept s s'.
Proof.
  intros [d1 [d2 [d3 [n1 [n2 [n3 ->]]]]]]. unfold earlier_deletions_kept; simpl.
  split; apply Forall2_map_self; intros a Hdel.
  - rewrite (not_null_false Hdel), andb_false_r. reflexivity.
  - unfold task_in_project. rewrite (not_null_false Hdel), andb_false_r. reflexivity.
Qed.

Lemma cascaded_project_deleted (id : Id) (s s' : Store) :
  cascaded_project id s s' -> project_subtree_deleted id s'.
Proof.
  intros [d1 [d2 [d3 [n1 [n2 [n3 ->]]]]]]. unfold project_subtree_deleted; simpl.
  split; [|split].
  - intros p Hp E. apply in_map_iff in Hp as [p0 [<- _]].
    destruct (String.eqb (p_id p0) id) eqn:K; simpl in *; [discriminate |].
    apply String.eqb_neq in K. contradiction.
  - intros g Hg E. apply in_map_iff in Hg as [g0 [<- _]].
    destruct (String.eqb (g_projectId g0) id) eqn:K; simpl in *.
    + destruct (g_deletedAt g0) eqn:D; simpl; [rewrite D |]; discriminate.
    + apply String.eqb_neq in K. contradiction.
  - intros g t Hg Ht E Et. apply in_map_iff in Ht as [t0 [<- Ht0]].
    apply in_map_iff in Hg as [g0 [<- Hg0]].
    assert (Hsub : existsb (fun g => String.eqb (g_id g) (t_goalId t0)
                                     && String.eqb (g_projectId g) id) (goals s) = true).
    { apply existsb_exists. exists g0. split; [exact Hg0 |].
      destruct (String.eqb (g_projectId g0) id && is_null (g_deletedAt g0));
        destruct (task_in_project id s t0); simpl in *;
          rewrite Et, E, !String.eqb_refl; reflexivity. }
    unfold task_in_project. rewrite Hsub. simpl.
    destruct (t_deletedAt t0) eqn:D; simpl; [rewrite D |]; discriminate.
Qed.

Lemma cascaded_goal_earlier_kept (id : Id) (s s' : Store) :
  cascaded_goal id s s' ->
  Forall2 (fun t t' => t_deletedAt t <> None -> t' = t) (tasks s) (tasks s').
Proof.
  intros [d1 [d2 [n1 [n2 ->]]]]. simpl.
  apply Forall2_map_self; intros a Hdel.
  rewrite (not_null_false Hdel), andb_false_r. reflexivity.
Qed.

Lemma cascaded_goal_deleted (id : Id) (s s' : Store) :
  cascaded_goal id s s' -> goal_subtree_deleted id s'.
Proof.
  intros [d1 [d2 [n1 [n2 ->]]]]. unfold goal_subtree_deleted; simpl. split.
  - intros g Hg E. apply in_map_iff in Hg as [g0 [<- _]].
    destruct (String.eqb (g_id g0) id) eqn:K; simpl in *; [discriminate |].
    apply String.eqb_neq in K. contradiction.
  - intros t Ht E. apply in_map_iff in Ht as [t0 [<- _]].
    destruct (String.eqb (t_goalId t0) id) eqn:K; simpl in *.
    + destruct (t_deletedAt t0) eqn:D; simpl; [rewrite D |]; discriminate.
    + apply String.eqb_neq in K. contradiction.
Qed.

Lemma findFirst_findUnique (s : Store) (id : Id) (p : Project) :
  Prisma.project_findFirst s id = Some p -> Prisma.project_findUnique s id <> None.
Proof.
  unfold Prisma.project_findFirst, Prisma.project_findUnique.
  induction (projects s) as [|q l IH]; simpl; [discriminate |].
  destruct (String.eqb (p_id q) id); simpl; [discriminate | exact IH].
Qed.

Lemma goal_findFirst_find (s : Store) (id : Id) (g : Goal) :
  Prisma.goal_findFirst s id = Some g ->
  find (fun g => String.eqb (g_id g) id) (goals s) <> None.
Proof.
  unfold Prisma.goal_findFirst.
  induction (goals s) as [|q l IH]; simpl; [discriminate |].
  destruct (String.eqb (g_id q) id); simpl; [discriminate | exact IH].
Qed.

Lemma deleteProject_run (id : Id) (w w' : World) (out : Outcome unit) :
  deleteProject id w = (out, w') ->
  match out with
  | Ok _ => cascaded_project id (db w) (db w')
  | Thrown _ => db w' = db w
  end.
Proof.
  destruct w as [s clk rd gen iss b].
  unfold deleteProject, bind, getStore; simpl.
  destruct (Prisma.project_findFirst s id) as [p|] eqn:Hp.
  2:{ intros H; inversion H; reflexivity. }
  apply findFirst_findUnique in Hp.
  unfold transaction, Prisma.task_updateMany, Prisma.goal_updateMany,
    Prisma.project_update, bind, write, getStore, newDate, putStore, ret; simpl.
  destruct (Prisma.project_findUnique s id) as [p0|] eqn:Hu; [|congruence].
  unfold Prisma.project_findUnique in Hu.
  destruct b as [[|[|[|n]]]|]; simpl; unfold Prisma.project_findUnique; simpl;
    rewrite ?Hu; simpl;
    intros H; inversion H; subst; simpl; try reflexivity;
      unfold cascaded_project; do 6 eexists; reflexivity.
Qed.

Lemma deleteGoal_run (id : Id) (w w' : World) (out : Outcome Id) :
  deleteGoal id w = (out, w') ->
  match out with
  | Ok _ => cascaded_goal id (db w) (db w')
  | Thrown _ => db w' = db w
  end.
Proof.
  destruct w as [s clk rd gen iss b].
  unfold deleteGoal, bind, getStore; simpl.
  destruct (Prisma.goal_findFirst s id) as [g|] eqn:Hg.
  2:{ intros H; inversion H; reflexivity. }
  apply goal_findFirst_find in Hg.
  unfold transaction, Prisma.task_updateMany, Prisma.goal_update,
    bind, write, getStore, newDate, putStore, ret; simpl.
  destruct (find (fun g => String.eqb (g_id g) id) (goals s)) as [g0|] eqn:Hu;
    [|congruence].
  destruct b as [[|[|n]]|]; simpl; rewrite ?Hu; simpl;
    intros H; inversion H; subst; simpl; try reflexivity;
      unfold cascaded_goal; do 4 eexists; reflexivity.
Qed.

Lemma deleteProject_succeeds (id : Id) (w : World) (p : Project) :
  budget w = None ->
  Prisma.project_findFirst (db w) id = Some p ->
  exists w', deleteProject id w = (Ok tt, w').
Proof.
  destruct w as [s clk rd gen iss b]; simpl. intros -> Hp.
  unfold deleteProject, bind, getStore; simpl. rewrite Hp.
  apply findFirst_findUnique in Hp.
  unfold transaction, Prisma.task_updateMany, Prisma.goal_updateMany,
    Prisma.project_update, bind, write, getStore, newDate, putStore, ret; simpl.
  unfold Prisma.project_findUnique in *; simpl.
  destruct (find (fun p => String.eqb (p_id p) id) (projects s)); [|congruence].
  eexists; reflexivity.
Qed.

Lemma deleteGoal_succeeds (id : Id) (w : World) (g : Goal) :
  budget w = None ->
  Prisma.goal_findFirst (db w) id = Some g ->
  exists w', deleteGoal id w = (Ok id, w').
Proof.
  destruct w as [s clk rd gen iss b]; simpl. intros -> Hg.
  unfold deleteGoal, bind, getStore; simpl. rewrite Hg.
  apply goal_findFirst_find in Hg.
  unfold transaction, Prisma.task_updateMany, Prisma.goal_update,
    bind, write, getStore, newDate, putStore, ret; simpl.
  destruct (find (fun g => String.eqb (g_id g) id) (goals s)); [|congruence].
  eexists; reflexivity.
Qed.

(** The stamps of the project cascade are three readings of the clock:
    the first, the third and the fifth the request takes (each write
    reads it once more for [updatedAt]). *)
Lemma deleteProject_stamps (id : Id) (w w' : World) :
  deleteProject id w = (Ok tt, w') ->
  db w' = mkStore
            (map (fun p => if String.eqb (p_id p) id
                           then Prisma.touch_project (clock w (5 + reads w)%nat)
                                  (mark_project_deleted (clock w (4 + reads w)%nat) p)
                           else p)
                 (projects (db w)))
            (map (fun g => if String.eqb (g_projectId g) id && is_null (g_deletedAt g)
                           then Prisma.touch_goal (clock w (3 + reads w)%nat)
                                  (mark_goal_deleted (clock w (2 + reads w)%nat) g)
                           else g)
                 (goals (db w)))
            (map (fun t => if task_in_project id (db w) t
                           then Prisma.touch_task (clock w (1 + reads w)%nat)
                                  (mark_task_deleted (clock w (reads w)) t)
                           else t)
                 (tasks (db w))).
Proof.
  destruct w as [s clk rd gen iss b].
  unfold deleteProject, bind, getStore; simpl.
  destruct (Prisma.project_findFirst s id) as [p|] eqn:Hp; [|discriminate].
  apply findFirst_findUnique in Hp.
  unfold transaction, Prisma.task_updateMany, Prisma.goal_updateMany,
    Prisma.project_update, bind, write, getStore, newDate, putStore, ret; simpl.
  destruct (Prisma.project_findUnique s id) as [p0|] eqn:Hu; [|congruence].
  unfold Prisma.project_findUnique in Hu.
  destruct b as [[|[|[|n]]]|]; simpl; unfold Prisma.project_findUnique; simpl;
    rewrite ?Hu; simpl;
    intros H; inversion H; subst; simpl; reflexivity.
Qed.

Lemma deleteGoal_stamps (id : Id) (w w' : World) (r : Id) :
  deleteGoal id w = (Ok r, w') ->
  db w' = mkStore
            (projects (db w))
            (map (fun g => if String.eqb (g_id g) id
                           then Prisma.touch_goal (clock w (3 + reads w)%nat)
                                  (mark_goal_deleted (clock w (2 + reads w)%nat) g)
                           else g)
                 (goals (db w)))
            (map (fun t => if String.eqb (t_goalId t) id && is_null (t_deletedAt t)
                           then Prisma.touch_task (clock w (1 + reads w)%nat)
                                  (mark_task_deleted (clock w (reads w)) t)
                           else t)
                 (tasks (db w))).
Proof.
  destruct w as [s clk rd gen iss b].
  unfold deleteGoal, bind, getStore; simpl.
  destruct (Prisma.goal_findFirst s id) as [g|] eqn:Hg; [|discriminate].
  apply goal_findFirst_find in Hg.
  unfold transaction, Prisma.task_updateMany, Prisma.goal_update,
    bind, write, getStore, newDate, putStore, ret; simpl.
  destruct (find (fun g => String.eqb (g_id g) id) (goals s)) as [g0|] eqn:Hu;
    [|congruence].
  destruct b as [[|[|n]]|]; simpl; rewrite ?Hu; simpl;
    intros H; inversion H; subst; simpl; reflexivity.
Qed.

Lemma deleteProject_stamped (id : Id) (w w' : World) :
  deleteProject id w = (Ok tt, w') ->
  project_cascade_stamped id (clock w (reads w)) (clock w (2 + reads w)%nat)
                          (clock w (4 + reads w)%nat) (db w) (db w').
Proof.
  intros H. rewrite (deleteProject_stamps _ _ H). unfold project_cascade_stamped; simpl.
  split; [|split]; apply Forall2_map_self.
  - intros t Hlive [g [Hg [Hk Hp]]].
    assert (Hsel : task_in_project id (db w) t = true).
    { unfold task_in_project. rewrite Hlive, andb_true_r.
      apply existsb_exists. exists g. rewrite Hk, Hp, !String.eqb_refl. auto. }
    rewrite Hsel. reflexivity.
  - intros g Hlive Hp. rewrite Hp, String.eqb_refl, Hlive. reflexivity.
  - intros p Hk. rewrite Hk, String.eqb_refl. reflexivity.
Qed.

Lemma deleteGoal_stamped (id : Id) (w w' : World) (r : Id) :
  deleteGoal id w = (Ok r, w') ->
  goal_cascade_stamped id (clock w (reads w)) (clock w (2 + reads w)%nat) (db w) (db w').
Proof.
  intros H. rewrite (deleteGoal_stamps _ _ H). unfold goal_cascade_stamped; simpl.
  split; apply Forall2_map_self.
  - intros t Hlive Hk. rewrite Hk, String.eqb_refl, Hlive. reflexivity.
  - intros g Hk. rewrite Hk, String.eqb_refl. reflexivity.
Qed.

(** C7 (as amended).  Soft-deleting a project or a goal runs in one
    transaction.  When it succeeds, the entity and those of its
    descendants that were not yet deleted receive a deletion stamp,
    every other row (descendants deleted earlier among them) is left
    as it was, so that afterwards the entity and all its descendants
    are deleted and each table holds the same keys as before.  The
    stamp is read from the clock once per table while the transaction
    runs, first for the tasks, then for the goals, then for the
    project: the rows of one table that the operation marks share
    their [deletedAt], and the entity and its descendants share one
    whenever the clock shows the same instant at those readings.  When
    the handler fails, whether before or inside the transaction, the
    store is the one it started from.  With a database that accepts
    writes, deleting a non-deleted entity succeeds. *)
Theorem soft_delete_cascade (id : Id) (w : World) :
  (forall out w',
      deleteProject id w = (out, w') ->
      match out with
      | Ok _ => cascaded_project id (db w) (db w') /\
                project_subtree_deleted id (db w') /\
                earlier_deletions_kept (db w) (db w') /\
                rows_kept (db w) (db w') /\
                project_cascade_stamped id (clock w (reads w)) (clock w (2 + reads w)%nat)
                                        (clock w (4 + reads w)%nat) (db w) (db w') /\
                (clock w (2 + reads w)%nat = clock w (reads w) ->
                 clock w (4 + reads w)%nat = clock w (reads w) ->
                 one_consistent_timestamp_project id (db w) (db w'))
      | Thrown _ => db w' = db w
      end) /\
  (forall out w',
      deleteGoal id w = (out, w') ->
      match out with
      | Ok _ => cascaded_goal id (db w) (db w') /\
                goal_subtree_deleted id (db w') /\
                Forall2 (fun t t' => t_deletedAt t <> None -> t' = t)
                        (tasks (db w)) (tasks (db w')) /\
                rows_kept (db w) (db w') /\
                goal_cascade_stamped id (clock w (reads w)) (clock w (2 + reads w)%nat)
                                     (db w) (db w') /\
                (clock w (2 + reads w)%nat = clock w (reads w) ->
                 one_consistent_timestamp_goal id (db w) (db w'))
      | Thrown _ => db w' = db w
      end) /\
  (budget w = None ->
   (forall p, Prisma.project_findFirst (db w) id = Some p ->
              exists w', deleteProject id w = (Ok tt, w')) /\
   (forall g, Prisma.goal_findFirst (db w) id = Some g ->
              exists w', deleteGoal id w = (Ok id, w'))).
Proof.
  split; [|split].
  - intros out w' H. pose proof (deleteProject_run _ _ H) as Hrun.
    destruct out as [[]|e]; [|exact Hrun].
    pose proof (deleteProject_stamped _ _ H) as Hst.
    split; [exact Hrun |].
    split; [eapply cascaded_project_deleted; exact Hrun |].
    split; [eapply cascaded_project_earlier_kept; exact Hrun |].
    split; [eapply cascaded_project_rows_kept; exact Hrun |].
    split; [exact Hst |].
    intros E2 E4. exists (clock w (reads w)). rewrite E2, E4 in Hst. exact Hst.
  - intros out w' H. pose proof (deleteGoal_run _ _ H) as Hrun.
    destruct out as [r|e]; [|exact Hrun].
    pose proof (deleteGoal_stamped _ _ H) as Hst.
    split; [exact Hrun |].
    split; [eapply cascaded_goal_deleted; exact Hrun |].
    split; [eapply cascaded_goal_earlier_kept; exact Hrun |].
    split; [eapply cascaded_goal_rows_kept; exact Hrun |].
    split; [exact Hst |].
    intros E2. exists (clock w (reads w)). rewrite E2 in Hst. exact Hst.
  - intros Hb. split; intros x Hx;
      [eapply deleteProject_succeeds | eapply deleteGoal_succeeds]; eassumption.
Qed.

Lemma soft_delete_cascade_witness :
  let w := Demo.world Demo.small_store Demo.frozen None in
  exists w',
    deleteProject "p1" w = (Ok tt, w') /\
    project_subtree_deleted "p1" (db w') /\
    rows_kept (db w) (db w') /\
    one_consistent_timestamp_project "p1" (db w) (db w').
Proof.
  intros w.
  destruct (soft_delete_cascade "p1" w) as [Hrun [_ Hok]].
  destruct (proj1 (Hok eq_refl) Demo.project_P eq_refl) as [w' Hw'].
  exists w'. split; [exact Hw' |].
  specialize (Hrun (Ok tt) w' Hw'). simpl in Hrun.
  destruct Hrun as [_ [Hdel [_ [Hkept [_ Hone]]]]].
  split; [exact Hdel |]. split; [exact Hkept |]. apply Hone; reflexivity.
Defined.

(** C7 (as stated).  With a clock that advances between the statements
    of the transaction, deleting project "p1", none of whose
    descendants was deleted before, leaves its task, its goal and the
    project itself with three different [deletedAt] values: each of
    the three writes takes its stamp from its own [new Date()]. *)
Lemma cascade_stamps_differ_per_table :
  let w := Demo.world Demo.small_store Demo.ticking None in
  exists w',
    deleteProject "p1" w = (Ok tt, w') /\
    map t_deletedAt (tasks (db w')) = [Some 1000] /\
    map g_deletedAt (goals (db w')) = [Some 1002] /\
    map p_deletedAt (projects (db w')) = [Some 1004] /\
    ~ one_consistent_timestamp_project "p1" (db w) (db w').
Proof.
  intros w. eexists. split; [vm_compute; reflexivity |].
  simpl. repeat (split; [reflexivity |]).
  intros [d [Ht [Hg _]]].
  apply Forall2_cons_iff in Ht as [Ht _]. apply Forall2_cons_iff in Hg as [Hg _].
  simpl in Ht, Hg.
  assert (E1 : Some 1000 = Some d).
  { apply Ht; [reflexivity |]. exists Demo.goal_G. simpl. auto. }
  assert (E2 : Some 1002 = Some d) by (apply Hg; reflexivity).
  congruence.
Qed.

(** A goal deleted by an earlier request keeps the stamp of that
    request when its project is deleted later. *)
Example cascade_keeps_earlier_stamp :
  let w0 := Demo.world Demo.small_store Demo.two_requests None in
  exists w1 w2,
    deleteGoal "g1" w0 = (Ok "g1"%string, w1) /\
    deleteProject "p1" w1 = (Ok tt, w2) /\
    map p_deletedAt (projects (db w2)) = [Some 90] /\
    map g_deletedAt (goals (db w2)) = [Some 20] /\
    map t_deletedAt (tasks (db w2)) = [Some 20].
Proof.
  intros w0. do 2 eexists.
  split; [vm_compute; reflexivity |]. split; [vm_compute; reflexivity |].
  simpl. repeat split.
Qed.

Lemma serverState_ignores_lastSyncedAt_witness :
  let w := Demo.world Demo.small_store Demo.ticking None in
  syncData [Demo.client_P] (Some 5) w = syncData [Demo.client_P] None w /\
  exists resp w',
    syncData [Demo.client_P] (Some 5) w = (Ok resp, w') /\
    serverState resp = full_hierarchy (db w').
Proof.
  intros w.
  destruct (serverState_ignores_lastSyncedAt [Demo.client_P] 5 w) as [Hsame Hstate].
  split; [exact Hsame |].
  do 2 eexists. split; [vm_compute; reflexivity |].
  eapply (proj1 (Hstate (Some 5) _ _ _)).
  Unshelve. vm_compute; reflexivity.
Defined.

(* ================================================================== *)
(** ** Tables under id-matched overwrites *)
(* ================================================================== *)

Lemma in_ids_of {C : Type} (cid : C -> option Id) (cs : list C) (i : Id) :
  In i (ids_of cid cs) <-> exists c, In c cs /\ client_id (cid c) = Some i.
Proof.
  unfold ids_of. rewrite in_flat_map. split.
  - intros [c [Hc Hi]]. exists c. split; [exact Hc |].
    destruct (client_id (cid c)); simpl in Hi; [|contradiction].
    destruct Hi as [-> | []]. reflexivity.
  - intros [c [Hc Hi]]. exists c. split; [exact Hc |]. rewrite Hi. left; reflexivity.
Qed.

Lemma ids_of_app {C : Type} (cid : C -> option Id) (l1 l2 : list C) :
  ids_of cid (l1 ++ l2) = ids_of cid l1 ++ ids_of cid l2.
Proof. unfold ids_of. apply flat_map_app. Qed.

Lemma NoDup_app_disjoint {A : Type} (l1 l2 : list A) :
  NoDup (l1 ++ l2) ->
  NoDup l1 /\ NoDup l2 /\ (forall x, In x l1 -> ~ In x l2).
Proof.
  induction l1 as [|a l1 IH]; simpl; intros H.
  - repeat split; [constructor | exact H | intros x []].
  - inversion H as [|? ? Ha Hl]; subst. destruct (IH Hl) as [H1 [H2 H3]].
    split; [|split].
    + constructor; [|exact H1]. intros Hin. apply Ha, in_or_app. left; exact Hin.
    + exact H2.
    + intros x [<- | Hx]; [|apply H3, Hx].
      intros Hin. apply Ha, in_or_app. right; exact Hin.
Qed.

Lemma Forall2_same {A : Type} (R : A -> A -> Prop) (l : list A) :
  (forall a, In a l -> R a a) -> Forall2 R l l.
Proof.
  induction l as [|a l IH]; intros H; constructor.
  - apply H; left; reflexivity.
  - apply IH. intros b Hb; apply H; right; exact Hb.
Qed.

Lemma Forall2_In_r {A B : Type} (R : A -> B -> Prop) (l : list A) (l' : list B) (b : B) :
  Forall2 R l l' -> In b l' -> exists a, In a l /\ R a b.
Proof.
  induction 1 as [|x y l l' Hxy _ IH]; simpl; [intros [] |].
  intros [<- | Hb].
  - exists x. auto.
  - destruct (IH Hb) as [a [Ha Hr]]. exists a. auto.
Qed.

Lemma Forall2_compose {A : Type} (R1 R2 R3 : A -> A -> Prop) (l1 l2 l3 : list A) :
  (forall a b c, R1 a b -> R2 b c -> R3 a c) ->
  Forall2 R1 l1 l2 -> Forall2 R2 l2 l3 -> Forall2 R3 l1 l3.
Proof.
  intros Hc H12. revert l3. induction H12 as [|a b l1 l2 Hab _ IH]; intros l3 H23.
  - inversion H23; constructor.
  - inversion H23 as [|? c ? l3' Hbc Hrest]; subst. constructor; eauto.
Qed.

Section OverwriteFacts.

Context {Row C : Type}.
Variable rid : Row -> Id.
Variable cid : C -> option Id.
Variable kept : Row -> Row -> Prop.
Variable agrees : C -> Row -> Prop.
Hypothesis kept_rid : forall a a', kept a a' -> rid a' = rid a.

Lemma overwritten_rid (cs : list C) (a a' : Row) :
  overwritten rid cid kept agrees cs a a' -> rid a' = rid a.
Proof using kept_rid.
  intros [Hin Hout].
  destruct (in_dec string_dec (rid a) (ids_of cid cs)) as [Hi | Hi].
  - apply in_ids_of in Hi as [c [Hc Hid]]. apply kept_rid, (Hin c Hc Hid).
  - rewrite (Hout Hi). reflexivity.
Qed.

Lemma table_overwritten_key {K : Type} (key : Row -> K) (cs : list C) (l l' : list Row) :
  (forall a a', kept a a' -> key a' = key a) ->
  table_overwritten rid cid kept agrees cs l l' ->
  map key l' = map key l.
Proof using Type.
  intros Hk. induction 1 as [|a a' l l' [Hin Hout] _ IH]; simpl; [reflexivity |].
  f_equal; [|exact IH].
  destruct (in_dec string_dec (rid a) (ids_of cid cs)) as [Hi | Hi].
  - apply in_ids_of in Hi as [c [Hc Hid]]. apply Hk, (Hin c Hc Hid).
  - rewrite (Hout Hi). reflexivity.
Qed.

Lemma table_overwritten_nil (l l' : list Row) :
  table_overwritten rid cid kept agrees [] l l' -> l' = l.
Proof using Type.
  induction 1 as [|a a' l l' [_ Hout] _ IH]; [reflexivity |].
  rewrite IH, (Hout (fun H => H)). reflexivity.
Qed.

Lemma table_overwritten_refl (l : list Row) :
  table_overwritten rid cid kept agrees [] l l.
Proof using Type.
  apply Forall2_same. intros a _. split; [intros c [] | reflexivity].
Qed.

Lemma table_overwritten_app (A B : list C) (l l1 l2 : list Row) :
  (forall i, In i (ids_of cid A) -> ~ In i (ids_of cid B)) ->
  table_overwritten rid cid kept agrees A l l1 ->
  table_overwritten rid cid kept agrees B l1 l2 ->
  table_overwritten rid cid kept agrees (A ++ B) l l2.
Proof using kept_rid.
  intros Hdis. apply Forall2_compose. intros a a1 a2 H1 H2.
  pose proof (overwritten_rid H1) as E1.
  destruct H1 as [Hin1 Hout1], H2 as [Hin2 Hout2]. split.
  - intros c Hc Hid. apply in_app_or in Hc as [Hc | Hc].
    + assert (Hn : ~ In (rid a1) (ids_of cid B)).
      { rewrite E1. apply Hdis, in_ids_of. exists c; auto. }
      rewrite (Hout2 Hn). apply (Hin1 c Hc Hid).
    + assert (Hn : ~ In (rid a) (ids_of cid A)).
      { intros Hi. apply (Hdis _ Hi), in_ids_of. exists c; auto. }
      rewrite (Hout1 Hn) in *. apply (Hin2 c Hc Hid).
  - intros Hn. rewrite ids_of_app in Hn.
    assert (Hn1 : ~ In (rid a) (ids_of cid A)) by (intros Hi; apply Hn, in_or_app; auto).
    assert (Hn2 : ~ In (rid a) (ids_of cid B)) by (intros Hi; apply Hn, in_or_app; auto).
    rewrite (Hout1 Hn1) in *. apply (Hout2 Hn2).
Qed.

Lemma table_overwritten_agreeing (cs : list C) (l l' : list Row) :
  table_overwritten rid cid kept agrees cs l l' ->
  agreeing rid cid agrees cs l'.
Proof using kept_rid.
  intros H c a' Hc Ha' Hid.
  destruct (@Forall2_In_r _ _ (overwritten rid cid kept agrees cs) _ _ a' H Ha') as [a [_ Hr]].
  pose proof (overwritten_rid Hr) as E. rewrite E in Hid.
  apply (proj1 Hr c Hc Hid).
Qed.

Lemma agreeing_frame (A B : list C) (l l' : list Row) :
  (forall i, In i (ids_of cid A) -> ~ In i (ids_of cid B)) ->
  table_overwritten rid cid kept agrees A l l' ->
  agreeing rid cid agrees B l ->
  agreeing rid cid agrees B l'.
Proof using kept_rid.
  intros Hdis H Hag c a' Hc Ha' Hid.
  destruct (@Forall2_In_r _ _ (overwritten rid cid kept agrees A) _ _ a' H Ha') as [a [Ha Hr]].
  pose proof (overwritten_rid Hr) as E.
  assert (Hn : ~ In (rid a) (ids_of cid A)).
  { intros Hi. apply (Hdis _ Hi), in_ids_of. exists c. rewrite <- E. auto. }
  rewrite (proj2 Hr Hn) in *. apply (Hag c a Hc Ha Hid).
Qed.

Lemma table_overwritten_untouched (cs : list C) (l l' : list Row) (a' : Row) :
  table_overwritten rid cid kept agrees cs l l' ->
  In a' l' -> ~ In (rid a') (ids_of cid cs) -> In a' l.
Proof using kept_rid.
  intros H Ha' Hn.
  destruct (@Forall2_In_r _ _ (overwritten rid cid kept agrees cs) _ _ a' H Ha') as [a [Ha Hr]].
  pose proof (overwritten_rid Hr) as E. rewrite E in Hn.
  rewrite (proj2 Hr Hn). exact Ha.
Qed.

Lemma table_overwritten_stable (forget : Row -> Row) (cs : list C) (l l' : list Row) :
  (forall c a a', kept a a' -> agrees c a -> agrees c a' -> forget a' = forget a) ->
  agreeing rid cid agrees cs l ->
  table_overwritten rid cid kept agrees cs l l' ->
  map forget l' = map forget l.
Proof using Type.
  intros Hf Hag H. induction H as [|a a' l l' [Hin Hout] _ IH]; simpl; [reflexivity |].
  f_equal.
  - destruct (in_dec string_dec (rid a) (ids_of cid cs)) as [Hi | Hi].
    + apply in_ids_of in Hi as [c [Hc Hid]].
      destruct (Hin c Hc Hid) as [Hk Ha'].
      apply (Hf c); [exact Hk | | exact Ha'].
      apply Hag; [exact Hc | left; reflexivity | exact Hid].
    + rewrite (Hout Hi). reflexivity.
  - apply IH. intros c b Hc Hb. apply Hag; [exact Hc | right; exact Hb].
Qed.

(** One [update({ where: { id } })] as an overwrite by a single entry. *)
Lemma update_overwritten (c : C) (i : Id) (f : Row -> Row) (l : list Row) :
  client_id (cid c) = Some i ->
  (forall a, kept a (f a) /\ agrees c (f a)) ->
  table_overwritten rid cid kept agrees [c] l
    (map (fun a => if String.eqb (rid a) i then f a else a) l).
Proof using Type.
  intros Hid Hf. apply Forall2_map_self. intros a. split.
  - intros c' [<- | []] Hc'. rewrite Hid in Hc'. inversion Hc'; subst.
    rewrite String.eqb_refl. apply Hf.
  - intros Hn. destruct (String.eqb (rid a) i) eqn:E; [|reflexivity].
    apply String.eqb_eq in E. exfalso. apply Hn, in_ids_of.
    exists c. split; [left; reflexivity | congruence].
Qed.

(** No write at all, when the rows with that id already agree. *)
Lemma skip_overwritten (c : C) (i : Id) (l : list Row) :
  client_id (cid c) = Some i ->
  (forall a, kept a a) ->
  (forall a, In a l -> rid a = i -> agrees c a) ->
  table_overwritten rid cid kept agrees [c] l l.
Proof using Type.
  intros Hid Hk Hag. apply Forall2_same. intros a Ha. split.
  - intros c' [<- | []] Hc'. rewrite Hid in Hc'. inversion Hc'; subst.
    split; [apply Hk | apply Hag; [exact Ha | reflexivity]].
  - reflexivity.
Qed.

End OverwriteFacts.

(* ================================================================== *)
(** ** Stores under a merge *)
(* ================================================================== *)

Lemma project_kept_id (p p' : Project) : project_kept p p' -> p_id p' = p_id p.
Proof. intros H; apply H. Qed.

Lemma goal_kept_id (g g' : Goal) : goal_kept g g' -> g_id g' = g_id g.
Proof. intros H; apply H. Qed.

Lemma task_kept_id (t t' : Task) : task_kept t t' -> t_id t' = t_id t.
Proof. intros H; apply H. Qed.

Lemma merged_refl (s : Store) : merged [] [] [] s s.
Proof. repeat split; apply table_overwritten_refl. Qed.


Lemma disjoint_nil_l (l : list Id) : disjoint [] l.
Proof. intros i []. Qed.

Lemma disjoint_nil_r (l : list Id) : disjoint l [].
Proof. intros i _ []. Qed.

Lemma merged_app (A A' : list ClientProject) (B B' : list ClientGoal)
      (C C' : list ClientTask) (s s1 s2 : Store) :
  disjoint (ids_of cp_id A) (ids_of cp_id A') ->
  disjoint (ids_of cg_id B) (ids_of cg_id B') ->
  disjoint (ids_of ct_id C) (ids_of ct_id C') ->
  merged A B C s s1 -> merged A' B' C' s1 s2 ->
  merged (A ++ A') (B ++ B') (C ++ C') s s2.
Proof.
  intros Ha Hb Hc [H1 [H2 H3]] [K1 [K2 K3]]. split; [|split].
  - eapply table_overwritten_app; eauto using project_kept_id.
  - eapply table_overwritten_app; eauto using goal_kept_id.
  - eapply table_overwritten_app; eauto using task_kept_id.
Qed.




Lemma merged_same_shape (A : list ClientProject) (B : list ClientGoal)
      (C : list ClientTask) (s s' : Store) :
  merged A B C s s' -> same_shape s s'.
Proof.
  intros [H1 [H2 H3]]. split; [|split].
  - eapply table_overwritten_key; [| exact H1].
    intros a a' H; apply H.
  - eapply table_overwritten_key; [| exact H2].
    intros a a' [E1 [E2 [_ E3]]]. unfold goal_place. congruence.
  - eapply table_overwritten_key; [| exact H3].
    intros a a' [E1 [E2 [_ E3]]]. unfold task_place. congruence.
Qed.

Lemma map_fst_place {A : Type} (place : A -> Id * Id * option Timestamp) (key : A -> Id)
      (l l' : list A) :
  (forall a, fst (fst (place a)) = key a) ->
  map place l' = map place l -> map key l' = map key l.
Proof.
  intros Hk H.
  rewrite (map_ext _ _ (fun a => eq_sym (Hk a)) l), (map_ext _ _ (fun a => eq_sym (Hk a)) l').
  rewrite <- !(map_map place (fun x => fst (fst x))). rewrite H. reflexivity.
Qed.

Lemma same_shape_keys (s s' : Store) :
  same_shape s s' ->
  map g_id (goals s') = map g_id (goals s) /\ map t_id (tasks s') = map t_id (tasks s).
Proof.
  intros [_ [Hg Ht]]. split.
  - apply (map_fst_place goal_place); [reflexivity | exact Hg].
  - apply (map_fst_place task_place); [reflexivity | exact Ht].
Qed.

Lemma same_shape_unique_keys (s s' : Store) :
  same_shape s s' -> unique_keys s -> unique_keys s'.
Proof.
  intros Hs [Up [Ug Ut]]. destruct (same_shape_keys Hs) as [Eg Et].
  destruct Hs as [Ep _]. unfold unique_keys. rewrite Ep, Eg, Et. auto.
Qed.

Lemma in_same_place {A K : Type} (place : A -> K) (l l' : list A) (a : A) :
  map place l' = map place l -> In a l -> exists a', In a' l' /\ place a' = place a.
Proof.
  intros E Ha. apply (in_map place) in Ha. rewrite <- E in Ha.
  apply in_map_iff in Ha as [a' [E' Ha']]. exists a'. auto.
Qed.

Lemma same_shape_matched (s s' : Store) (cps : list ClientProject) :
  same_shape s s' -> snapshot_matched s cps -> snapshot_matched s' cps.
Proof.
  intros [Ep [Eg Et]]. unfold snapshot_matched.
  apply Forall_impl. intros cp [p [Hid [Hp Hgs]]].
  destruct (in_same_place p_id _ _ p Ep Hp) as [p' [Hp' Ek]].
  exists p'. rewrite Ek. split; [exact Hid | split; [exact Hp' |]].
  revert Hgs. apply Forall_impl. intros cg [g [Hgid [Hg [Hpar [Hlive Hts]]]]].
  destruct (in_same_place goal_place _ _ g Eg Hg) as [g' [Hg' Egp]].
  inversion Egp as [[E1 E2 E3]].
  exists g'. rewrite E1, E2, E3. repeat split; try assumption.
  revert Hts. apply Forall_impl. intros ct [t [Htid [Ht [Htpar Htlive]]]].
  destruct (in_same_place task_place _ _ t Et Ht) as [t' [Ht' Etp]].
  inversion Etp as [[F1 F2 F3]].
  exists t'. rewrite F1, F2, F3. repeat split; assumption.
Qed.

(* ================================================================== *)
(** ** Finding rows by key *)
(* ================================================================== *)

Lemma find_present {A : Type} (f : A -> bool) (l : list A) (a : A) :
  In a l -> f a = true -> find f l <> None.
Proof.
  induction l as [|x l IH]; simpl; [intros [] |].
  intros [<- | Ha] Hf.
  - rewrite Hf. discriminate.
  - destruct (f x); [discriminate | apply IH; assumption].
Qed.

Lemma find_the_row {A : Type} (key : A -> Id) (i : Id) (l : list A) (a : A) :
  NoDup (map key l) -> In a l -> key a = i ->
  find (fun x => String.eqb (key x) i) l = Some a.
Proof.
  intros Hnd Ha Hk.
  destruct (find (fun x => String.eqb (key x) i) l) as [b|] eqn:E.
  - apply find_some in E as [Hb Hkb]. apply String.eqb_eq in Hkb.
    f_equal. apply (unique_row key l); congruence.
  - exfalso. apply (find_present (fun x => String.eqb (key x) i) l a Ha); [|exact E].
    apply String.eqb_eq, Hk.
Qed.

Lemma find_goal_node_gen (node : Goal -> GoalNode) (l : list Goal) (pid : Id) (g : Goal) :
  (forall x, gn_goal (node x) = x) ->
  NoDup (map g_id l) ->
  In g l -> g_projectId g = pid -> g_deletedAt g = None ->
  find (fun n => String.eqb (g_id (gn_goal n)) (g_id g))
       (map node (filter (fun x => String.eqb (g_projectId x) pid && is_null (g_deletedAt x)) l))
  = Some (node g).
Proof.
  intros Hnode Hnd Hg Hp Hlive. subst pid.
  induction l as [|x l IH]; simpl in *; [contradiction |].
  inversion Hnd as [|? ? Hx Hl]; subst.
  destruct Hg as [-> | Hg].
  - rewrite String.eqb_refl, Hlive. simpl. rewrite Hnode, String.eqb_refl. reflexivity.
  - destruct (String.eqb (g_projectId x) (g_projectId g) && is_null (g_deletedAt x));
      simpl; [|apply IH; assumption].
    rewrite Hnode.
    destruct (String.eqb (g_id x) (g_id g)) eqn:E; [|apply IH; assumption].
    apply String.eqb_eq in E. exfalso. apply Hx. rewrite E. apply in_map, Hg.
Qed.

Lemma find_goal_node (s : Store) (p : Project) (g : Goal) :
  NoDup (map g_id (goals s)) ->
  In g (goals s) -> g_projectId g = p_id p -> g_deletedAt g = None ->
  find (fun n => String.eqb (g_id (gn_goal n)) (g_id g)) (pn_goals (include_tree s p))
  = Some (mkGoalNode g (live_tasks_of s (g_id g))).
Proof.
  intros Hnd Hg Hp Hlive. unfold include_tree, live_goals_of; simpl.
  apply (find_goal_node_gen (fun g => mkGoalNode g (live_tasks_of s (g_id g))));
    auto.
Qed.

Lemma find_live_task (s : Store) (gid : Id) (t : Task) :
  In t (tasks s) -> t_goalId t = gid -> t_deletedAt t = None ->
  find (fun x => String.eqb (t_id x) (t_id t)) (live_tasks_of s gid) <> None.
Proof.
  intros Ht Hg Hlive. apply find_present with (a := t).
  - unfold live_tasks_of. apply filter_In. split; [exact Ht |].
    rewrite Hg, String.eqb_refl, Hlive. reflexivity.
  - apply String.eqb_refl.
Qed.

(* ================================================================== *)
(** ** Updates against a database that accepts writes *)
(* ================================================================== *)

Lemma in_keys_find {A : Type} (key : A -> Id) (i : Id) (l : list A) :
  In i (map key l) -> find (fun x => String.eqb (key x) i) l <> None.
Proof.
  intros H. apply in_map_iff in H as [a [Hk Ha]].
  apply find_present with (a := a); [exact Ha | apply String.eqb_eq, Hk].
Qed.

Lemma task_update_healthy (id : Id) (f : Task -> Task) (w : World) :
  budget w = None ->
  In id (map t_id (tasks (db w))) ->
  exists t' w',
    Prisma.task_update id f w = (Ok t', w') /\
    budget w' = None /\
    db w' = set_tasks (map (fun t => if String.eqb (t_id t) id
                                     then Prisma.touch_task (clock w (reads w)) (f t)
                                     else t)
                           (tasks (db w))) (db w).
Proof.
  destruct w as [s clk rd gen iss b]; simpl. intros -> Hin.
  apply in_keys_find in Hin.
  unfold Prisma.task_update, bind, write, getStore, newDate, putStore, ret; simpl.
  destruct (find (fun t => String.eqb (t_id t) id) (tasks s)); [|congruence].
  do 2 eexists. split; [reflexivity |]. split; reflexivity.
Qed.

Lemma goal_update_healthy (id : Id) (f : Goal -> Goal) (w : World) :
  budget w = None ->
  In id (map g_id (goals (db w))) ->
  exists g' w',
    Prisma.goal_update id f w = (Ok g', w') /\
    budget w' = None /\
    db w' = set_goals (map (fun g => if String.eqb (g_id g) id
                                     then Prisma.touch_goal (clock w (reads w)) (f g)
                                     else g)
                           (goals (db w))) (db w).
Proof.
  destruct w as [s clk rd gen iss b]; simpl. intros -> Hin.
  apply in_keys_find in Hin.
  unfold Prisma.goal_update, bind, write, getStore, newDate, putStore, ret; simpl.
  destruct (find (fun g => String.eqb (g_id g) id) (goals s)); [|congruence].
  do 2 eexists. split; [reflexivity |]. split; reflexivity.
Qed.

Lemma project_update_healthy (id : Id) (f : Project -> Project) (w : World) :
  budget w = None ->
  In id (map p_id (projects (db w))) ->
  exists p' w',
    Prisma.project_update id f w = (Ok p', w') /\
    budget w' = None /\
    db w' = set_projects (map (fun p => if String.eqb (p_id p) id
                                        then Prisma.touch_project (clock w (reads w)) (f p)
                                        else p)
                              (projects (db w))) (db w).
Proof.
  destruct w as [s clk rd gen iss b]; simpl. intros -> Hin.
  apply in_keys_find in Hin.
  unfold Prisma.project_update, Prisma.project_findUnique,
    bind, write, getStore, newDate, putStore, ret; simpl.
  destruct (find (fun p => String.eqb (p_id p) id) (projects s)); [|congruence].
  do 2 eexists. split; [reflexivity |]. split; reflexivity.
Qed.

(* ================================================================== *)
(** ** The reconciler on a snapshot the server knows *)
(* ================================================================== *)

Lemma sync_task_step (gid : Id) (sg : GoalNode) (ct : ClientTask) (tid : Id)
      (r : SyncResults) (w : World) :
  budget w = None ->
  client_id (ct_id ct) = Some tid ->
  find (fun t => String.eqb (t_id t) tid) (gn_tasks sg) <> None ->
  In tid (map t_id (tasks (db w))) ->
  exists w',
    syncTask gid sg r ct w = (Ok (add_updated 0 0 1 r), w') /\
    budget w' = None /\
    merged [] [] [ct] (db w) (db w').
Proof.
  intros Hb Hid Hfound Hin. unfold syncTask. rewrite Hid.
  destruct (find (fun t => String.eqb (t_id t) tid) (gn_tasks sg)); [|congruence].
  destruct (@task_update_healthy tid (overwrite_task (task_data ct)) w Hb Hin)
    as [t' [w' [Hrun [Hb' Hdb]]]].
  exists w'. unfold bind. rewrite Hrun. split; [reflexivity |]. split; [exact Hb' |].
  rewrite Hdb. split; [|split]; simpl; try apply table_overwritten_refl.
  apply update_overwritten; [exact Hid |].
  intros a. split; unfold task_kept, task_agrees; simpl; auto.
Qed.

Lemma merged_tasks_keys (A : list ClientProject) (B : list ClientGoal)
      (C : list ClientTask) (s s' : Store) :
  merged A B C s s' ->
  map g_id (goals s') = map g_id (goals s) /\ map t_id (tasks s') = map t_id (tasks s).
Proof. intros H. apply same_shape_keys, (merged_same_shape H). Qed.

Lemma sync_tasks_run (gid : Id) (sg : GoalNode) (cts : list ClientTask) :
  NoDup (ids_of ct_id cts) ->
  forall (r : SyncResults) (w : World),
    budget w = None ->
    (forall ct, In ct cts ->
       exists tid, client_id (ct_id ct) = Some tid /\
                   find (fun t => String.eqb (t_id t) tid) (gn_tasks sg) <> None /\
                   In tid (map t_id (tasks (db w)))) ->
    exists w',
      foldM (syncTask gid sg) r cts w = (Ok (add_updated 0 0 (List.length cts) r), w') /\
      budget w' = None /\
      merged [] [] cts (db w) (db w').
Proof.
  induction cts as [|ct cts IH]; intros Hnd r w Hb Hall.
  - exists w. simpl. rewrite add_updated_zero.
    split; [reflexivity | split; [exact Hb | apply merged_refl]].
  - destruct (Hall ct (or_introl eq_refl)) as [tid [Hid [Hfound Hin]]].
    destruct (@sync_task_step gid sg ct tid r w Hb Hid Hfound Hin) as [w1 [Hrun [Hb1 Hm1]]].
    change (ct :: cts) with ([ct] ++ cts) in Hnd. rewrite ids_of_app in Hnd.
    apply NoDup_app_disjoint in Hnd as [_ [Hnd Hdis]].
    destruct (merged_tasks_keys Hm1) as [_ Ek].
    destruct (IH Hnd (add_updated 0 0 1 r) w1 Hb1) as [w' [Hrest [Hb' Hm']]].
    { intros ct' Hct'. destruct (Hall ct' (or_intror Hct')) as [tid' [Hid' [Hf' Hin']]].
      exists tid'. rewrite Ek. auto. }
    exists w'. simpl. unfold bind. rewrite Hrun, Hrest, add_updated_twice.
    split; [reflexivity |]. split; [exact Hb' |].
    change (ct :: cts) with ([ct] ++ cts).
    apply (merged_app (A := []) (A' := []) (B := []) (B' := [])) with (s1 := db w1);
      try assumption; apply disjoint_nil_l.
Qed.

Lemma agreeing_app {Row C : Type} (rid : Row -> Id) (cid : C -> option Id)
      (agrees : C -> Row -> Prop) (A B : list C) (l : list Row) :
  agreeing rid cid agrees (A ++ B) l ->
  agreeing rid cid agrees A l /\ agreeing rid cid agrees B l.
Proof.
  intros H. split; intros c a Hc; apply H; apply in_or_app; auto.
Qed.

Lemma goal_kept_refl (g : Goal) : goal_kept g g.
Proof. repeat split. Qed.

Lemma project_kept_refl (p : Project) : project_kept p p.
Proof. repeat split. Qed.

Lemma sync_goal_step (s0 : Store) (p : Project) (cg : ClientGoal)
      (r : SyncResults) (w : World) :
  NoDup (map g_id (goals s0)) ->
  goal_matched s0 (p_id p) cg ->
  NoDup (ids_of ct_id (cg_tasks cg)) ->
  budget w = None ->
  map t_id (tasks (db w)) = map t_id (tasks s0) ->
  map g_id (goals (db w)) = map g_id (goals s0) ->
  (forall g, In g (goals (db w)) -> In (g_id g) (ids_of cg_id [cg]) -> In g (goals s0)) ->
  exists b w',
    syncGoal (p_id p) (include_tree s0 p) r cg w
    = (Ok (add_updated 0 b (List.length (cg_tasks cg)) r), w') /\
    budget w' = None /\
    merged [] [cg] (cg_tasks cg) (db w) (db w') /\
    (agreeing g_id cg_id goal_agrees [cg] (goals (db w)) -> b = 0%nat).
Proof.
  intros Hnd [g [Hid [Hg [Hpar [Hlive Hts]]]]] Hndt Hb Ekt Ekg Hacc.
  unfold syncGoal. rewrite Hid, (find_goal_node s0 p g Hnd Hg Hpar Hlive). simpl gn_goal.
  assert (Htasks : forall w1, map t_id (tasks (db w1)) = map t_id (tasks s0) ->
             forall ct, In ct (cg_tasks cg) ->
               exists tid, client_id (ct_id ct) = Some tid /\
                 find (fun t => String.eqb (t_id t) tid)
                      (gn_tasks (mkGoalNode g (live_tasks_of s0 (g_id g)))) <> None /\
                 In tid (map t_id (tasks (db w1)))).
  { intros w1 E ct Hct. rewrite Forall_forall in Hts.
    destruct (Hts ct Hct) as [t [Htid [Ht [Htpar Htlive]]]].
    exists (t_id t). split; [exact Htid |]. split.
    - simpl. apply find_live_task; assumption.
    - rewrite E. apply in_map, Ht. }
  assert (Hrow : forall a, In a (goals (db w)) -> g_id a = g_id g -> a = g).
  { intros a Ha E. apply (unique_row g_id (goals s0)); try assumption.
    apply Hacc; [exact Ha |]. apply in_ids_of. exists cg.
    split; [left; reflexivity | congruence]. }
  destruct (String.eqb (g_name g) (cg_name cg)) eqn:Hname; simpl.
  - (* the name is the client's: no goal write *)
    destruct (@sync_tasks_run (g_id g) (mkGoalNode g (live_tasks_of s0 (g_id g)))
                (cg_tasks cg) Hndt r w Hb (Htasks w Ekt)) as [w' [Hrun [Hb' [Hp [Hgo Ht]]]]].
    exists 0%nat, w'. unfold bind, ret. rewrite Hrun.
    split; [reflexivity |]. split; [exact Hb' |]. split; [|reflexivity].
    split; [exact Hp | split; [| exact Ht]].
    apply table_overwritten_nil in Hgo. rewrite Hgo.
    apply skip_overwritten with (i := g_id g);
      [exact Hid | apply goal_kept_refl |].
    intros a Ha E. rewrite (Hrow a Ha E). apply String.eqb_eq, Hname.
  - (* the name differs: rename, then the tasks *)
    assert (Hin : In (g_id g) (map g_id (goals (db w)))).
    { rewrite Ekg. apply in_map, Hg. }
    destruct (@goal_update_healthy (g_id g) (rename_goal (cg_name cg)) w Hb Hin)
      as [g' [w1 [Hupd [Hb1 Hdb1]]]].
    assert (Ekt1 : map t_id (tasks (db w1)) = map t_id (tasks s0)).
    { rewrite Hdb1. exact Ekt. }
    destruct (@sync_tasks_run (g_id g) (mkGoalNode g (live_tasks_of s0 (g_id g)))
                (cg_tasks cg) Hndt (add_updated 0 1 0 r) w1 Hb1 (Htasks w1 Ekt1))
      as [w' [Hrun [Hb' [Hp [Hgo Ht]]]]].
    exists 1%nat, w'. unfold bind, ret. rewrite Hupd, Hrun, add_updated_twice.
    split; [reflexivity |]. split; [exact Hb' |]. split.
    + rewrite Hdb1 in Hp, Hgo, Ht. simpl in Hp, Hgo, Ht.
      split; [exact Hp | split; [| exact Ht]].
      apply table_overwritten_nil in Hgo. rewrite Hgo.
      apply update_overwritten; [exact Hid |].
      intros a. split; unfold goal_kept, goal_agrees; simpl; auto.
    + intros Hag. exfalso.
      apply in_map_iff in Hin as [a [E Ha]].
      assert (goal_agrees cg a) as Hn.
      { apply Hag; [left; reflexivity | exact Ha | congruence]. }
      rewrite (Hrow a Ha E) in Hn. apply String.eqb_neq in Hname. contradiction.
Qed.

Lemma sync_goals_run (s0 : Store) (p : Project) (cgs : list ClientGoal) :
  NoDup (map g_id (goals s0)) ->
  Forall (goal_matched s0 (p_id p)) cgs ->
  NoDup (ids_of cg_id cgs) ->
  NoDup (ids_of ct_id (flat_map cg_tasks cgs)) ->
  forall (r : SyncResults) (w : World),
    budget w = None ->
    map t_id (tasks (db w)) = map t_id (tasks s0) ->
    map g_id (goals (db w)) = map g_id (goals s0) ->
    (forall g, In g (goals (db w)) -> In (g_id g) (ids_of cg_id cgs) -> In g (goals s0)) ->
    exists b w',
      foldM (syncGoal (p_id p) (include_tree s0 p)) r cgs w
      = (Ok (add_updated 0 b (List.length (flat_map cg_tasks cgs)) r), w') /\
      budget w' = None /\
      merged [] cgs (flat_map cg_tasks cgs) (db w) (db w') /\
      (agreeing g_id cg_id goal_agrees cgs (goals (db w)) -> b = 0%nat).
Proof.
  intros Hnd. induction cgs as [|cg cgs IH]; intros Hm Hndg Hndt r w Hb Ekt Ekg Hacc.
  - exists 0%nat, w. simpl. rewrite add_updated_zero.
    split; [reflexivity |]. split; [exact Hb |]. split; [apply merged_refl | reflexivity].
  - pose proof (Forall_inv Hm) as Hcg. pose proof (Forall_inv_tail Hm) as Hrest.
    change (cg :: cgs) with ([cg] ++ cgs) in Hndg, Hacc.
    rewrite ids_of_app in Hndg. apply NoDup_app_disjoint in Hndg as [_ [Hndg Hdisg]].
    simpl in Hndt. rewrite ids_of_app in Hndt.
    apply NoDup_app_disjoint in Hndt as [Hndt1 [Hndt Hdist]].
    destruct (@sync_goal_step s0 p cg r w Hnd Hcg Hndt1 Hb Ekt Ekg) as [b1 [w1 [Hrun1 [Hb1 [Hm1 Hz1]]]]].
    { intros g Hg Hi. apply Hacc; [exact Hg |]. rewrite ids_of_app. apply in_or_app; auto. }
    destruct (merged_tasks_keys Hm1) as [Ekg1 Ekt1].
    destruct (IH Hrest Hndg Hndt (add_updated 0 b1 (List.length (cg_tasks cg)) r) w1 Hb1)
      as [b2 [w' [Hrun2 [Hb' [Hm2 Hz2]]]]].
    { congruence. }
    { congruence. }
    { intros g Hg Hi. apply Hacc; [| rewrite ids_of_app; apply in_or_app; auto].
      destruct Hm1 as [_ [Hgo _]].
      eapply table_overwritten_untouched;
        [apply goal_kept_id | exact Hgo | exact Hg |].
      intros Hi1. apply (Hdisg _ Hi1 Hi). }
    exists (b1 + b2)%nat, w'. simpl. unfold bind. rewrite Hrun1, Hrun2, add_updated_twice.
    rewrite length_app. split; [reflexivity |]. split; [exact Hb' |]. split.
    + change (cg :: cgs) with ([cg] ++ cgs).
      apply (merged_app (A := []) (A' := [])) with (s1 := db w1);
        try assumption; apply disjoint_nil_l.
    + intros Hag. change (cg :: cgs) with ([cg] ++ cgs) in Hag.
      apply agreeing_app in Hag as [Hag1 Hag2].
      rewrite (Hz1 Hag1). apply Hz2.
      destruct Hm1 as [_ [Hgo _]].
      eapply agreeing_frame; [apply goal_kept_id | exact Hdisg | exact Hgo | exact Hag2].
Qed.

Lemma sync_project_step (cp : ClientProject) (r : SyncResults) (w : World) :
  budget w = None ->
  unique_keys (db w) ->
  project_matched (db w) cp ->
  NoDup (ids_of cg_id (cp_goals cp)) ->
  NoDup (ids_of ct_id (flat_map cg_tasks (cp_goals cp))) ->
  exists a b w',
    syncProject r cp w
    = (Ok (add_updated a b (List.length (flat_map cg_tasks (cp_goals cp))) r), w') /\
    budget w' = None /\
    merged [cp] (cp_goals cp) (flat_map cg_tasks (cp_goals cp)) (db w) (db w') /\
    (agreeing p_id cp_id project_agrees [cp] (projects (db w)) ->
     agreeing g_id cg_id goal_agrees (cp_goals cp) (goals (db w)) ->
     a = 0%nat /\ b = 0%nat).
Proof.
  intros Hb [Up [Ug Ut]] [p [Hid [Hp Hgs]]] Hndg Hndt.
  unfold syncProject. rewrite Hid. unfold bind at 1, getStore at 1.
  unfold Prisma.project_findUnique.
  rewrite (@find_the_row _ p_id (p_id p) (projects (db w)) p Up Hp eq_refl).
  destruct (String.eqb (p_name p) (cp_name cp)) eqn:Hname; simpl.
  - (* the name is the client's: no project write *)
    destruct (@sync_goals_run (db w) p (cp_goals cp) Ug Hgs Hndg Hndt r w Hb eq_refl eq_refl)
      as [b [w' [Hrun [Hb' [[Hpr [Hgo Ht]] Hz]]]]].
    { auto. }
    exists 0%nat, b, w'. unfold bind, ret. rewrite Hrun.
    split; [reflexivity |]. split; [exact Hb' |]. split.
    + split; [| split; assumption].
      apply table_overwritten_nil in Hpr. rewrite Hpr.
      apply skip_overwritten with (i := p_id p); [exact Hid | apply project_kept_refl |].
      intros a Ha E. rewrite (@unique_row _ p_id (projects (db w)) a p Up Ha Hp E).
      apply String.eqb_eq, Hname.
    + intros _ Hag. split; [reflexivity | apply Hz, Hag].
  - (* the name differs: rename, then the goals *)
    assert (Hin : In (p_id p) (map p_id (projects (db w)))) by (apply in_map, Hp).
    destruct (@project_update_healthy (p_id p) (rename_project (cp_name cp)) w Hb Hin)
      as [p' [w1 [Hupd [Hb1 Hdb1]]]].
    destruct (@sync_goals_run (db w) p (cp_goals cp) Ug Hgs Hndg Hndt
                (add_updated 1 0 0 r) w1 Hb1)
      as [b [w' [Hrun [Hb' [[Hpr [Hgo Ht]] Hz]]]]].
    { rewrite Hdb1. reflexivity. }
    { rewrite Hdb1. reflexivity. }
    { rewrite Hdb1. auto. }
    exists 1%nat, b, w'. unfold bind, ret. rewrite Hupd, Hrun, add_updated_twice.
    split; [reflexivity |]. split; [exact Hb' |].
    rewrite Hdb1 in Hpr, Hgo, Ht, Hz. simpl in Hpr, Hgo, Ht, Hz. split.
    + split; [| split; assumption].
      apply table_overwritten_nil in Hpr. rewrite Hpr.
      apply update_overwritten; [exact Hid |].
      intros a. split; unfold project_kept, project_agrees; simpl; auto.
    + intros Hag _. exfalso.
      assert (project_agrees cp p) as Hn.
      { apply Hag; [left; reflexivity | exact Hp | exact Hid]. }
      apply String.eqb_neq in Hname. contradiction.
Qed.

Lemma all_tasks_cons (cp : ClientProject) (cps : list ClientProject) :
  all_tasks (cp :: cps) = flat_map cg_tasks (cp_goals cp) ++ all_tasks cps.
Proof. unfold all_tasks, all_goals; simpl. apply flat_map_app. Qed.

Lemma in_sync_frame (A : list ClientProject) (B : list ClientGoal) (C : list ClientTask)
      (cps : list ClientProject) (s s' : Store) :
  disjoint (ids_of cp_id A) (ids_of cp_id cps) ->
  disjoint (ids_of cg_id B) (ids_of cg_id (all_goals cps)) ->
  disjoint (ids_of ct_id C) (ids_of ct_id (all_tasks cps)) ->
  merged A B C s s' -> in_sync cps s -> in_sync cps s'.
Proof.
  intros Da Db Dc [H1 [H2 H3]] [K1 [K2 K3]]. split; [|split].
  - eapply agreeing_frame; [apply project_kept_id | exact Da | exact H1 | exact K1].
  - eapply agreeing_frame; [apply goal_kept_id | exact Db | exact H2 | exact K2].
  - eapply agreeing_frame; [apply task_kept_id | exact Dc | exact H3 | exact K3].
Qed.

Lemma sync_projects_run (cps : list ClientProject) :
  distinct_ids cps ->
  forall (r : SyncResults) (w : World),
    budget w = None ->
    unique_keys (db w) ->
    snapshot_matched (db w) cps ->
    exists a b w',
      foldM syncProject r cps w
      = (Ok (add_updated a b (List.length (all_tasks cps)) r), w') /\
      budget w' = None /\
      merged cps (all_goals cps) (all_tasks cps) (db w) (db w') /\
      (in_sync cps (db w) -> a = 0%nat /\ b = 0%nat).
Proof.
  induction cps as [|cp cps IH]; intros [Hndp [Hndg Hndt]] r w Hb Hu Hm.
  - exists 0%nat, 0%nat, w. simpl. rewrite add_updated_zero.
    split; [reflexivity |]. split; [exact Hb |]. split; [apply merged_refl | auto].
  - pose proof (Forall_inv Hm) as Hcp. pose proof (Forall_inv_tail Hm) as Hrest.
    change (cp :: cps) with ([cp] ++ cps) in Hndp.
    rewrite ids_of_app in Hndp. apply NoDup_app_disjoint in Hndp as [_ [Hndp Hdisp]].
    change (all_goals (cp :: cps)) with (cp_goals cp ++ all_goals cps) in Hndg.
    rewrite ids_of_app in Hndg. apply NoDup_app_disjoint in Hndg as [Hndg1 [Hndg Hdisg]].
    rewrite all_tasks_cons, ids_of_app in Hndt.
    apply NoDup_app_disjoint in Hndt as [Hndt1 [Hndt Hdist]].
    destruct (@sync_project_step cp r w Hb Hu Hcp Hndg1 Hndt1)
      as [a1 [b1 [w1 [Hrun1 [Hb1 [Hm1 Hz1]]]]]].
    pose proof (merged_same_shape Hm1) as Hshape.
    destruct (IH (conj Hndp (conj Hndg Hndt))
                 (add_updated a1 b1 (List.length (flat_map cg_tasks (cp_goals cp))) r)
                 w1 Hb1 (same_shape_unique_keys Hshape Hu)
                 (same_shape_matched Hshape Hrest))
      as [a2 [b2 [w' [Hrun2 [Hb' [Hm2 Hz2]]]]]].
    exists (a1 + a2)%nat, (b1 + b2)%nat, w'.
    simpl foldM. unfold bind. rewrite Hrun1, Hrun2, add_updated_twice.
    rewrite all_tasks_cons, length_app.
    split; [reflexivity |]. split; [exact Hb' |]. split.
    + change (cp :: cps) with ([cp] ++ cps).
      change (all_goals ([cp] ++ cps)) with (cp_goals cp ++ all_goals cps).
      eapply merged_app; eassumption.
    + intros Hsync.
      assert (Hsync2 : in_sync cps (db w1)).
      { apply (@in_sync_frame [cp] (cp_goals cp) (flat_map cg_tasks (cp_goals cp))
                              cps (db w) (db w1)); try assumption.
        destruct Hsync as [K1 [K2 K3]].
        change (cp :: cps) with ([cp] ++ cps) in K1.
        change (all_goals (cp :: cps)) with (cp_goals cp ++ all_goals cps) in K2.
        rewrite all_tasks_cons in K3.
        split; [| split];
          [apply (@agreeing_app _ _ _ _ _ _ _ _ K1)
          | apply (@agreeing_app _ _ _ _ _ _ _ _ K2)
          | apply (@agreeing_app _ _ _ _ _ _ _ _ K3)]. }
      destruct Hsync as [K1 [K2 _]].
      change (cp :: cps) with ([cp] ++ cps) in K1.
      change (all_goals (cp :: cps)) with (cp_goals cp ++ all_goals cps) in K2.
      destruct (Hz1 (proj1 (@agreeing_app _ _ _ _ _ _ _ _ K1))
                    (proj1 (@agreeing_app _ _ _ _ _ _ _ _ K2))) as [-> ->].
      destruct (Hz2 Hsync2) as [-> ->]. split; reflexivity.
Qed.

(* ================================================================== *)
(** ** Submitting a snapshot twice *)
(* ================================================================== *)

Lemma merged_in_sync (cps : list ClientProject) (s s' : Store) :
  merged cps (all_goals cps) (all_tasks cps) s s' -> in_sync cps s'.
Proof.
  intros [H1 [H2 H3]]. split; [|split].
  - eapply table_overwritten_agreeing; [apply project_kept_id | exact H1].
  - eapply table_overwritten_agreeing; [apply goal_kept_id | exact H2].
  - eapply table_overwritten_agreeing; [apply task_kept_id | exact H3].
Qed.

Lemma merged_in_sync_forget (cps : list ClientProject) (s s' : Store) :
  in_sync cps s ->
  merged cps (all_goals cps) (all_tasks cps) s s' ->
  forget_store s' = forget_store s.
Proof.
  intros [K1 [K2 K3]] [H1 [H2 H3]]. unfold forget_store. f_equal.
  - eapply table_overwritten_stable; [| exact K1 | exact H1].
    intros c [i n ca ua da] [i' n' ca' ua' da'] [E1 [E2 E3]] A1 A2.
    unfold project_agrees, forget_project in *; simpl in *. congruence.
  - eapply table_overwritten_stable; [| exact K2 | exact H2].
    intros c [i q n ca ua da] [i' q' n' ca' ua' da'] [E1 [E2 [E3 E4]]] A1 A2.
    unfold goal_agrees, forget_goal in *; simpl in *. congruence.
  - eapply table_overwritten_stable; [| exact K3 | exact H3].
    intros c [i q n co ur tf ca ua cm da] [i' q' n' co' ur' tf' ca' ua' cm' da']
           [E1 [E2 [E3 E4]]] [A1 [A2 [A3 [A4 A5]]]] [B1 [B2 [B3 [B4 B5]]]].
    unfold forget_task; simpl in *. congruence.
Qed.

Lemma insert_by_map {A : Type} (cmp : A -> A -> comparison) (f : A -> A)
      (x : A) (l : list A) :
  (forall a b, cmp (f a) (f b) = cmp a b) ->
  Prisma.insert_by cmp (f x) (map f l) = map f (Prisma.insert_by cmp x l).
Proof.
  intros Hc. induction l as [|y l IH]; simpl; [reflexivity |].
  rewrite Hc. destruct (cmp x y); simpl; try reflexivity. rewrite IH. reflexivity.
Qed.

Lemma orderBy_map {A : Type} (cmp : A -> A -> comparison) (f : A -> A) (l : list A) :
  (forall a b, cmp (f a) (f b) = cmp a b) ->
  Prisma.orderBy cmp (map f l) = map f (Prisma.orderBy cmp l).
Proof.
  intros Hc. induction l as [|x l IH]; simpl; [reflexivity |].
  rewrite IH. apply insert_by_map, Hc.
Qed.

Lemma live_tasks_forget (s : Store) (gid : Id) :
  live_tasks_of (forget_store s) gid = map forget_task (live_tasks_of s gid).
Proof. unfold live_tasks_of, forget_store; simpl. apply filter_map_swap. Qed.

Lemma live_goals_forget (s : Store) (pid : Id) :
  live_goals_of (forget_store s) pid = map forget_goal (live_goals_of s pid).
Proof. unfold live_goals_of, forget_store; simpl. apply filter_map_swap. Qed.

Lemma full_hierarchy_forget (s : Store) :
  full_hierarchy (forget_store s) = map forget_node (full_hierarchy s).
Proof.
  unfold full_hierarchy.
  change (projects (forget_store s)) with (map forget_project (projects s)).
  rewrite filter_map_swap.
  change (fun a => is_null (p_deletedAt (forget_project a)))
    with (fun p => is_null (p_deletedAt p)).
  rewrite orderBy_map by reflexivity. rewrite !map_map.
  apply map_ext. intros p. unfold include_tree_ordered, forget_node; simpl. f_equal.
  rewrite live_goals_forget, orderBy_map by reflexivity. rewrite !map_map.
  apply map_ext. intros g. unfold forget_goal_node; simpl. f_equal.
  rewrite live_tasks_forget. apply orderBy_map. reflexivity.
Qed.

Lemma syncData_run (cps : list ClientProject) (l : option Timestamp)
      (w w' : World) (r : SyncResults) :
  foldM syncProject no_results cps w = (Ok r, w') ->
  syncData cps l w
  = (Ok (mkSyncResponse r (full_hierarchy (db w')) (clock w' (reads w'))),
     mkWorld (db w') (clock w') (S (reads w')) (cuid w') (issued w') (budget w')).
Proof.
  intros H. unfold syncData, bind, getStore, newDate, ret. rewrite H. reflexivity.
Qed.

(** C3 (as stated).  A snapshot whose content already matches the
    server still counts its task as updated on the second submission,
    and the returned task carries a later [updatedAt]; a snapshot that
    renames the project counts one updated project on the first
    submission and none on the second. *)
Lemma resync_counts_ignore_content :
  let w0 := Demo.world Demo.small_store Demo.ticking None in
  let renamed := mkClientProject (Some "p1"%string) "P2" [Demo.client_G] in
  (exists resp1 w1 resp2 w2,
      syncData [Demo.client_P] None w0 = (Ok resp1, w1) /\
      syncData [Demo.client_P] None w1 = (Ok resp2, w2) /\
      in_sync [Demo.client_P] (db w0) /\
      updated (syncResults resp2) = mkCounts 0 0 1 /\
      serverState resp2 <> serverState resp1) /\
  (exists resp1 w1 resp2 w2,
      syncData [renamed] None w0 = (Ok resp1, w1) /\
      syncData [renamed] None w1 = (Ok resp2, w2) /\
      ~ in_sync [renamed] (db w0) /\
      updated (syncResults resp1) = mkCounts 1 0 1 /\
      updated (syncResults resp2) = mkCounts 0 0 1) /\
  ~ resync_as_claimed [Demo.client_P] w0 /\
  ~ resync_as_claimed [renamed] w0.
Proof.
  intros w0 renamed.
  assert (Hsync : in_sync [Demo.client_P] (db w0)).
  { split; [|split]; intros c a [<- | []] [<- | []] _; repeat split. }
  assert (Hnot : ~ in_sync [renamed] (db w0)).
  { intros [H _]. specialize (H renamed Demo.project_P (or_introl eq_refl)
                                (or_introl eq_refl) eq_refl). discriminate. }
  split; [|split; [|split]].
  - do 4 eexists. split; [vm_compute; reflexivity |].
    split; [vm_compute; reflexivity |]. split; [exact Hsync |].
    split; [reflexivity | discriminate].
  - do 4 eexists. split; [vm_compute; reflexivity |].
    split; [vm_compute; reflexivity |]. split; [exact Hnot |].
    split; reflexivity.
  - intros Hclaim.
    edestruct Hclaim as [_ [Hzero _]];
      [vm_compute; reflexivity | vm_compute; reflexivity |].
    specialize (Hzero Hsync). discriminate.
  - intros Hclaim.
    edestruct Hclaim as [_ [_ Hsame]];
      [vm_compute; reflexivity | vm_compute; reflexivity |].
    specialize (Hsame Hnot). discriminate.
Qed.

(** With an id that occurs twice the second submission is not a
    repetition of the first: the goal of the stored snapshot is
    compared with the name read before the loop, so the two entries
    take turns. *)
Example resync_with_repeated_id_alternates :
  let twice := mkClientProject (Some "p1"%string) "P"
                 [mkClientGoal (Some "g1"%string) "X" [];
                  mkClientGoal (Some "g1"%string) "G" []] in
  exists resp1 w1 resp2 w2,
    syncData [twice] None (Demo.world Demo.small_store Demo.ticking None) = (Ok resp1, w1) /\
    syncData [twice] None w1 = (Ok resp2, w2) /\
    map g_name (goals (db w1)) = ["X"%string] /\
    map g_name (goals (db w2)) = ["G"%string] /\
    updated (syncResults resp1) = mkCounts 0 1 0 /\
    updated (syncResults resp2) = mkCounts 0 1 0.
Proof.
  intros twice. do 4 eexists.
  split; [vm_compute; reflexivity |]. split; [vm_compute; reflexivity |].
  repeat split.
Qed.

(* ================================================================== *)
(** ** Relations kept by every step of a handler *)
(* ================================================================== *)

Section Preserves.

Variable R : Store -> Store -> Prop.
Hypothesis R_refl : forall s, R s s.
Hypothesis R_trans : forall s1 s2 s3, R s1 s2 -> R s2 s3 -> R s1 s3.

Lemma preserves_ret {A : Type} (a : A) : preserves R (ret a).
Proof using R_refl. intros w out w' H. inversion H; subst. apply R_refl. Qed.

Lemma preserves_throw {A : Type} (e : Failure) : preserves R (@throw A e).
Proof using R_refl. intros w out w' H. inversion H; subst. apply R_refl. Qed.

Lemma preserves_getStore : preserves R getStore.
Proof using R_refl. intros w out w' H. inversion H; subst. apply R_refl. Qed.

Lemma preserves_newDate : preserves R newDate.
Proof using R_refl. intros w out w' H. inversion H; subst. apply R_refl. Qed.

Lemma preserves_reserveIds (n : nat) : preserves R (reserveIds n).
Proof using R_refl. intros w out w' H. inversion H; subst. apply R_refl. Qed.

Lemma preserves_write : preserves R write.
Proof using R_refl.
  intros w out w' H. unfold write in H.
  destruct (budget w) as [[|n]|]; inversion H; subst; apply R_refl.
Qed.

Lemma preserves_bind {A B : Type} (m : M A) (k : A -> M B) :
  preserves R m -> (forall a, preserves R (k a)) -> preserves R (bind m k).
Proof using R_trans.
  intros Hm Hk w out w' H. unfold bind in H.
  destruct (m w) as [[a|e] w1] eqn:E.
  - apply R_trans with (s2 := db w1); [apply (Hm _ _ _ E) | apply (Hk a _ _ _ H)].
  - inversion H; subst. apply (Hm _ _ _ E).
Qed.

Lemma preserves_foldM {A B : Type} (f : A -> B -> M A) (l : list B) :
  (forall a x, In x l -> preserves R (f a x)) ->
  forall a, preserves R (foldM f a l).
Proof using R_refl R_trans.
  induction l as [|x l IH]; intros Hf a; simpl.
  - apply preserves_ret.
  - apply preserves_bind; [apply Hf; left; reflexivity |].
    intros a'. apply IH. intros a0 y Hy. apply Hf. right; exact Hy.
Qed.

End Preserves.

(* ================================================================== *)
(** ** The reconciler only adds rows and rewrites values *)
(* ================================================================== *)

Lemma grown_refl (s : Store) : grown s s.
Proof. repeat split; exists []; rewrite app_nil_r; reflexivity. Qed.

Lemma grown_trans (s1 s2 s3 : Store) : grown s1 s2 -> grown s2 s3 -> grown s1 s3.
Proof.
  intros [[a1 A1] [[b1 B1] [c1 C1]]] [[a2 A2] [[b2 B2] [c2 C2]]].
  split; [|split].
  - exists (a1 ++ a2). rewrite A2, A1, app_assoc. reflexivity.
  - exists (b1 ++ b2). rewrite B2, B1, app_assoc. reflexivity.
  - exists (c1 ++ c2). rewrite C2, C1, app_assoc. reflexivity.
Qed.

Lemma map_frame_update {A K : Type} (frame : A -> K) (sel : A -> bool) (f : A -> A)
      (l : list A) :
  (forall a, frame (f a) = frame a) ->
  map frame (map (fun a => if sel a then f a else a) l) = map frame l.
Proof.
  intros Hf. rewrite map_map. apply map_ext. intros a.
  destruct (sel a); [apply Hf | reflexivity].
Qed.

Lemma grown_projects (s : Store) (sel : Project -> bool) (f : Project -> Project) :
  (forall p, project_frame (f p) = project_frame p) ->
  grown s (set_projects (map (fun p => if sel p then f p else p) (projects s)) s).
Proof.
  intros Hf. split; [|split]; exists []; rewrite app_nil_r; simpl; try reflexivity.
  apply map_frame_update, Hf.
Qed.

Lemma grown_goals (s : Store) (sel : Goal -> bool) (f : Goal -> Goal) :
  (forall g, goal_frame (f g) = goal_frame g) ->
  grown s (set_goals (map (fun g => if sel g then f g else g) (goals s)) s).
Proof.
  intros Hf. split; [|split]; exists []; rewrite app_nil_r; simpl; try reflexivity.
  apply map_frame_update, Hf.
Qed.

Lemma grown_tasks (s : Store) (sel : Task -> bool) (f : Task -> Task) :
  (forall t, task_frame (f t) = task_frame t) ->
  grown s (set_tasks (map (fun t => if sel t then f t else t) (tasks s)) s).
Proof.
  intros Hf. split; [|split]; exists []; rewrite app_nil_r; simpl; try reflexivity.
  apply map_frame_update, Hf.
Qed.

Lemma grown_append (s : Store) (ps : list Project) (gs : list Goal) (ts : list Task) :
  grown s (mkStore (projects s ++ ps) (goals s ++ gs) (tasks s ++ ts)).
Proof.
  split; [|split]; simpl; rewrite map_app; eexists; reflexivity.
Qed.

Lemma project_update_ok (id : Id) (f : Project -> Project) (w w' : World) (p' : Project) :
  Prisma.project_update id f w = (Ok p', w') ->
  exists now,
    db w' = set_projects (map (fun p => if String.eqb (p_id p) id
                                        then Prisma.touch_project now (f p) else p)
                              (projects (db w))) (db w).
Proof.
  destruct w as [s clk rd gen iss b].
  unfold Prisma.project_update, Prisma.project_findUnique,
    bind, write, getStore, newDate, putStore, ret; simpl.
  destruct b as [[|n]|]; simpl; try discriminate;
    destruct (find (fun p => String.eqb (p_id p) id) (projects s)); simpl;
      intros H; inversion H; subst; simpl; eexists; reflexivity.
Qed.

Lemma goal_update_ok (id : Id) (f : Goal -> Goal) (w w' : World) (g' : Goal) :
  Prisma.goal_update id f w = (Ok g', w') ->
  exists now,
    db w' = set_goals (map (fun g => if String.eqb (g_id g) id
                                     then Prisma.touch_goal now (f g) else g)
                           (goals (db w))) (db w).
Proof.
  destruct w as [s clk rd gen iss b].
  unfold Prisma.goal_update, bind, write, getStore, newDate, putStore, ret; simpl.
  destruct b as [[|n]|]; simpl; try discriminate;
    destruct (find (fun g => String.eqb (g_id g) id) (goals s)); simpl;
      intros H; inversion H; subst; simpl; eexists; reflexivity.
Qed.

Lemma project_create_ok (name : string) (gs : list (string * list Prisma.TaskData))
      (w w' : World) (p : Project) :
  Prisma.project_create name gs w = (Ok p, w') ->
  p = Prisma.new_project (cuid w (issued w)) (clock w (reads w)) name /\
  exists gl tl,
    db w' = mkStore (projects (db w) ++ [p]) (goals (db w) ++ gl) (tasks (db w) ++ tl).
Proof.
  destruct w as [s clk rd gen iss b].
  unfold Prisma.project_create, bind, write, newDate, reserveIds.
  destruct b as [[|n]|]; simpl; try discriminate;
    intros H; inversion H; subst; simpl; (split; [reflexivity |]);
      do 2 eexists; reflexivity.
Qed.

(** A write either fails and leaves the store alone or succeeds. *)
Lemma thrown_unchanged_task_update (id : Id) (f : Task -> Task) (w w' : World) (e : Failure) :
  Prisma.task_update id f w = (Thrown e, w') -> db w' = db w.
Proof.
  destruct w as [s clk rd gen iss b].
  unfold Prisma.task_update, bind, write, getStore, newDate, putStore, ret; simpl.
  destruct b as [[|n]|]; simpl;
    try destruct (find (fun t => String.eqb (t_id t) id) (tasks s)); simpl;
      intros H; inversion H; subst; reflexivity.
Qed.

Lemma thrown_unchanged_goal_update (id : Id) (f : Goal -> Goal) (w w' : World) (e : Failure) :
  Prisma.goal_update id f w = (Thrown e, w') -> db w' = db w.
Proof.
  destruct w as [s clk rd gen iss b].
  unfold Prisma.goal_update, bind, write, getStore, newDate, putStore, ret; simpl.
  destruct b as [[|n]|]; simpl;
    try destruct (find (fun g => String.eqb (g_id g) id) (goals s)); simpl;
      intros H; inversion H; subst; reflexivity.
Qed.

Lemma thrown_unchanged_project_update (id : Id) (f : Project -> Project) (w w' : World)
      (e : Failure) :
  Prisma.project_update id f w = (Thrown e, w') -> db w' = db w.
Proof.
  destruct w as [s clk rd gen iss b].
  unfold Prisma.project_update, Prisma.project_findUnique,
    bind, write, getStore, newDate, putStore, ret; simpl.
  destruct b as [[|n]|]; simpl;
    try destruct (find (fun p => String.eqb (p_id p) id) (projects s)); simpl;
      intros H; inversion H; subst; reflexivity.
Qed.

Lemma thrown_unchanged_task_create (gid : Id) (d : Prisma.TaskData) (w w' : World)
      (e : Failure) :
  Prisma.task_create gid d w = (Thrown e, w') -> db w' = db w.
Proof.
  destruct w as [s clk rd gen iss b].
  unfold Prisma.task_create, bind, write, getStore, newDate, reserveIds; simpl.
  destruct b as [[|n]|]; simpl;
    try destruct (find (fun g => String.eqb (g_id g) gid) (goals s)); simpl;
      intros H; inversion H; subst; reflexivity.
Qed.

Lemma thrown_unchanged_goal_create (pid : Id) (name : string) (ds : list Prisma.TaskData)
      (w w' : World) (e : Failure) :
  Prisma.goal_create pid name ds w = (Thrown e, w') -> db w' = db w.
Proof.
  destruct w as [s clk rd gen iss b].
  unfold Prisma.goal_create, bind, write, getStore, newDate, reserveIds; simpl.
  destruct b as [[|n]|]; simpl;
    try destruct (Prisma.project_findUnique s pid); simpl;
      intros H; inversion H; subst; reflexivity.
Qed.

Lemma thrown_unchanged_project_create (name : string)
      (gs : list (string * list Prisma.TaskData)) (w w' : World) (e : Failure) :
  Prisma.project_create name gs w = (Thrown e, w') -> db w' = db w.
Proof.
  destruct w as [s clk rd gen iss b].
  unfold Prisma.project_create, bind, write, newDate, reserveIds; simpl.
  destruct b as [[|n]|]; simpl; intros H; inversion H; subst; reflexivity.
Qed.

Lemma grown_task_update (id : Id) (f : Task -> Task) :
  (forall t, task_frame (f t) = task_frame t) ->
  preserves grown (Prisma.task_update id f).
Proof.
  intros Hf w out w' H. destruct out as [t'|e].
  - apply task_update_ok in H as [now ->]. apply grown_tasks.
    intros t. rewrite <- (Hf t). reflexivity.
  - apply thrown_unchanged_task_update in H. rewrite H. apply grown_refl.
Qed.

Lemma grown_goal_update (id : Id) (f : Goal -> Goal) :
  (forall g, goal_frame (f g) = goal_frame g) ->
  preserves grown (Prisma.goal_update id f).
Proof.
  intros Hf w out w' H. destruct out as [g'|e].
  - apply goal_update_ok in H as [now ->]. apply grown_goals.
    intros g. rewrite <- (Hf g). reflexivity.
  - apply thrown_unchanged_goal_update in H. rewrite H. apply grown_refl.
Qed.

Lemma grown_project_update (id : Id) (f : Project -> Project) :
  (forall p, project_frame (f p) = project_frame p) ->
  preserves grown (Prisma.project_update id f).
Proof.
  intros Hf w out w' H. destruct out as [p'|e].
  - apply project_update_ok in H as [now ->]. apply grown_projects.
    intros p. rewrite <- (Hf p). reflexivity.
  - apply thrown_unchanged_project_update in H. rewrite H. apply grown_refl.
Qed.

Lemma grown_task_create (gid : Id) (d : Prisma.TaskData) :
  preserves grown (Prisma.task_create gid d).
Proof.
  intros w out w' H. destruct out as [t|e].
  - apply task_create_ok in H as [_ ->].
    split; [|split]; simpl; [exists [] | exists [] | rewrite map_app; eexists; reflexivity];
      rewrite app_nil_r; reflexivity.
  - apply thrown_unchanged_task_create in H. rewrite H. apply grown_refl.
Qed.

Lemma grown_goal_create (pid : Id) (name : string) (ds : list Prisma.TaskData) :
  preserves grown (Prisma.goal_create pid name ds).
Proof.
  intros w out w' H. destruct out as [g|e].
  - apply goal_create_ok in H as [ts [_ ->]].
    split; [|split]; simpl;
      [exists []; rewrite app_nil_r; reflexivity
      | rewrite map_app; eexists; reflexivity
      | rewrite map_app; eexists; reflexivity].
  - apply thrown_unchanged_goal_create in H. rewrite H. apply grown_refl.
Qed.

Lemma grown_project_create (name : string) (gs : list (string * list Prisma.TaskData)) :
  preserves grown (Prisma.project_create name gs).
Proof.
  intros w out w' H. destruct out as [p|e].
  - apply project_create_ok in H as [_ [gl [tl ->]]]. apply grown_append.
  - apply thrown_unchanged_project_create in H. rewrite H. apply grown_refl.
Qed.

Ltac grown_step :=
  first
    [ apply (@preserves_bind grown grown_trans)
    | apply (@preserves_ret grown grown_refl)
    | apply (@preserves_throw grown grown_refl)
    | apply (@preserves_getStore grown grown_refl)
    | apply (@preserves_newDate grown grown_refl) ].

Lemma grown_syncTask (gid : Id) (sg : GoalNode) (r : SyncResults) (ct : ClientTask) :
  preserves grown (syncTask gid sg r ct).
Proof.
  unfold syncTask. destruct (client_id (ct_id ct)) as [tid|].
  - destruct (find (fun t => String.eqb (t_id t) tid) (gn_tasks sg)).
    + grown_step; [apply grown_task_update; reflexivity | intros _; grown_step].
    + grown_step.
  - grown_step; [apply grown_task_create | intros _; grown_step].
Qed.

Lemma grown_syncGoal (pid : Id) (sp : ProjectNode) (r : SyncResults) (cg : ClientGoal) :
  preserves grown (syncGoal pid sp r cg).
Proof.
  unfold syncGoal. destruct (client_id (cg_id cg)) as [gid|].
  - destruct (find (fun n => String.eqb (g_id (gn_goal n)) gid) (pn_goals sp)) as [sg|].
    + grown_step.
      * destruct (negb (String.eqb (g_name (gn_goal sg)) (cg_name cg))).
        -- grown_step; [apply grown_goal_update; reflexivity | intros _; grown_step].
        -- grown_step.
      * intros r1. apply (@preserves_foldM grown grown_refl grown_trans).
        intros a x _. apply grown_syncTask.
    + grown_step.
  - grown_step; [apply grown_goal_create | intros _; grown_step].
Qed.

Lemma grown_syncProject (r : SyncResults) (cp : ClientProject) :
  preserves grown (syncProject r cp).
Proof.
  unfold syncProject. destruct (client_id (cp_id cp)) as [pid|].
  - grown_step; [grown_step |]. intros s.
    destruct (Prisma.project_findUnique s pid) as [p|].
    + grown_step.
      * destruct (negb (String.eqb (p_name p) (cp_name cp))).
        -- grown_step; [apply grown_project_update; reflexivity | intros _; grown_step].
        -- grown_step.
      * intros r1. apply (@preserves_foldM grown grown_refl grown_trans).
        intros a x _. apply grown_syncGoal.
    + grown_step.
  - grown_step; [apply grown_project_create | intros _; grown_step].
Qed.

Lemma map_through_frame {A K I : Type} (frame : A -> K) (proj : K -> I) (key : A -> I)
      (l : list A) :
  (forall a, key a = proj (frame a)) -> map key l = map proj (map frame l).
Proof. intros H. rewrite map_map. apply map_ext, H. Qed.

Lemma grown_keys (s s' : Store) :
  grown s s' ->
  (forall i, In i (map p_id (projects s)) -> In i (map p_id (projects s'))) /\
  (forall i, In i (map g_id (goals s)) -> In i (map g_id (goals s'))) /\
  (forall i, In i (map t_id (tasks s)) -> In i (map t_id (tasks s'))).
Proof.
  intros [[a A] [[b B] [c C]]].
  rewrite !(map_through_frame project_frame (fun x => fst (fst x)) p_id) by reflexivity.
  rewrite !(map_through_frame goal_frame (fun x => fst (fst (fst x))) g_id) by reflexivity.
  rewrite !(map_through_frame task_frame (fun x => fst (fst (fst x))) t_id) by reflexivity.
  rewrite A, B, C, !map_app.
  repeat split; intros i Hi; apply in_or_app; left; exact Hi.
Qed.

(** X1.  Whatever the snapshot and whether or not the request succeeds,
    POST /api/sync keeps every row the store had, in place, with its
    id, its parent, its createdAt and its deletedAt: it only rewrites
    other fields and appends rows. *)
Theorem sync_only_adds_and_rewrites
        (cps : list ClientProject) (l : option Timestamp)
        (w w' : World) (out : Outcome SyncResponse) :
  syncData cps l w = (out, w') ->
  grown (db w) (db w') /\
  (forall t, In t (tasks (db w)) ->
     exists t', In t' (tasks (db w')) /\ task_frame t' = task_frame t) /\
  (forall g, In g (goals (db w)) ->
     exists g', In g' (goals (db w')) /\ goal_frame g' = goal_frame g) /\
  (forall p, In p (projects (db w)) ->
     exists p', In p' (projects (db w')) /\ project_frame p' = project_frame p).
Proof.
  intros H.
  assert (Hg : grown (db w) (db w')).
  { revert w out w' H. unfold syncData.
    grown_step; [grown_step |]. intros s0.
    grown_step.
    - apply (@preserves_foldM grown grown_refl grown_trans). intros a x _. apply grown_syncProject.
    - intros r. grown_step; [grown_step |]. intros s1.
      grown_step; [grown_step |]. intros now. grown_step. }
  split; [exact Hg |].
  destruct Hg as [[a A] [[b B] [c C]]].
  split; [|split].
  - intros t Ht. apply (in_map task_frame) in Ht.
    assert (Hin : In (task_frame t) (map task_frame (tasks (db w')))).
    { rewrite C. apply in_or_app; left; exact Ht. }
    apply in_map_iff in Hin as [t' [E Ht']]. exists t'. auto.
  - intros g Hg. apply (in_map goal_frame) in Hg.
    assert (Hin : In (goal_frame g) (map goal_frame (goals (db w')))).
    { rewrite B. apply in_or_app; left; exact Hg. }
    apply in_map_iff in Hin as [g' [E Hg']]. exists g'. auto.
  - intros p Hp. apply (in_map project_frame) in Hp.
    assert (Hin : In (project_frame p) (map project_frame (projects (db w')))).
    { rewrite A. apply in_or_app; left; exact Hp. }
    apply in_map_iff in Hin as [p' [E Hp']]. exists p'. auto.
Qed.

(* ================================================================== *)
(** ** The reconciler against a database that accepts writes *)
(* ================================================================== *)

Lemma tallied_refl (r : SyncResults) (s : Store) : tallied r s r s.
Proof. repeat split. Qed.

Lemma tallied_trans (r1 r2 r3 : SyncResults) (s1 s2 s3 : Store) :
  tallied r1 s1 r2 s2 -> tallied r2 s2 r3 s3 -> tallied r1 s1 r3 s3.
Proof.
  unfold tallied. intros [A [B [C K]]] [D [E [F L]]].
  repeat split; try lia. congruence.
Qed.

Lemma tallied_updated (a b c : nat) (r : SyncResults) (s s' : Store) :
  List.length (projects s') = List.length (projects s) ->
  List.length (goals s') = List.length (goals s) ->
  List.length (tasks s') = List.length (tasks s) ->
  tallied r s (add_updated a b c r) s'.
Proof. unfold tallied; simpl. intros -> -> ->. repeat split. Qed.

Lemma task_create_healthy (gid : Id) (d : Prisma.TaskData) (w : World) :
  budget w = None ->
  In gid (map g_id (goals (db w))) ->
  exists t w',
    Prisma.task_create gid d w = (Ok t, w') /\
    budget w' = None /\
    db w' = set_tasks (tasks (db w) ++ [t]) (db w).
Proof.
  destruct w as [s clk rd gen iss b]; simpl. intros -> Hin.
  apply in_keys_find in Hin.
  unfold Prisma.task_create, bind, write, getStore, newDate, reserveIds; simpl.
  destruct (find (fun g => String.eqb (g_id g) gid) (goals s)); [|congruence].
  do 2 eexists. split; [reflexivity |]. split; reflexivity.
Qed.

Lemma length_build_tasks (gen : nat -> Id) (k : nat) (gid : Id) (now : Timestamp)
      (ds : list Prisma.TaskData) :
  List.length (Prisma.build_tasks gen k gid now ds) = List.length ds.
Proof. revert k; induction ds as [|d ds IH]; intros k; simpl; [|rewrite IH]; reflexivity. Qed.

Lemma goal_create_healthy (pid : Id) (name : string) (ds : list Prisma.TaskData) (w : World) :
  budget w = None ->
  In pid (map p_id (projects (db w))) ->
  exists g ts w',
    Prisma.goal_create pid name ds w = (Ok g, w') /\
    budget w' = None /\
    List.length ts = List.length ds /\
    db w' = mkStore (projects (db w)) (goals (db w) ++ [g]) (tasks (db w) ++ ts).
Proof.
  destruct w as [s clk rd gen iss b]; simpl. intros -> Hin.
  apply in_keys_find in Hin.
  unfold Prisma.goal_create, Prisma.project_findUnique,
    bind, write, getStore, newDate, reserveIds; simpl.
  destruct (find (fun p => String.eqb (p_id p) pid) (projects s)); [|congruence].
  do 3 eexists. split; [reflexivity |]. split; [reflexivity |].
  split; [apply length_build_tasks | reflexivity].
Qed.

Lemma project_create_healthy (name : string) (cgs : list ClientGoal) (w : World) :
  budget w = None ->
  exists p gs ts w',
    Prisma.project_create name (map goal_data cgs) w = (Ok p, w') /\
    budget w' = None /\
    List.length gs = List.length cgs /\
    List.length ts = List.length (flat_map cg_tasks cgs) /\
    db w' = mkStore (projects (db w) ++ [p]) (goals (db w) ++ gs) (tasks (db w) ++ ts).
Proof.
  destruct w as [s clk rd gen iss b]; simpl. intros ->.
  unfold Prisma.project_create, bind, write, newDate, reserveIds; simpl.
  do 4 eexists. split; [reflexivity |]. split; [reflexivity |].
  pose proof (goals_reflect_length
                (build_goals_reflect gen (gen iss) (clk rd) cgs (S iss))) as [Hg Ht].
  split; [exact Hg | split; [exact Ht | reflexivity]].
Qed.

Lemma foldM_healthy {B : Type} (f : SyncResults -> B -> M SyncResults)
      (Inv : World -> Prop) (l : list B) :
  (forall r x w, In x l -> budget w = None -> Inv w ->
     exists r' w', f r x w = (Ok r', w') /\ budget w' = None /\ Inv w' /\
                   tallied r (db w) r' (db w')) ->
  forall r w, budget w = None -> Inv w ->
    exists r' w', foldM f r l w = (Ok r', w') /\ budget w' = None /\ Inv w' /\
                  tallied r (db w) r' (db w').
Proof.
  induction l as [|x l IH]; intros Hf r w Hb Hi.
  - exists r, w. simpl.
    split; [reflexivity |]. split; [exact Hb |]. split; [exact Hi | apply tallied_refl].
  - destruct (Hf r x w (or_introl eq_refl) Hb Hi) as [r1 [w1 [H1 [Hb1 [Hi1 Ht1]]]]].
    destruct (IH (fun r x w Hx => Hf r x w (or_intror Hx)) r1 w1 Hb1 Hi1)
      as [r' [w' [H2 [Hb' [Hi' Ht2]]]]].
    exists r', w'. simpl. unfold bind. rewrite H1, H2.
    split; [reflexivity |]. split; [exact Hb' |]. split; [exact Hi' |].
    eapply tallied_trans; eassumption.
Qed.

Lemma syncTask_healthy (s0 : Store) (gid : Id) (sg : GoalNode)
      (r : SyncResults) (ct : ClientTask) (w : World) :
  In gid (map g_id (goals s0)) ->
  (forall t, In t (gn_tasks sg) -> In t (tasks s0)) ->
  budget w = None ->
  grown s0 (db w) ->
  exists r' w',
    syncTask gid sg r ct w = (Ok r', w') /\ budget w' = None /\
    grown s0 (db w') /\ tallied r (db w) r' (db w').
Proof.
  intros Hgid Hsg Hb Hgr. destruct (grown_keys Hgr) as [_ [Kg Kt]].
  assert (Hstep : forall r' w', syncTask gid sg r ct w = (Ok r', w') ->
                                grown s0 (db w')).
  { intros r' w' H. eapply grown_trans; [exact Hgr | apply (grown_syncTask _ _ _ _ _ H)]. }
  revert Hstep. unfold syncTask. destruct (client_id (ct_id ct)) as [tid|].
  - destruct (find (fun t => String.eqb (t_id t) tid) (gn_tasks sg)) as [t|] eqn:E.
    + intros Hstep. apply find_some in E as [Ht Ek]. apply String.eqb_eq in Ek.
      assert (Hin : In tid (map t_id (tasks (db w)))).
      { apply Kt. rewrite <- Ek. apply in_map, Hsg, Ht. }
      destruct (@task_update_healthy tid (overwrite_task (task_data ct)) w Hb Hin)
        as [t' [w' [Hrun [Hb' Hdb]]]].
      exists (add_updated 0 0 1 r), w'. unfold bind, ret in *. rewrite Hrun in *.
      split; [reflexivity |]. split; [exact Hb' |]. split; [apply (Hstep _ _ eq_refl) |].
      rewrite Hdb. apply tallied_updated; simpl; try reflexivity. apply length_map.
    + intros _. exists r, w.
      split; [reflexivity |]. split; [exact Hb |]. split; [exact Hgr | apply tallied_refl].
  - intros Hstep.
    destruct (@task_create_healthy gid (task_data ct) w Hb (Kg _ Hgid))
      as [t [w' [Hrun [Hb' Hdb]]]].
    exists (add_created 0 0 1 r), w'. unfold bind, ret in *. rewrite Hrun in *.
    split; [reflexivity |]. split; [exact Hb' |]. split; [apply (Hstep _ _ eq_refl) |].
    rewrite Hdb. unfold tallied; simpl. rewrite length_app; simpl. repeat split; lia.
Qed.

Lemma syncGoal_healthy (s0 : Store) (p : Project)
      (r : SyncResults) (cg : ClientGoal) (w : World) :
  In (p_id p) (map p_id (projects s0)) ->
  budget w = None ->
  grown s0 (db w) ->
  exists r' w',
    syncGoal (p_id p) (include_tree s0 p) r cg w = (Ok r', w') /\ budget w' = None /\
    grown s0 (db w') /\ tallied r (db w) r' (db w').
Proof.
  intros Hpid Hb Hgr. destruct (grown_keys Hgr) as [Kp [Kg _]].
  unfold syncGoal. destruct (client_id (cg_id cg)) as [gid|].
  - destruct (find (fun n => String.eqb (g_id (gn_goal n)) gid)
                   (pn_goals (include_tree s0 p))) as [sg|] eqn:E.
    2:{ exists r, w.
        split; [reflexivity |]. split; [exact Hb |]. split; [exact Hgr | apply tallied_refl]. }
    apply find_some in E as [Hn Ek]. apply String.eqb_eq in Ek.
    simpl in Hn. apply in_map_iff in Hn as [g [<- Hg]]. simpl in Ek.
    apply filter_In in Hg as [Hg _].
    assert (Hgid : In gid (map g_id (goals s0))) by (rewrite <- Ek; apply in_map, Hg).
    assert (Hrename : exists r1 w1,
               (if negb (String.eqb (g_name g) (cg_name cg))
                then Prisma.goal_update gid (rename_goal (cg_name cg)) ;;;
                     ret (add_updated 0 1 0 r)
                else ret r) w = (Ok r1, w1) /\ budget w1 = None /\
               grown s0 (db w1) /\ tallied r (db w) r1 (db w1)).
    { destruct (negb (String.eqb (g_name g) (cg_name cg))).
      - destruct (@goal_update_healthy gid (rename_goal (cg_name cg)) w Hb (Kg _ Hgid))
          as [g' [w1 [Hrun [Hb1 Hdb]]]].
        exists (add_updated 0 1 0 r), w1. unfold bind, ret. rewrite Hrun.
        split; [reflexivity |]. split; [exact Hb1 |]. rewrite Hdb. split.
        + eapply grown_trans; [exact Hgr | apply grown_goals; reflexivity].
        + apply tallied_updated; simpl; try reflexivity. apply length_map.
      - exists r, w.
        split; [reflexivity |]. split; [exact Hb |]. split; [exact Hgr | apply tallied_refl]. }
    destruct Hrename as [r1 [w1 [H1 [Hb1 [Hgr1 Ht1]]]]].
    destruct (@foldM_healthy _ (syncTask gid (mkGoalNode g (live_tasks_of s0 (g_id g))))
                (fun w => grown s0 (db w)) (cg_tasks cg)) with (r := r1) (w := w1)
      as [r' [w' [H2 [Hb' [Hgr' Ht2]]]]]; try assumption.
    { intros r0 x w0 _ Hb0 Hgr0.
      apply (@syncTask_healthy s0 gid _ r0 x w0 Hgid); try assumption.
      intros t Ht. simpl in Ht. apply filter_In in Ht. apply Ht. }
    exists r', w'. simpl gn_goal. unfold bind in *. rewrite H1. simpl. rewrite H2.
    split; [reflexivity |]. split; [exact Hb' |]. split; [exact Hgr' |].
    eapply tallied_trans; eassumption.
  - destruct (@goal_create_healthy (p_id p) (cg_name cg) (map task_data (cg_tasks cg)) w Hb
                (Kp _ Hpid)) as [g [ts [w' [Hrun [Hb' [Hlen Hdb]]]]]].
    exists (add_created 0 1 (List.length (cg_tasks cg)) r), w'.
    unfold bind, ret. rewrite Hrun. split; [reflexivity |]. split; [exact Hb' |].
    rewrite Hdb. split.
    + eapply grown_trans; [exact Hgr |].
      split; [|split]; simpl;
        [exists []; rewrite app_nil_r; reflexivity
        | rewrite map_app; eexists; reflexivity
        | rewrite map_app; eexists; reflexivity].
    + rewrite length_map in Hlen. unfold tallied; simpl. rewrite !length_app; simpl.
      repeat split; lia.
Qed.

Lemma syncProject_healthy (r : SyncResults) (cp : ClientProject) (w : World) :
  budget w = None ->
  exists r' w',
    syncProject r cp w = (Ok r', w') /\ budget w' = None /\
    tallied r (db w) r' (db w').
Proof.
  intros Hb. unfold syncProject. destruct (client_id (cp_id cp)) as [pid|].
  - unfold bind at 1, getStore at 1.
    destruct (Prisma.project_findUnique (db w) pid) as [p|] eqn:E.
    2:{ exists r, w. split; [reflexivity |]. split; [exact Hb | apply tallied_refl]. }
    apply find_some in E as [Hp Ek]. apply String.eqb_eq in Ek. subst pid.
    assert (Hpid : In (p_id p) (map p_id (projects (db w)))) by (apply in_map, Hp).
    assert (Hrename : exists r1 w1,
               (if negb (String.eqb (p_name p) (cp_name cp))
                then Prisma.project_update (p_id p) (rename_project (cp_name cp)) ;;;
                     ret (add_updated 1 0 0 r)
                else ret r) w = (Ok r1, w1) /\ budget w1 = None /\
               grown (db w) (db w1) /\ tallied r (db w) r1 (db w1)).
    { destruct (negb (String.eqb (p_name p) (cp_name cp))).
      - destruct (@project_update_healthy (p_id p) (rename_project (cp_name cp)) w Hb Hpid)
          as [p' [w1 [Hrun [Hb1 Hdb]]]].
        exists (add_updated 1 0 0 r), w1. unfold bind, ret. rewrite Hrun.
        split; [reflexivity |]. split; [exact Hb1 |]. rewrite Hdb. split.
        + apply grown_projects; reflexivity.
        + apply tallied_updated; simpl; try reflexivity. apply length_map.
      - exists r, w.
        split; [reflexivity |]. split; [exact Hb |].
        split; [apply grown_refl | apply tallied_refl]. }
    destruct Hrename as [r1 [w1 [H1 [Hb1 [Hgr1 Ht1]]]]].
    destruct (@foldM_healthy _ (syncGoal (p_id p) (include_tree (db w) p))
                (fun w1 => grown (db w) (db w1)) (cp_goals cp)) with (r := r1) (w := w1)
      as [r' [w' [H2 [Hb' [_ Ht2]]]]]; try assumption.
    { intros r0 x w0 _ Hb0 Hgr0.
      apply (@syncGoal_healthy (db w) p r0 x w0 Hpid Hb0 Hgr0). }
    exists r', w'. unfold bind in *. rewrite H1. rewrite H2.
    split; [reflexivity |]. split; [exact Hb' |].
    eapply tallied_trans; eassumption.
  - destruct (@project_create_healthy (cp_name cp) (cp_goals cp) w Hb)
      as [p [gs [ts [w' [Hrun [Hb' [Hg [Ht Hdb]]]]]]]].
    eexists _, w'. unfold bind, ret. rewrite Hrun.
    split; [reflexivity |]. split; [exact Hb' |].
    rewrite Hdb, count_nested_tasks. unfold tallied; simpl. rewrite !length_app; simpl.
    repeat split; lia.
Qed.

(** X2.  Against a database that accepts writes POST /api/sync succeeds
    for every snapshot and every store, and its [created] counters are
    exactly the numbers of rows the request added to the three tables;
    [conflicts] is always empty. *)
Theorem sync_succeeds_and_counts_rows
        (cps : list ClientProject) (l : option Timestamp) (w : World) :
  budget w = None ->
  exists resp w',
    syncData cps l w = (Ok resp, w') /\
    (List.length (projects (db w'))
     = List.length (projects (db w)) + n_projects (created (syncResults resp)))%nat /\
    (List.length (goals (db w'))
     = List.length (goals (db w)) + n_goals (created (syncResults resp)))%nat /\
    (List.length (tasks (db w'))
     = List.length (tasks (db w)) + n_tasks (created (syncResults resp)))%nat /\
    conflicts (syncResults resp) = [].
Proof.
  intros Hb.
  destruct (@foldM_healthy _ syncProject (fun _ => True) cps) with (r := no_results) (w := w)
    as [r [w1 [Hrun [_ [_ [Hp [Hg [Ht Hc]]]]]]]]; auto.
  { intros r x w0 _ Hb0 _. destruct (@syncProject_healthy r x w0 Hb0)
      as [r' [w' [H [Hb' Ht]]]]. exists r', w'. auto. }
  do 2 eexists. split; [apply (@syncData_run cps l _ _ _ Hrun) |].
  simpl in *. repeat split; try lia. exact Hc.
Qed.

(** X3.  A client project whose id no server project carries is passed
    over.  A snapshot made of such projects only (the empty snapshot
    included) is a pure read: no counter moves, nothing is written even
    by a database that would refuse writes, and the response carries
    the current hierarchy. *)
Theorem sync_drops_unknown_projects
        (cps : list ClientProject) (l : option Timestamp) (w : World) :
  Forall (fun cp => exists pid, client_id (cp_id cp) = Some pid /\
                                forall p, In p (projects (db w)) -> p_id p <> pid) cps ->
  syncData cps l w
  = (Ok (mkSyncResponse no_results (full_hierarchy (db w)) (clock w (reads w))),
     mkWorld (db w) (clock w) (S (reads w)) (cuid w) (issued w) (budget w)).
Proof.
  intros H. apply syncData_run.
  generalize no_results as r. induction H as [|cp cps [pid [Hid Hno]] _ IH]; intros r.
  - reflexivity.
  - simpl. unfold bind. unfold syncProject at 1. rewrite Hid.
    unfold bind at 1, getStore at 1. unfold Prisma.project_findUnique.
    rewrite find_absent; [apply IH |].
    intros p Hp. apply String.eqb_neq, Hno, Hp.
Qed.

Lemma sync_drops_unknown_projects_witness :
  let w := Demo.world Demo.small_store Demo.ticking (Some 0%nat) in
  exists w',
    syncData [mkClientProject (Some "elsewhere"%string) "Q" [Demo.client_G]] None w
    = (Ok (mkSyncResponse no_results (full_hierarchy Demo.small_store) 1000), w') /\
    db w' = Demo.small_store.
Proof.
  intros w. eexists. split.
  - apply (@sync_drops_unknown_projects
             [mkClientProject (Some "elsewhere"%string) "Q" [Demo.client_G]] None w).
    constructor; [|constructor].
    exists "elsewhere"%string. split; [reflexivity |].
    simpl. intros p [<- | []]. discriminate.
  - reflexivity.
Defined.

(* ================================================================== *)
(** ** Reads *)
(* ================================================================== *)

Lemma filter_length_perm {A : Type} (f : A -> bool) (l l' : list A) :
  Permutation l l' -> List.length (filter f l) = List.length (filter f l').
Proof.
  induction 1 as [|x l l' _ IH|x y l|l1 l2 l3 _ IH1 _ IH2]; simpl.
  - reflexivity.
  - destruct (f x); simpl; congruence.
  - destruct (f x), (f y); reflexivity.
  - congruence.
Qed.

Lemma filter_length_le {A : Type} (f : A -> bool) (l : list A) :
  (List.length (filter f l) <= List.length l)%nat.
Proof. induction l as [|a l IH]; simpl; [|destruct (f a); simpl]; lia. Qed.

Lemma with_stats_exact (s : Store) (g : Goal) :
  stats_exact s (with_stats (goal_node_ordered s g)).
Proof.
  unfold stats_exact, with_stats, goal_node_ordered; simpl.
  pose proof (orderBy_perm task_list_order (live_tasks_of s (g_id g))) as Hp.
  split; [|split].
  - symmetry. apply Permutation_length, Hp.
  - symmetry. apply filter_length_perm, Hp.
  - apply filter_length_le.
Qed.

(** X6.  In every goal a read returns (GET /api/goals, /api/goals/:id,
    /api/projects, /api/projects/:id), [totalCount] is the number of
    non-deleted tasks the store holds for that goal, [completedCount]
    the number of those that are completed, and
    [completedCount <= totalCount]. *)
Theorem goal_stats_count_live_tasks (w : World) :
  (forall q views w',
      getAllGoals q w = (Ok views, w') ->
      Forall (fun v => stats_exact (db w) (gv_stats v)) views) /\
  (forall id v w',
      getGoalById id w = (Ok v, w') -> stats_exact (db w) (gv_stats v)) /\
  (forall ps w',
      getAllProjects w = (Ok ps, w') ->
      Forall (fun p => Forall (stats_exact (db w)) (pws_goals p)) ps) /\
  (forall id p w',
      getProjectById id w = (Ok p, w') -> Forall (stats_exact (db w)) (pws_goals p)).
Proof.
  split; [|split; [|split]].
  - intros q views w' H. unfold getAllGoals, bind, getStore, ret in H.
    inversion H; subst. apply Forall_forall. intros v Hv.
    apply in_map_iff in Hv as [g [<- _]]. apply with_stats_exact.
  - intros id v w' H. unfold getGoalById, bind, getStore in H.
    destruct (Prisma.goal_findFirst (db w) id); inversion H; subst.
    apply with_stats_exact.
  - intros ps w' H. unfold getAllProjects, bind, getStore, ret in H.
    inversion H; subst. apply Forall_forall. intros p Hp.
    apply in_map_iff in Hp as [n [<- Hn]].
    unfold full_hierarchy in Hn. apply in_map_iff in Hn as [p0 [<- _]].
    apply Forall_forall. intros v Hv. simpl in Hv. rewrite map_map in Hv.
    apply in_map_iff in Hv as [g [<- _]]. apply with_stats_exact.
  - intros id p w' H. unfold getProjectById, bind, getStore in H.
    destruct (Prisma.project_findFirst (db w) id) as [p0|]; inversion H; subst.
    apply Forall_forall. intros v Hv. simpl in Hv. rewrite map_map in Hv.
    apply in_map_iff in Hv as [g [<- _]]. apply with_stats_exact.
Qed.

Lemma find_live_some {A : Type} (key : A -> Id) (del : A -> option Timestamp)
      (id : Id) (l : list A) (a : A) :
  find (fun x => String.eqb (key x) id && is_null (del x)) l = Some a ->
  In a l /\ key a = id /\ del a = None.
Proof.
  intros H. apply find_some in H as [Hin H]. apply andb_true_iff in H as [Hk Hn].
  apply String.eqb_eq in Hk. apply is_null_true in Hn. auto.
Qed.

Lemma find_live_none {A : Type} (key : A -> Id) (del : A -> option Timestamp)
      (id : Id) (l : list A) :
  find (fun x => String.eqb (key x) id && is_null (del x)) l = None ->
  forall a, In a l -> key a = id -> del a <> None.
Proof.
  intros H a Ha Hk Hd. pose proof (find_none _ _ H a Ha) as Hf. simpl in Hf.
  rewrite Hk, String.eqb_refl, Hd in Hf. discriminate.
Qed.

(** X7.  The by-id reads never change the world and only see non-deleted
    rows: they return a non-deleted row of the store carrying the
    requested id, and they answer NotFound exactly when every row with
    that id is soft-deleted (or there is none). *)
Theorem reads_by_id_see_live_rows_only (id : Id) (w : World) :
  match getTaskById id w with
  | (Ok v, w') =>
      w' = w /\ In (tv_task v) (tasks (db w)) /\
      t_id (tv_task v) = id /\ t_deletedAt (tv_task v) = None
  | (Thrown e, w') =>
      w' = w /\ e = NotFoundError "Task" id /\
      forall t, In t (tasks (db w)) -> t_id t = id -> t_deletedAt t <> None
  end /\
  match getGoalById id w with
  | (Ok v, w') =>
      let g := gn_goal (gws_node (gv_stats v)) in
      w' = w /\ In g (goals (db w)) /\ g_id g = id /\ g_deletedAt g = None
  | (Thrown e, w') =>
      w' = w /\ e = NotFoundError "Goal" id /\
      forall g, In g (goals (db w)) -> g_id g = id -> g_deletedAt g <> None
  end /\
  match getProjectById id w with
  | (Ok v, w') =>
      w' = w /\ In (pws_project v) (projects (db w)) /\
      p_id (pws_project v) = id /\ p_deletedAt (pws_project v) = None
  | (Thrown e, w') =>
      w' = w /\ e = NotFoundError "Project" id /\
      forall p, In p (projects (db w)) -> p_id p = id -> p_deletedAt p <> None
  end.
Proof.
  split; [|split].
  - unfold getTaskById, bind, getStore, Prisma.task_findFirst.
    destruct (find _ (tasks (db w))) as [t|] eqn:E; simpl.
    + apply (@find_live_some _ t_id t_deletedAt) in E. tauto.
    + repeat split. apply (@find_live_none _ t_id t_deletedAt _ _ E).
  - unfold getGoalById, bind, getStore, Prisma.goal_findFirst.
    destruct (find _ (goals (db w))) as [g|] eqn:E; simpl.
    + apply (@find_live_some _ g_id g_deletedAt) in E. tauto.
    + repeat split. apply (@find_live_none _ g_id g_deletedAt _ _ E).
  - unfold getProjectById, bind, getStore, Prisma.project_findFirst.
    destruct (find _ (projects (db w))) as [p|] eqn:E; simpl.
    + apply (@find_live_some _ p_id p_deletedAt) in E. tauto.
    + repeat split. apply (@find_live_none _ p_id p_deletedAt _ _ E).
Qed.

Lemma goal_createdAt_asc_sound (a b : Goal) :
  (goal_createdAt_asc a b <> Gt -> goal_older a b) /\
  (goal_createdAt_asc a b = Gt -> goal_older b a).
Proof.
  unfold goal_createdAt_asc, goal_older, asc.
  destruct (Z.compare_spec (g_createdAt a) (g_createdAt b)); split; intros; lia || congruence.
Qed.

Lemma project_createdAt_asc_sound (a b : Project) :
  (project_createdAt_asc a b <> Gt -> project_older a b) /\
  (project_createdAt_asc a b = Gt -> project_older b a).
Proof.
  unfold project_createdAt_asc, project_older, asc.
  destruct (Z.compare_spec (p_createdAt a) (p_createdAt b)); split; intros; lia || congruence.
Qed.

Lemma goal_older_trans : Transitive goal_older.
Proof. intros a b c; unfold goal_older; lia. Qed.

Lemma project_older_trans : Transitive project_older.
Proof. intros a b c; unfold project_older; lia. Qed.

Lemma orderBy_goals_sorted (l : list Goal) :
  StronglySorted goal_older (Prisma.orderBy goal_createdAt_asc l).
Proof.
  apply Sorted_StronglySorted; [exact goal_older_trans |].
  apply orderBy_sorted; intros a b; apply goal_createdAt_asc_sound.
Qed.

Lemma orderBy_tasks_sorted (l : list Task) :
  StronglySorted task_list_precedes (Prisma.orderBy task_list_order l).
Proof.
  apply Sorted_StronglySorted; [exact task_list_precedes_trans |].
  apply orderBy_sorted; intros a b; apply task_list_order_sound.
Qed.

(** X8.  GET /api/goals returns exactly the non-deleted goals (of the
    requested project, when a project id is given), oldest first, each
    with the project its [projectId] names and with its non-deleted
    tasks in task-list order. *)
Theorem goal_listing_filtered_and_ordered (projectId : option Id) (w : World) :
  exists views,
    getAllGoals projectId w = (Ok views, w) /\
    let listed := map (fun v => gn_goal (gws_node (gv_stats v))) views in
    StronglySorted goal_older listed /\
    (forall g, In g listed <->
               In g (goals (db w)) /\ g_deletedAt g = None /\
               (forall p, client_id projectId = Some p -> g_projectId g = p)) /\
    Forall (fun v =>
              let g := gn_goal (gws_node (gv_stats v)) in
              gv_project v = Prisma.project_findUnique (db w) (g_projectId g) /\
              StronglySorted task_list_precedes (gn_tasks (gws_node (gv_stats v))) /\
              forall t, In t (gn_tasks (gws_node (gv_stats v))) <->
                        In t (tasks (db w)) /\ t_goalId t = g_id g /\ t_deletedAt t = None)
           views.
Proof.
  eexists. split; [reflexivity |]. simpl.
  rewrite map_map; simpl; rewrite map_id. split; [apply orderBy_goals_sorted |]. split.
  - intros g. rewrite orderBy_In, filter_In. unfold goal_query_where.
    rewrite andb_true_iff, is_null_true.
    destruct (client_id projectId) as [p|]; simpl.
    + rewrite String.eqb_eq. split.
      * intros [Hg [Hd Hp]]. repeat split; auto. intros p0 E. congruence.
      * intros [Hg [Hd Hp]]. repeat split; auto.
    + split; [intros [Hg [Hd _]] | intros [Hg [Hd _]]]; repeat split; auto.
      intros p E; discriminate.
  - apply Forall_forall. intros v Hv. apply in_map_iff in Hv as [g [<- _]]. simpl.
    split; [reflexivity |]. split; [apply orderBy_tasks_sorted |].
    intros t. rewrite orderBy_In. unfold live_tasks_of.
    rewrite filter_In, andb_true_iff, String.eqb_eq, is_null_true. tauto.
Qed.

(** X5.  In the hierarchy returned by GET /api/projects, and as
    [serverState] by POST /api/sync, projects come oldest first, the
    goals of a project oldest first, and the tasks of a goal in
    task-list order. *)
Theorem hierarchy_is_ordered (s : Store) :
  StronglySorted project_older (map pn_project (full_hierarchy s)) /\
  Forall (fun n =>
            StronglySorted goal_older (map gn_goal (pn_goals n)) /\
            Forall (fun gn => StronglySorted task_list_precedes (gn_tasks gn)) (pn_goals n))
         (full_hierarchy s).
Proof.
  unfold full_hierarchy. split.
  - rewrite map_map; simpl; rewrite map_id.
    apply Sorted_StronglySorted; [exact project_older_trans |].
    apply orderBy_sorted; intros a b; apply project_createdAt_asc_sound.
  - apply Forall_forall. intros n Hn. apply in_map_iff in Hn as [p [<- _]]. simpl. split.
    + rewrite map_map; simpl; rewrite map_id. apply orderBy_goals_sorted.
    + apply Forall_forall. intros gn Hgn. apply in_map_iff in Hgn as [g [<- _]]. simpl.
      apply orderBy_tasks_sorted.
Qed.

(** X4.  Right after a successful sync, GET /api/projects returns the
    [serverState] of that sync (with the computed counts added) and GET
    /api/projects/:id returns its entry for every project in it. *)
Theorem sync_state_is_what_reads_return
        (cps : list ClientProject) (l : option Timestamp)
        (w w' : World) (resp : SyncResponse) :
  syncData cps l w = (Ok resp, w') ->
  getAllProjects w' = (Ok (map project_with_stats (serverState resp)), w') /\
  (unique_keys (db w') ->
   forall n, In n (serverState resp) ->
             getProjectById (p_id (pn_project n)) w' = (Ok (project_with_stats n), w')).
Proof.
  unfold syncData, bind, getStore, newDate, ret.
  destruct (foldM syncProject no_results cps w) as [[r|e] w1]; [|discriminate].
  intros H; inversion H; subst; simpl. split; [reflexivity |].
  intros [Up _] n Hn. unfold getProjectById, bind, getStore; simpl.
  unfold full_hierarchy in Hn. apply in_map_iff in Hn as [p [<- Hp]].
  rewrite orderBy_In in Hp. apply filter_In in Hp as [Hp Hlive]. simpl.
  assert (E : Prisma.project_findFirst (db w1) (p_id p) = Some p).
  { unfold Prisma.project_findFirst.
    destruct (find (fun q => String.eqb (p_id q) (p_id p) && is_null (p_deletedAt q))
                   (projects (db w1))) as [q|] eqn:F.
    - apply (@find_live_some _ p_id p_deletedAt) in F as [Hq [Hk _]]. f_equal.
      apply (@unique_row _ p_id (projects (db w1)) q p Up Hq Hp Hk).
    - exfalso. apply (@find_live_none _ p_id p_deletedAt _ _ F p Hp eq_refl).
      apply is_null_true, Hlive. }
  rewrite E. reflexivity.
Qed.

(* ================================================================== *)
(** ** Writes of the CRUD handlers *)
(* ================================================================== *)

Lemma same_refl (s : Store) : unchanged s s.
Proof. reflexivity. Qed.

Lemma same_trans (s1 s2 s3 : Store) : unchanged s1 s2 -> unchanged s2 s3 -> unchanged s1 s3.
Proof. unfold unchanged. congruence. Qed.

Lemma readonly_getStore : readonly getStore.
Proof. apply (@preserves_getStore _ same_refl). Qed.

Lemma readonly_newDate : readonly newDate.
Proof. apply (@preserves_newDate _ same_refl). Qed.

Lemma readonly_ret {A : Type} (a : A) : readonly (ret a).
Proof. apply (@preserves_ret _ same_refl). Qed.

Lemma readonly_throw {A : Type} (e : Failure) : readonly (@throw A e).
Proof. apply (@preserves_throw _ same_refl). Qed.

Lemma readonly_bind {A B : Type} (m : M A) (k : A -> M B) :
  readonly m -> (forall a, readonly (k a)) -> readonly (bind m k).
Proof. apply (@preserves_bind _ same_trans). Qed.

Lemma readonly_failsafe {A : Type} (m : M A) : readonly m -> failsafe m.
Proof. intros H w e w' E. apply (H _ _ _ E). Qed.

Lemma failsafe_bind {A B : Type} (m : M A) (k : A -> M B) :
  readonly m -> (forall a, failsafe (k a)) -> failsafe (bind m k).
Proof.
  intros Hm Hk w e w' H. unfold bind in H.
  destruct (m w) as [[a|e0] w1] eqn:E.
  - rewrite (Hk a _ _ _ H). apply (Hm _ _ _ E).
  - inversion H; subst. apply (Hm _ _ _ E).
Qed.

(** A failing write followed by steps that cannot throw. *)
Lemma failsafe_then {A B : Type} (m : M A) (k : A -> M B) :
  failsafe m -> (forall a w e w', k a w <> (Thrown e, w')) -> failsafe (bind m k).
Proof.
  intros Hm Hk w e w' H. unfold bind in H.
  destruct (m w) as [[a|e0] w1] eqn:E.
  - exfalso. apply (Hk a _ _ _ H).
  - inversion H; subst. apply (Hm _ _ _ E).
Qed.

Lemma readonly_refuse_color (c : option Color) : readonly (refuse_color c).
Proof. destruct c; [apply readonly_throw | apply readonly_ret]. Qed.

Lemma failsafe_createTask (v : CreateTask) : failsafe (createTask v).
Proof.
  unfold createTask. apply failsafe_bind; [apply readonly_getStore |]. intros s.
  destruct (Prisma.goal_findFirst s (c_goalId v)).
  - intros w e w'. apply thrown_unchanged_task_create.
  - apply readonly_failsafe, readonly_throw.
Qed.

Lemma failsafe_createGoal (v : CreateGoal) : failsafe (createGoal v).
Proof.
  unfold createGoal. apply failsafe_bind; [apply readonly_getStore |]. intros s.
  destruct (Prisma.project_findFirst s (cgl_projectId v)).
  - intros w e w'. apply thrown_unchanged_goal_create.
  - apply readonly_failsafe, readonly_throw.
Qed.

Lemma failsafe_createProject (v : CreateProject) : failsafe (createProject v).
Proof.
  unfold createProject. apply failsafe_bind; [apply readonly_refuse_color |]. intros _.
  intros w e w'. apply thrown_unchanged_project_create.
Qed.

Lemma readonly_goal_check (s : Store) (o : option Id) :
  readonly (match client_id o with
            | Some gid =>
                match Prisma.goal_findFirst s gid with
                | Some _ => ret tt
                | None => throw (NotFoundError "Goal" gid)
                end
            | None => ret tt
            end).
Proof.
  destruct (client_id o) as [gid|]; [destruct (Prisma.goal_findFirst s gid) |];
    apply readonly_ret || apply readonly_throw.
Qed.

Lemma readonly_project_check (s : Store) (o : option Id) :
  readonly (match client_id o with
            | Some pid =>
                match Prisma.project_findFirst s pid with
                | Some _ => ret tt
                | None => throw (NotFoundError "Project" pid)
                end
            | None => ret tt
            end).
Proof.
  destruct (client_id o) as [pid|]; [destruct (Prisma.project_findFirst s pid) |];
    apply readonly_ret || apply readonly_throw.
Qed.

Lemma readonly_stamp (v : UpdateTask) (ex : Task) :
  readonly (match u_completed v with
            | Some c =>
                if c && negb (t_completed ex)
                then now <- newDate ;; ret (Some (Some now))
                else if negb c && t_completed ex
                     then ret (Some None)
                     else ret None
            | None => ret None
            end).
Proof.
  destruct (u_completed v) as [c|]; [|apply readonly_ret].
  destruct (c && negb (t_completed ex)).
  - apply readonly_bind; [apply readonly_newDate | intros; apply readonly_ret].
  - destruct (negb c && t_completed ex); apply readonly_ret.
Qed.

Lemma failsafe_updateTask (id : Id) (v : UpdateTask) : failsafe (updateTask id v).
Proof.
  unfold updateTask. apply failsafe_bind; [apply readonly_getStore |]. intros s.
  destruct (Prisma.task_findFirst s id) as [ex|];
    [|apply readonly_failsafe, readonly_throw].
  apply failsafe_bind; [apply readonly_goal_check |]. intros _.
  apply failsafe_bind; [apply readonly_stamp |]. intros stamp.
  destruct (u_urgency v) as [[u|]|];
    try (intros w e w'; apply thrown_unchanged_task_update).
  apply readonly_failsafe, readonly_throw.
Qed.

Lemma failsafe_deleteTask (id : Id) : failsafe (deleteTask id).
Proof.
  unfold deleteTask. apply failsafe_bind; [apply readonly_getStore |]. intros s.
  destruct (Prisma.task_findFirst s id); [|apply readonly_failsafe, readonly_throw].
  apply failsafe_bind; [apply readonly_newDate |]. intros d.
  apply failsafe_then; [intros w e w'; apply thrown_unchanged_task_update |].
  intros a w e w' H. unfold ret in H. discriminate.
Qed.

Lemma failsafe_updateGoal (id : Id) (v : UpdateGoal) : failsafe (updateGoal id v).
Proof.
  unfold updateGoal. apply failsafe_bind; [apply readonly_getStore |]. intros s.
  destruct (Prisma.goal_findFirst s id); [|apply readonly_failsafe, readonly_throw].
  apply failsafe_bind; [apply readonly_project_check |]. intros _.
  intros w e w'. apply thrown_unchanged_goal_update.
Qed.

Lemma failsafe_updateProject (id : Id) (v : UpdateProject) : failsafe (updateProject id v).
Proof.
  unfold updateProject. apply failsafe_bind; [apply readonly_getStore |]. intros s.
  destruct (Prisma.project_findFirst s id); [|apply readonly_failsafe, readonly_throw].
  apply failsafe_bind; [apply readonly_refuse_color |]. intros _.
  apply failsafe_then; [intros w e w'; apply thrown_unchanged_project_update |].
  intros a w e w' H. unfold bind, getStore, ret in H. discriminate.
Qed.


Lemma task_update_result (id : Id) (f : Task -> Task) (w w' : World) (t' : Task) :
  Prisma.task_update id f w = (Ok t', w') ->
  exists t0,
    find (fun t => String.eqb (t_id t) id) (tasks (db w)) = Some t0 /\
    t' = Prisma.touch_task (clock w (reads w)) (f t0) /\
    db w' = set_tasks (map (fun t => if String.eqb (t_id t) id
                                     then Prisma.touch_task (clock w (reads w)) (f t)
                                     else t)
                           (tasks (db w))) (db w).
Proof.
  destruct w as [s clk rd gen iss b].
  unfold Prisma.task_update, bind, write, getStore, newDate, putStore, ret; simpl.
  destruct b as [[|n]|]; simpl; try discriminate;
    destruct (find (fun t => String.eqb (t_id t) id) (tasks s)) as [t0|]; simpl;
      intros H; inversion H; subst; simpl; exists t0; repeat split.
Qed.

Lemma stamp_run (v : UpdateTask) (ex : Task) (w : World) :
  exists w1,
    (match u_completed v with
     | Some c =>
         if c && negb (t_completed ex)
         then now <- newDate ;; ret (Some (Some now))
         else if negb c && t_completed ex
              then ret (Some None)
              else ret None
     | None => ret None
     end) w = (Ok (completion_stamp v ex (clock w (reads w))), w1) /\
    db w1 = db w.
Proof.
  unfold completion_stamp. destruct (u_completed v) as [c|].
  - destruct (c && negb (t_completed ex)).
    + eexists. split; reflexivity.
    + destruct (negb c && t_completed ex); eexists; split; reflexivity.
  - eexists. split; reflexivity.
Qed.

Lemma goal_check_run (s : Store) (o : option Id) (w w1 : World) :
  (match client_id o with
   | Some gid =>
       match Prisma.goal_findFirst s gid with
       | Some _ => ret tt
       | None => throw (NotFoundError "Goal" gid)
       end
   | None => ret tt
   end) w = (Ok tt, w1) ->
  w1 = w /\ forall gid, client_id o = Some gid -> Prisma.goal_findFirst s gid <> None.
Proof.
  destruct (client_id o) as [gid|].
  - destruct (Prisma.goal_findFirst s gid) eqn:E; intros H; inversion H; subst.
    split; [reflexivity |]. intros gid0 E0. inversion E0; subst. congruence.
  - intros H; inversion H; subst. split; [reflexivity | discriminate].
Qed.

(** What a successful PUT /api/tasks/:id did. *)
Lemma updateTask_result (id : Id) (v : UpdateTask) (w w' : World) (t' : Task) :
  updateTask id v w = (Ok t', w') ->
  exists ex t0 now,
    let stamp := completion_stamp v ex (clock w (reads w)) in
    Prisma.task_findFirst (db w) id = Some ex /\
    (forall gid, client_id (u_goalId v) = Some gid ->
                 Prisma.goal_findFirst (db w) gid <> None) /\
    u_urgency v <> Some None /\
    find (fun t => String.eqb (t_id t) id) (tasks (db w)) = Some t0 /\
    t' = Prisma.touch_task now (apply_update v stamp t0) /\
    db w' = set_tasks (map (fun t => if String.eqb (t_id t) id
                                     then Prisma.touch_task now (apply_update v stamp t)
                                     else t)
                           (tasks (db w))) (db w).
Proof.
  unfold updateTask. unfold bind at 1, getStore at 1.
  destruct (Prisma.task_findFirst (db w) id) as [ex|] eqn:Hex; [|discriminate].
  unfold bind at 1.
  match goal with
  | |- context [match ?c w with _ => _ end] => destruct (c w) as [[[]|e] w0] eqn:Hchk
  end; [|discriminate].
  apply goal_check_run in Hchk as [-> Hgoal].
  unfold bind at 1. destruct (stamp_run v ex w) as [w1 [-> Hdb1]].
  intros H.
  assert (Hu : u_urgency v <> Some None).
  { intros E. rewrite E in H. discriminate. }
  assert (Hrun : Prisma.task_update id
                   (apply_update v (completion_stamp v ex (clock w (reads w)))) w1
                 = (Ok t', w')).
  { destruct (u_urgency v) as [[u|]|]; [exact H | congruence | exact H]. }
  apply task_update_result in Hrun as [t0 [Hf [Ht Hdb]]].
  rewrite Hdb1 in Hf, Hdb.
  exists ex, t0, (clock w1 (reads w1)). simpl. repeat split; assumption.
Qed.

(* ================================================================== *)
(** ** What a successful write did *)
(* ================================================================== *)

Lemma deleteTask_result (id : Id) (w w' : World) (r : Id) :
  deleteTask id w = (Ok r, w') ->
  r = id /\
  exists ex d now,
    Prisma.task_findFirst (db w) id = Some ex /\
    db w' = set_tasks (map (fun t => if String.eqb (t_id t) id
                                     then Prisma.touch_task now (mark_task_deleted d t)
                                     else t)
                           (tasks (db w))) (db w).
Proof.
  unfold deleteTask. unfold bind at 1, getStore at 1.
  destruct (Prisma.task_findFirst (db w) id) as [ex|]; [|discriminate].
  unfold bind at 1, newDate at 1. unfold bind at 1.
  match goal with
  | |- context [Prisma.task_update id ?f ?w1] =>
      destruct (Prisma.task_update id f w1) as [[t|e] w2] eqn:E
  end; [|discriminate].
  apply task_update_ok in E as [now E]. simpl in E.
  unfold ret. intros H; inversion H; subst. split; [reflexivity |].
  exists ex. do 2 eexists. split; [reflexivity | exact E].
Qed.

Lemma project_check_run (s : Store) (o : option Id) (w w1 : World) :
  (match client_id o with
   | Some pid =>
       match Prisma.project_findFirst s pid with
       | Some _ => ret tt
       | None => throw (NotFoundError "Project" pid)
       end
   | None => ret tt
   end) w = (Ok tt, w1) ->
  w1 = w /\ forall pid, client_id o = Some pid -> Prisma.project_findFirst s pid <> None.
Proof.
  destruct (client_id o) as [pid|].
  - destruct (Prisma.project_findFirst s pid) eqn:E; intros H; inversion H; subst.
    split; [reflexivity |]. intros pid0 E0. inversion E0; subst. congruence.
  - intros H; inversion H; subst. split; [reflexivity | discriminate].
Qed.

Lemma updateGoal_result (id : Id) (v : UpdateGoal) (w w' : World) (g' : Goal) :
  updateGoal id v w = (Ok g', w') ->
  exists ex now,
    Prisma.goal_findFirst (db w) id = Some ex /\
    (forall pid, client_id (ug_projectId v) = Some pid ->
                 Prisma.project_findFirst (db w) pid <> None) /\
    db w' = set_goals (map (fun g => if String.eqb (g_id g) id
                                     then Prisma.touch_goal now (apply_goal_update v g)
                                     else g)
                           (goals (db w))) (db w).
Proof.
  unfold updateGoal. unfold bind at 1, getStore at 1.
  destruct (Prisma.goal_findFirst (db w) id) as [ex|]; [|discriminate].
  unfold bind at 1.
  match goal with
  | |- context [match ?c w with _ => _ end] => destruct (c w) as [[[]|e] w0] eqn:Hchk
  end; [|discriminate].
  apply project_check_run in Hchk as [-> Hp].
  intros H. apply goal_update_ok in H as [now H].
  exists ex, now. auto.
Qed.

Lemma updateProject_result (id : Id) (v : UpdateProject) (w w' : World) (n : ProjectNode) :
  updateProject id v w = (Ok n, w') ->
  exists ex now,
    Prisma.project_findFirst (db w) id = Some ex /\
    db w' = set_projects (map (fun p => if String.eqb (p_id p) id
                                        then Prisma.touch_project now (apply_project_update v p)
                                        else p)
                              (projects (db w))) (db w).
Proof.
  unfold updateProject. unfold bind at 1, getStore at 1.
  destruct (Prisma.project_findFirst (db w) id) as [ex|]; [|discriminate].
  unfold bind at 1, refuse_color.
  destruct (upj_color v); [discriminate |]. unfold ret at 1.
  unfold bind at 1.
  destruct (Prisma.project_update id (apply_project_update v) w) as [[p|e] w1] eqn:E;
    [|discriminate].
  apply project_update_ok in E as [now E].
  unfold bind, getStore, ret. intros H; inversion H; subst.
  exists ex, now. auto.
Qed.

Lemma createTask_result (v : CreateTask) (w w' : World) (t : Task) :
  createTask v w = (Ok t, w') ->
  exists g,
    Prisma.goal_findFirst (db w) (c_goalId v) = Some g /\
    t = Prisma.new_task (cuid w (issued w)) (c_goalId v) (clock w (reads w))
          (Prisma.mkTaskData (c_name v) (or_default (c_completed v) false)
             (or_default (c_urgency v) MIDDEN) (or_default (c_todaysFocus v) false) None) /\
    db w' = set_tasks (tasks (db w) ++ [t]) (db w).
Proof.
  unfold createTask. unfold bind at 1, getStore at 1.
  destruct (Prisma.goal_findFirst (db w) (c_goalId v)) as [g|]; [|discriminate].
  intros H. apply task_create_ok in H as [Ht Hdb]. exists g. auto.
Qed.

Lemma createGoal_result (v : CreateGoal) (w w' : World) (g : Goal) :
  createGoal v w = (Ok g, w') ->
  exists p,
    Prisma.project_findFirst (db w) (cgl_projectId v) = Some p /\
    g = Prisma.new_goal (cuid w (issued w)) (cgl_projectId v) (clock w (reads w)) (cgl_name v) /\
    db w' = set_goals (goals (db w) ++ [g]) (db w).
Proof.
  unfold createGoal. unfold bind at 1, getStore at 1.
  destruct (Prisma.project_findFirst (db w) (cgl_projectId v)) as [p|]; [|discriminate].
  destruct w as [s clk rd gen iss b].
  unfold Prisma.goal_create, bind, write, getStore, newDate, reserveIds.
  destruct b as [[|n]|]; simpl; try discriminate;
    destruct (Prisma.project_findUnique s (cgl_projectId v)); simpl; try discriminate;
      intros H; inversion H; subst; simpl; exists p;
        rewrite app_nil_r; destruct s; auto.
Qed.

Lemma createProject_result (v : CreateProject) (w w' : World) (p : Project) :
  createProject v w = (Ok p, w') ->
  cpj_color v = None /\
  p = Prisma.new_project (cuid w (issued w)) (clock w (reads w)) (cpj_name v) /\
  db w' = set_projects (projects (db w) ++ [p]) (db w).
Proof.
  unfold createProject. unfold bind at 1, refuse_color.
  destruct (cpj_color v); [discriminate |]. unfold ret at 1.
  destruct w as [s clk rd gen iss b].
  unfold Prisma.project_create, bind, write, newDate, reserveIds.
  destruct b as [[|n]|]; simpl; try discriminate;
    intros H; inversion H; subst; simpl; rewrite !app_nil_r; destruct s; auto.
Qed.

(* ================================================================== *)
(** ** Soft-deleted rows are hidden, not removed *)
(* ================================================================== *)

Lemma find_live_gone {A : Type} (key : A -> Id) (del : A -> option Timestamp)
      (id : Id) (l : list A) :
  (forall a, In a l -> key a = id -> del a <> None) ->
  find (fun x => String.eqb (key x) id && is_null (del x)) l = None.
Proof.
  intros H. apply find_absent. intros a Ha.
  destruct (String.eqb (key a) id) eqn:K; simpl; [|reflexivity].
  apply String.eqb_eq in K. apply not_null_false. exact (H a Ha K).
Qed.

Lemma task_gone (id : Id) (w : World) :
  Prisma.task_findFirst (db w) id = None ->
  getTaskById id w = (Thrown (NotFoundError "Task" id), w) /\
  deleteTask id w = (Thrown (NotFoundError "Task" id), w) /\
  forall v, updateTask id v w = (Thrown (NotFoundError "Task" id), w).
Proof.
  intros H. unfold getTaskById, deleteTask, updateTask, bind, getStore.
  rewrite H. auto.
Qed.

Lemma goal_gone (id : Id) (w : World) :
  Prisma.goal_findFirst (db w) id = None ->
  getGoalById id w = (Thrown (NotFoundError "Goal" id), w) /\
  deleteGoal id w = (Thrown (NotFoundError "Goal" id), w) /\
  (forall v, updateGoal id v w = (Thrown (NotFoundError "Goal" id), w)) /\
  (forall v, c_goalId v = id -> createTask v w = (Thrown (NotFoundError "Goal" id), w)).
Proof.
  intros H. unfold getGoalById, deleteGoal, updateGoal, createTask, bind, getStore.
  rewrite H. repeat split. intros v ->. rewrite H. reflexivity.
Qed.

Lemma project_gone (id : Id) (w : World) :
  Prisma.project_findFirst (db w) id = None ->
  getProjectById id w = (Thrown (NotFoundError "Project" id), w) /\
  deleteProject id w = (Thrown (NotFoundError "Project" id), w) /\
  (forall v, updateProject id v w = (Thrown (NotFoundError "Project" id), w)) /\
  (forall v, cgl_projectId v = id ->
             createGoal v w = (Thrown (NotFoundError "Project" id), w)).
Proof.
  intros H. unfold getProjectById, deleteProject, updateProject, createGoal, bind, getStore.
  rewrite H. repeat split. intros v ->. rewrite H. reflexivity.
Qed.

(** X16.  A successful DELETE /api/tasks/:id removes no row.  It stamps
    [deletedAt] on the task, leaves every other row as it was, and from
    then on the id is unknown to GET, PUT and DELETE /api/tasks/:id
    (a second DELETE answers NotFound) and absent from every task
    listing. *)
Theorem deleted_task_is_hidden (id : Id) (w w' : World) (r : Id) :
  deleteTask id w = (Ok r, w') ->
  r = id /\
  rows_kept (db w) (db w') /\
  projects (db w') = projects (db w) /\
  goals (db w') = goals (db w) /\
  (forall t, In t (tasks (db w)) -> t_id t <> id -> In t (tasks (db w'))) /\
  (forall t, In t (tasks (db w')) -> t_id t = id -> t_deletedAt t <> None) /\
  getTaskById id w' = (Thrown (NotFoundError "Task" id), w') /\
  deleteTask id w' = (Thrown (NotFoundError "Task" id), w') /\
  (forall v, updateTask id v w' = (Thrown (NotFoundError "Task" id), w')) /\
  (forall q views w'',
      getAllTasks q w' = (Ok views, w'') ->
      Forall (fun v => t_id (tv_task v) <> id) views).
Proof.
  intros H. apply deleteTask_result in H as [-> [ex [d [now [_ Hdb]]]]].
  assert (Hdel : forall t, In t (tasks (db w')) -> t_id t = id -> t_deletedAt t <> None).
  { rewrite Hdb; simpl. intros t Ht E. apply in_map_iff in Ht as [t0 [<- _]].
    destruct (String.eqb (t_id t0) id) eqn:K; simpl in *; [discriminate |].
    apply String.eqb_neq in K. contradiction. }
  assert (Hgone : Prisma.task_findFirst (db w') id = None).
  { apply (@find_live_gone _ t_id t_deletedAt), Hdel. }
  destruct (task_gone id w' Hgone) as [G1 [G2 G3]].
  split; [reflexivity |]. split.
  { rewrite Hdb. unfold rows_kept; simpl. split; [reflexivity |]. split; [reflexivity |].
    rewrite map_map. apply map_ext. intros t. destruct (String.eqb (t_id t) id); reflexivity. }
  split; [rewrite Hdb; reflexivity |]. split; [rewrite Hdb; reflexivity |]. split.
  { intros t Ht Hne. rewrite Hdb; simpl. apply in_map_iff. exists t.
    apply String.eqb_neq in Hne. rewrite Hne. auto. }
  split; [exact Hdel |]. split; [exact G1 |]. split; [exact G2 |]. split; [exact G3 |].
  intros q views w'' Hq. unfold getAllTasks, bind, getStore, ret in Hq.
  inversion Hq; subst views w''. apply Forall_forall. intros v Hv.
  apply in_map_iff in Hv as [t [<- Ht]]. simpl.
  rewrite orderBy_In in Ht. apply filter_In in Ht as [Ht Hw]. intros E.
  apply (Hdel t Ht E). unfold task_query_where in Hw.
  rewrite !andb_true_iff in Hw. apply is_null_true. tauto.
Qed.

Lemma image_of_the_row {A : Type} (key : A -> Id) (F : A -> A) (l : list A) (a b' : A) :
  NoDup (map key l) ->
  (forall x, key (F x) = key x) ->
  In a l -> In b' (map F l) -> key b' = key a -> b' = F a.
Proof.
  intros Hnd HF Ha Hb E. apply in_map_iff in Hb as [b [<- Hb]].
  f_equal. apply (@unique_row _ key l b a Hnd Hb Ha). rewrite <- HF. exact E.
Qed.

(** X17.  A successful DELETE /api/goals/:id removes no row, and from then
    on the goal is unknown to GET, PUT and DELETE /api/goals/:id and to
    POST /api/tasks under it, no goal listing shows it, no task listing
    shows a task of it, and (ids being unique) each task it held is
    unknown to GET /api/tasks/:id. *)
Theorem deleted_goal_is_hidden (id : Id) (w w' : World) (r : Id) :
  deleteGoal id w = (Ok r, w') ->
  rows_kept (db w) (db w') /\
  getGoalById id w' = (Thrown (NotFoundError "Goal" id), w') /\
  deleteGoal id w' = (Thrown (NotFoundError "Goal" id), w') /\
  (forall v, updateGoal id v w' = (Thrown (NotFoundError "Goal" id), w')) /\
  (forall v, c_goalId v = id -> createTask v w' = (Thrown (NotFoundError "Goal" id), w')) /\
  (forall q views w'',
      getAllGoals q w' = (Ok views, w'') ->
      Forall (fun v => g_id (gn_goal (gws_node (gv_stats v))) <> id) views) /\
  (forall q views w'',
      getAllTasks q w' = (Ok views, w'') ->
      Forall (fun v => t_goalId (tv_task v) <> id) views) /\
  (NoDup (map t_id (tasks (db w))) ->
   forall t, In t (tasks (db w)) -> t_goalId t = id ->
             getTaskById (t_id t) w' = (Thrown (NotFoundError "Task" (t_id t)), w')).
Proof.
  intros H. apply deleteGoal_run in H.
  pose proof (cascaded_goal_rows_kept H) as Hkept.
  pose proof (cascaded_goal_deleted H) as [Hg Ht].
  assert (Hgone : Prisma.goal_findFirst (db w') id = None).
  { apply (@find_live_gone _ g_id g_deletedAt), Hg. }
  destruct (goal_gone id w' Hgone) as [G1 [G2 [G3 G4]]].
  split; [exact Hkept |]. split; [exact G1 |]. split; [exact G2 |].
  split; [exact G3 |]. split; [exact G4 |]. split; [|split].
  - intros q views w'' Hq. unfold getAllGoals, bind, getStore, ret in Hq.
    inversion Hq; subst views w''. apply Forall_forall. intros v Hv.
    apply in_map_iff in Hv as [g [<- Hin]]. simpl.
    rewrite orderBy_In in Hin. apply filter_In in Hin as [Hin Hw]. intros E.
    apply (Hg g Hin E). unfold goal_query_where in Hw.
    rewrite andb_true_iff in Hw. apply is_null_true. tauto.
  - intros q views w'' Hq. unfold getAllTasks, bind, getStore, ret in Hq.
    inversion Hq; subst views w''. apply Forall_forall. intros v Hv.
    apply in_map_iff in Hv as [t [<- Hin]]. simpl.
    rewrite orderBy_In in Hin. apply filter_In in Hin as [Hin Hw]. intros E.
    apply (Ht t Hin E). unfold task_query_where in Hw.
    rewrite !andb_true_iff in Hw. apply is_null_true. tauto.
  - intros Hnd t Hin Hgid. apply task_gone.
    apply (@find_live_gone _ t_id t_deletedAt). intros a' Ha' Hk.
    apply Ht; [exact Ha' |].
    destruct H as [d1 [d2 [n1 [n2 Hdb]]]].
    set (F := fun t => if String.eqb (t_goalId t) id && is_null (t_deletedAt t)
                       then Prisma.touch_task n1 (mark_task_deleted d1 t) else t) in Hdb.
    assert (HF : forall x, t_id (F x) = t_id x /\ t_goalId (F x) = t_goalId x).
    { intros x. unfold F.
      destruct (String.eqb (t_goalId x) id && is_null (t_deletedAt x)); auto. }
    rewrite Hdb in Ha'; simpl in Ha'.
    rewrite (@image_of_the_row _ t_id F (tasks (db w)) t a' Hnd
               (fun x => proj1 (HF x)) Hin Ha' Hk).
    rewrite (proj2 (HF t)). exact Hgid.
Qed.

(** X18.  A successful DELETE /api/projects/:id removes no row, and from
    then on the project is unknown to GET, PUT and DELETE
    /api/projects/:id and to POST /api/goals under it, GET /api/projects
    does not list it, no goal listing shows a goal of it, and (ids being
    unique) every goal it held and every task of those goals is unknown
    to the by-id reads. *)
Theorem deleted_project_is_hidden (id : Id) (w w' : World) :
  deleteProject id w = (Ok tt, w') ->
  rows_kept (db w) (db w') /\
  getProjectById id w' = (Thrown (NotFoundError "Project" id), w') /\
  deleteProject id w' = (Thrown (NotFoundError "Project" id), w') /\
  (forall v, updateProject id v w' = (Thrown (NotFoundError "Project" id), w')) /\
  (forall v, cgl_projectId v = id ->
             createGoal v w' = (Thrown (NotFoundError "Project" id), w')) /\
  (forall ps w'',
      getAllProjects w' = (Ok ps, w'') ->
      Forall (fun p => p_id (pws_project p) <> id) ps) /\
  (forall q views w'',
      getAllGoals q w' = (Ok views, w'') ->
      Forall (fun v => g_projectId (gn_goal (gws_node (gv_stats v))) <> id) views) /\
  (unique_keys (db w) ->
   forall g, In g (goals (db w)) -> g_projectId g = id ->
     getGoalById (g_id g) w' = (Thrown (NotFoundError "Goal" (g_id g)), w') /\
     forall t, In t (tasks (db w)) -> t_goalId t = g_id g ->
       getTaskById (t_id t) w' = (Thrown (NotFoundError "Task" (t_id t)), w')).
Proof.
  intros H. apply deleteProject_run in H.
  pose proof (cascaded_project_rows_kept H) as Hkept.
  pose proof (cascaded_project_deleted H) as [Hp [Hg Ht]].
  assert (Hgone : Prisma.project_findFirst (db w') id = None).
  { apply (@find_live_gone _ p_id p_deletedAt), Hp. }
  destruct (project_gone id w' Hgone) as [G1 [G2 [G3 G4]]].
  split; [exact Hkept |]. split; [exact G1 |]. split; [exact G2 |].
  split; [exact G3 |]. split; [exact G4 |]. split; [|split].
  - intros ps w'' Hq. unfold getAllProjects, bind, getStore, ret in Hq.
    inversion Hq; subst ps w''. apply Forall_forall. intros v Hv.
    apply in_map_iff in Hv as [n [<- Hn]]. unfold full_hierarchy in Hn.
    apply in_map_iff in Hn as [p [<- Hin]]. simpl.
    rewrite orderBy_In in Hin. apply filter_In in Hin as [Hin Hw]. intros E.
    apply (Hp p Hin E). apply is_null_true, Hw.
  - intros q views w'' Hq. unfold getAllGoals, bind, getStore, ret in Hq.
    inversion Hq; subst views w''. apply Forall_forall. intros v Hv.
    apply in_map_iff in Hv as [g [<- Hin]]. simpl.
    rewrite orderBy_In in Hin. apply filter_In in Hin as [Hin Hw]. intros E.
    apply (Hg g Hin E). unfold goal_query_where in Hw.
    rewrite andb_true_iff in Hw. apply is_null_true. tauto.
  - intros [_ [Ug Ut]] g Hin Hpid.
    destruct H as [d1 [d2 [d3 [n1 [n2 [n3 Hdb]]]]]].
    set (G := fun g => if String.eqb (g_projectId g) id && is_null (g_deletedAt g)
                       then Prisma.touch_goal n2 (mark_goal_deleted d2 g) else g) in Hdb.
    set (F := fun t => if task_in_project id (db w) t
                       then Prisma.touch_task n1 (mark_task_deleted d1 t) else t) in Hdb.
    assert (HG : forall x, g_id (G x) = g_id x /\ g_projectId (G x) = g_projectId x).
    { intros x. unfold G.
      destruct (String.eqb (g_projectId x) id && is_null (g_deletedAt x)); auto. }
    assert (HF : forall x, t_id (F x) = t_id x /\ t_goalId (F x) = t_goalId x).
    { intros x. unfold F. destruct (task_in_project id (db w) x); auto. }
    assert (Hin' : In (G g) (goals (db w'))).
    { rewrite Hdb; simpl. apply in_map, Hin. }
    split.
    + apply goal_gone. apply (@find_live_gone _ g_id g_deletedAt). intros a' Ha' Hk.
      apply Hg; [exact Ha' |]. rewrite Hdb in Ha'; simpl in Ha'.
      rewrite (@image_of_the_row _ g_id G (goals (db w)) g a' Ug
                 (fun x => proj1 (HG x)) Hin Ha' Hk).
      rewrite (proj2 (HG g)). exact Hpid.
    + intros t Htin Hgid. apply task_gone.
      apply (@find_live_gone _ t_id t_deletedAt). intros a' Ha' Hk.
      apply (Ht (G g) a' Hin' Ha').
      * rewrite (proj2 (HG g)). exact Hpid.
      * rewrite Hdb in Ha'; simpl in Ha'.
        rewrite (@image_of_the_row _ t_id F (tasks (db w)) t a' Ut
                   (fun x => proj1 (HF x)) Htin Ha' Hk).
        rewrite (proj2 (HF t)), (proj1 (HG g)). exact Hgid.
Qed.

(* ================================================================== *)
(** ** The completion stamp of the CRUD writes *)
(* ================================================================== *)

Lemma findFirst_is_the_row {A : Type} (key : A -> Id) (del : A -> option Timestamp)
      (id : Id) (l : list A) (a b : A) :
  NoDup (map key l) ->
  find (fun x => String.eqb (key x) id && is_null (del x)) l = Some a ->
  find (fun x => String.eqb (key x) id) l = Some b ->
  b = a.
Proof.
  intros Hnd Ha Hb. apply (@find_live_some _ key del) in Ha as [Ha [Hk _]].
  apply find_some in Hb as [Hb Hkb]. apply String.eqb_eq in Hkb.
  apply (@unique_row _ key l b a Hnd Hb Ha). congruence.
Qed.

(** X11.  What PUT /api/tasks/:id answers with.  The returned row is the
    stored, non-deleted task of that id with the same createdAt; its
    [completed] is the submitted flag, or the old one when none was
    sent; its [completedAt] is the time the request was served when the
    task went from open to completed, [null] when it went from
    completed to open, and the old value when the flag did not
    change. *)
Theorem updateTask_stamps_transitions
        (id : Id) (v : UpdateTask) (w w' : World) (t' : Task) :
  NoDup (map t_id (tasks (db w))) ->
  updateTask id v w = (Ok t', w') ->
  exists ex,
    Prisma.task_findFirst (db w) id = Some ex /\
    In t' (tasks (db w')) /\
    t_id t' = id /\ t_deletedAt t' = None /\ t_createdAt t' = t_createdAt ex /\
    t_completed t' = or_default (u_completed v) (t_completed ex) /\
    t_completedAt t' =
      (if negb (t_completed ex) && t_completed t' then Some (clock w (reads w))
       else if t_completed ex && negb (t_completed t') then None
            else t_completedAt ex).
Proof.
  intros Hnd H. apply updateTask_result in H as [ex [t0 [now H]]]. simpl in H.
  destruct H as [Hex [_ [_ [Hf [Ht Hdb]]]]].
  pose proof (@findFirst_is_the_row _ t_id t_deletedAt id _ ex t0 Hnd Hex Hf) as ->.
  apply (@find_live_some _ t_id t_deletedAt) in Hex as Hlive.
  destruct Hlive as [Hin [Hk Hd]].
  exists ex. split; [exact Hex |]. split.
  { rewrite Hdb; simpl. apply in_map_iff. exists ex.
    rewrite Hk, String.eqb_refl. auto. }
  subst t'. simpl. split; [exact Hk |]. split; [exact Hd |]. split; [reflexivity |].
  split; [reflexivity |].
  unfold completion_stamp.
  destruct (u_completed v) as [[|]|]; destruct (t_completed ex); reflexivity.
Qed.

(** X13.  POST /api/tasks never writes [completedAt].  The created task is
    not deleted, carries the defaults MIDDEN / false / false for the
    fields the request left out, and has [completedAt = null] even when
    it is created as completed: the completion invariant holds for the
    new row exactly when it was not created with [completed: true]. *)
Theorem createTask_never_stamps (v : CreateTask) (w w' : World) (t : Task) :
  createTask v w = (Ok t, w') ->
  t_goalId t = c_goalId v /\ t_name t = c_name v /\
  t_urgency t = or_default (c_urgency v) MIDDEN /\
  t_todaysFocus t = or_default (c_todaysFocus v) false /\
  t_completed t = or_default (c_completed v) false /\
  t_completedAt t = None /\ t_deletedAt t = None /\
  (completion_stamped t <-> c_completed v <> Some true).
Proof.
  intros H. apply createTask_result in H as [g [_ [-> _]]]. simpl.
  repeat (split; [reflexivity |]).
  unfold completion_stamped; simpl.
  destruct (c_completed v) as [[|]|]; simpl; split; try congruence; intuition congruence.
Qed.

(* ================================================================== *)
(** ** Referential soundness under the CRUD routes *)
(* ================================================================== *)

Lemma sound_tasks_map (s : Store) (sel : Task -> bool) (f : Task -> Task) :
  referentially_sound s ->
  (forall t, In t (tasks s) -> sel t = true -> t_deletedAt (f t) = None ->
             references_live_goal s (f t)) ->
  referentially_sound (set_tasks (map (fun t => if sel t then f t else t) (tasks s)) s).
Proof.
  intros [Hg Ht] Hf. split; simpl.
  - exact Hg.
  - intros t' Hin Hlive. apply in_map_iff in Hin as [t [<- Hin]].
    destruct (sel t) eqn:E.
    + destruct (Hf t Hin E Hlive) as [g H]. exists g. exact H.
    + destruct (Ht t Hin Hlive) as [g H]. exists g. exact H.
Qed.

Lemma sound_goals_map (s : Store) (sel : Goal -> bool) (f : Goal -> Goal) :
  referentially_sound s ->
  (forall g, g_id (f g) = g_id g /\ g_deletedAt (f g) = g_deletedAt g) ->
  (forall g, In g (goals s) -> sel g = true -> g_deletedAt g = None ->
             references_live_project s (f g)) ->
  referentially_sound (set_goals (map (fun g => if sel g then f g else g) (goals s)) s).
Proof.
  intros [Hg Ht] Hkeep Hf. split; simpl.
  - intros g' Hin Hlive. apply in_map_iff in Hin as [g [<- Hin]].
    destruct (sel g) eqn:E.
    + rewrite (proj2 (Hkeep g)) in Hlive. destruct (Hf g Hin E Hlive) as [p H].
      exists p. exact H.
    + destruct (Hg g Hin Hlive) as [p H]. exists p. exact H.
  - intros t Hin Hlive. destruct (Ht t Hin Hlive) as [g [Hgin [Hk Hd]]].
    exists (if sel g then f g else g). split; [apply in_map_iff; exists g; auto |].
    destruct (sel g); [|auto]. rewrite (proj1 (Hkeep g)), (proj2 (Hkeep g)). auto.
Qed.

Lemma sound_projects_map (s : Store) (sel : Project -> bool) (f : Project -> Project) :
  referentially_sound s ->
  (forall p, p_id (f p) = p_id p /\ p_deletedAt (f p) = p_deletedAt p) ->
  referentially_sound (set_projects (map (fun p => if sel p then f p else p) (projects s)) s).
Proof.
  intros [Hg Ht] Hkeep. split; simpl.
  - intros g Hin Hlive. destruct (Hg g Hin Hlive) as [p [Hpin [Hk Hd]]].
    exists (if sel p then f p else p). split; [apply in_map_iff; exists p; auto |].
    destruct (sel p); [|auto]. rewrite (proj1 (Hkeep p)), (proj2 (Hkeep p)). auto.
  - exact Ht.
Qed.

Lemma sound_new_project (s : Store) (p : Project) :
  referentially_sound s -> referentially_sound (set_projects (projects s ++ [p]) s).
Proof.
  intros [Hg Ht]. split; simpl; [|exact Ht].
  intros g Hin Hlive. destruct (Hg g Hin Hlive) as [q [Hq H]].
  exists q. split; [apply in_or_app; left; exact Hq | exact H].
Qed.

Lemma sound_new_goal (s : Store) (g : Goal) :
  referentially_sound s -> references_live_project s g ->
  referentially_sound (set_goals (goals s ++ [g]) s).
Proof.
  intros [Hg Ht] Hnew. split; simpl.
  - intros g' Hin Hlive. apply in_app_or in Hin as [Hin | [<- | []]].
    + destruct (Hg g' Hin Hlive) as [p H]. exists p. exact H.
    + destruct Hnew as [p H]. exists p. exact H.
  - intros t Hin Hlive. destruct (Ht t Hin Hlive) as [g' [Hin' H]].
    exists g'. split; [apply in_or_app; left; exact Hin' | exact H].
Qed.

Lemma sound_new_task (s : Store) (t : Task) :
  referentially_sound s -> references_live_goal s t ->
  referentially_sound (set_tasks (tasks s ++ [t]) s).
Proof.
  intros [Hg Ht] Hnew. split; simpl; [exact Hg |].
  intros t' Hin Hlive. apply in_app_or in Hin as [Hin | [<- | []]].
  - destruct (Ht t' Hin Hlive) as [g H]. exists g. exact H.
  - destruct Hnew as [g H]. exists g. exact H.
Qed.

Lemma sound_cascaded_goal (id : Id) (s s' : Store) :
  cascaded_goal id s s' -> referentially_sound s -> referentially_sound s'.
Proof.
  intros [d1 [d2 [n1 [n2 ->]]]] [Hg Ht]. split; simpl.
  - intros g' Hin Hlive. apply in_map_iff in Hin as [g [<- Hin]].
    destruct (String.eqb (g_id g) id); [discriminate |].
    destruct (Hg g Hin Hlive) as [p H]. exists p. exact H.
  - intros t' Hin Hlive. apply in_map_iff in Hin as [t [<- Hin]].
    destruct (String.eqb (t_goalId t) id && is_null (t_deletedAt t)) eqn:E;
      [discriminate |].
    destruct (Ht t Hin Hlive) as [g [Hgin [Hk Hd]]].
    rewrite Hlive, andb_true_r in E.
    exists g. simpl. split; [|auto]. apply in_map_iff. exists g.
    rewrite Hk, E. auto.
Qed.

Lemma sound_cascaded_project (id : Id) (s s' : Store) :
  cascaded_project id s s' -> referentially_sound s -> referentially_sound s'.
Proof.
  intros [d1 [d2 [d3 [n1 [n2 [n3 ->]]]]]] [Hg Ht]. split; simpl.
  - intros g' Hin Hlive. apply in_map_iff in Hin as [g [<- Hin]].
    destruct (String.eqb (g_projectId g) id && is_null (g_deletedAt g)) eqn:E;
      [discriminate |].
    destruct (Hg g Hin Hlive) as [p [Hpin [Hk Hd]]].
    rewrite Hlive, andb_true_r in E.
    exists p. simpl. split; [|auto]. apply in_map_iff. exists p.
    rewrite Hk, E. auto.
  - intros t' Hin Hlive. apply in_map_iff in Hin as [t [<- Hin]].
    destruct (task_in_project id s t) eqn:E; [discriminate |].
    destruct (Ht t Hin Hlive) as [g [Hgin [Hk Hd]]].
    unfold task_in_project in E. rewrite Hlive, andb_true_r in E.
    assert (Hpid : String.eqb (g_projectId g) id = false).
    { destruct (String.eqb (g_projectId g) id) eqn:K; [|reflexivity].
      rewrite <- E. symmetry. apply existsb_exists. exists g.
      rewrite Hk, String.eqb_refl, K. auto. }
    exists g. simpl. split; [|auto]. apply in_map_iff. exists g.
    rewrite Hpid. auto.
Qed.

Lemma live_goal_found (s : Store) (gid : Id) (t : Task) :
  Prisma.goal_findFirst s gid <> None -> t_goalId t = gid -> references_live_goal s t.
Proof.
  intros H E. destruct (Prisma.goal_findFirst s gid) as [g|] eqn:F; [|congruence].
  apply (@find_live_some _ g_id g_deletedAt) in F as [Hin [Hk Hd]].
  exists g. rewrite E. auto.
Qed.

Lemma live_project_found (s : Store) (pid : Id) (g : Goal) :
  Prisma.project_findFirst s pid <> None -> g_projectId g = pid ->
  references_live_project s g.
Proof.
  intros H E. destruct (Prisma.project_findFirst s pid) as [p|] eqn:F; [|congruence].
  apply (@find_live_some _ p_id p_deletedAt) in F as [Hin [Hk Hd]].
  exists p. rewrite E. auto.
Qed.

Lemma client_id_nonempty (i : Id) : i <> EmptyString -> client_id (Some i) = Some i.
Proof.
  intros H. simpl. destruct (String.eqb i EmptyString) eqn:E; [|reflexivity].
  apply String.eqb_eq in E. contradiction.
Qed.

Lemma sound_kept_by {A : Type} (m : M A) :
  failsafe m ->
  (forall w a w', m w = (Ok a, w') -> sound_kept (db w) (db w')) ->
  preserves sound_kept m.
Proof.
  intros Hf Hok w [a|e] w' H.
  - apply (Hok _ _ _ H).
  - intros Hs. rewrite (Hf _ _ _ H). exact Hs.
Qed.

Lemma sound_kept_createProject (v : CreateProject) : preserves sound_kept (createProject v).
Proof.
  apply sound_kept_by; [apply failsafe_createProject |].
  intros w p w' H Hs. apply createProject_result in H as [_ [_ ->]].
  apply sound_new_project, Hs.
Qed.

Lemma sound_kept_updateProject (id : Id) (v : UpdateProject) :
  preserves sound_kept (updateProject id v).
Proof.
  apply sound_kept_by; [apply failsafe_updateProject |].
  intros w n w' H Hs. apply updateProject_result in H as [ex [now [_ ->]]].
  apply sound_projects_map; [exact Hs |]. intros p. split; reflexivity.
Qed.

Lemma sound_kept_createGoal (v : CreateGoal) : preserves sound_kept (createGoal v).
Proof.
  apply sound_kept_by; [apply failsafe_createGoal |].
  intros w g w' H Hs. apply createGoal_result in H as [p [Hp [Hg ->]]].
  apply sound_new_goal; [exact Hs |].
  apply live_project_found with (pid := cgl_projectId v); [congruence | subst g; reflexivity].
Qed.

Lemma sound_kept_updateGoal (id : Id) (v : UpdateGoal) :
  ug_projectId v <> Some EmptyString -> preserves sound_kept (updateGoal id v).
Proof.
  intros Hv. apply sound_kept_by; [apply failsafe_updateGoal |].
  intros w g' w' H Hs. apply updateGoal_result in H as [ex [now [_ [Hp ->]]]].
  apply sound_goals_map; [exact Hs | intros g; split; reflexivity |].
  intros g Hin _ Hlive. destruct (ug_projectId v) as [pid|] eqn:E.
  - apply live_project_found with (pid := pid); [|simpl; rewrite E; reflexivity].
    apply Hp. apply client_id_nonempty. intros K. apply Hv. rewrite K. reflexivity.
  - destruct (proj1 Hs g Hin Hlive) as [p H]. exists p. simpl. rewrite E. exact H.
Qed.

Lemma sound_kept_createTask (v : CreateTask) : preserves sound_kept (createTask v).
Proof.
  apply sound_kept_by; [apply failsafe_createTask |].
  intros w t w' H Hs. apply createTask_result in H as [g [Hg [Ht ->]]].
  apply sound_new_task; [exact Hs |].
  apply live_goal_found with (gid := c_goalId v); [congruence | subst t; reflexivity].
Qed.

Lemma sound_kept_updateTask (id : Id) (v : UpdateTask) :
  u_goalId v <> Some EmptyString -> preserves sound_kept (updateTask id v).
Proof.
  intros Hv. apply sound_kept_by; [apply failsafe_updateTask |].
  intros w t' w' H Hs. apply updateTask_result in H as [ex [t0 [now H]]]. simpl in H.
  destruct H as [_ [Hg [_ [_ [_ ->]]]]].
  apply sound_tasks_map; [exact Hs |].
  intros t Hin _ Hlive. simpl in Hlive. destruct (u_goalId v) as [gid|] eqn:E.
  - apply live_goal_found with (gid := gid); [|simpl; rewrite E; reflexivity].
    apply Hg. apply client_id_nonempty. intros K. apply Hv. rewrite K. reflexivity.
  - destruct (proj2 Hs t Hin Hlive) as [g H]. exists g. simpl. rewrite E. exact H.
Qed.

Lemma sound_kept_deleteTask (id : Id) : preserves sound_kept (deleteTask id).
Proof.
  apply sound_kept_by; [apply failsafe_deleteTask |].
  intros w r w' H Hs. apply deleteTask_result in H as [_ [ex [d [now [_ ->]]]]].
  apply sound_tasks_map; [exact Hs |]. intros t _ _ Hlive. discriminate.
Qed.

Lemma sound_kept_deleteGoal (id : Id) : preserves sound_kept (deleteGoal id).
Proof.
  intros w out w' H Hs. apply deleteGoal_run in H. destruct out.
  - apply (sound_cascaded_goal H Hs).
  - rewrite H. exact Hs.
Qed.

Lemma sound_kept_deleteProject (id : Id) : preserves sound_kept (deleteProject id).
Proof.
  intros w out w' H Hs. apply deleteProject_run in H. destruct out.
  - apply (sound_cascaded_project H Hs).
  - rewrite H. exact Hs.
Qed.

(* ================================================================== *)
(** ** Routes and responses *)
(* ================================================================== *)

Lemma asyncHandler_run {A : Type} (fn : M A) (respond : A -> HttpResponse) (w : World) :
  exists out w',
    fn w = (out, w') /\
    asyncHandler fn respond w
    = (match out with Ok a => respond a | Thrown e => handleError e end, w').
Proof.
  unfold asyncHandler. destruct (fn w) as [[a|e] w']; do 2 eexists; split; reflexivity.
Qed.

Lemma asyncHandler_preserves {A : Type} (R : Store -> Store -> Prop)
      (fn : M A) (respond : A -> HttpResponse) (w : World) :
  preserves R fn -> R (db w) (db (snd (asyncHandler fn respond w))).
Proof.
  intros H. destruct (asyncHandler_run fn respond w) as [out [w' [E ->]]].
  apply (H _ _ _ E).
Qed.

Lemma handleError_status (e : Failure) :
  (400 <= status (handleError e))%nat /\ success (handleError e) = Some false.
Proof. destruct e; simpl; split; try reflexivity; lia. Qed.

Lemma asyncHandler_failsafe {A : Type} (fn : M A) (respond : A -> HttpResponse) (w : World) :
  failsafe fn ->
  (forall a, (status (respond a) < 400)%nat) ->
  (400 <= status (fst (asyncHandler fn respond w)))%nat ->
  db (snd (asyncHandler fn respond w)) = db w.
Proof.
  intros Hf Hr. destruct (asyncHandler_run fn respond w) as [[a|e] [w' [E ->]]]; simpl.
  - intros H. specialize (Hr a). lia.
  - intros _. apply (Hf _ _ _ E).
Qed.

Lemma asyncHandler_read {A : Type} (fn : M A) (respond : A -> HttpResponse) (w : World) :
  (forall out w', fn w = (out, w') -> w' = w) ->
  snd (asyncHandler fn respond w) = w.
Proof.
  intros H. destruct (asyncHandler_run fn respond w) as [out [w' [E ->]]].
  apply (H _ _ E).
Qed.

Lemma failsafe_deleteGoal (id : Id) : failsafe (deleteGoal id).
Proof. intros w e w' H. apply deleteGoal_run in H. exact H. Qed.

Lemma failsafe_deleteProject (id : Id) : failsafe (deleteProject id).
Proof. intros w e w' H. apply deleteProject_run in H. exact H. Qed.

Lemma reads_leave_world (q : Request) (w : World) :
  reads_only q = true -> snd (serve q w) = w.
Proof.
  intros Hr. destruct q; try (simpl in Hr; discriminate); unfold serve;
    apply asyncHandler_read; intros out w'.
  - unfold getAllProjects, bind, getStore, ret. congruence.
  - unfold getProjectById, bind, getStore.
    destruct (Prisma.project_findFirst (db w) id); unfold ret, throw; congruence.
  - unfold getAllGoals, bind, getStore, ret. congruence.
  - unfold getGoalById, bind, getStore.
    destruct (Prisma.goal_findFirst (db w) id); unfold ret, throw; congruence.
  - unfold getAllTasks, bind, getStore, ret. congruence.
  - unfold getTodaysTasks, bind, getStore, ret. congruence.
  - unfold getTaskById, bind, getStore.
    destruct (Prisma.task_findFirst (db w) id); unfold ret, throw; congruence.
Qed.

(** X19.  Every route except POST /api/sync is all-or-nothing: when the
    response is an error (status 400 or above) the store is exactly the
    one the request found. *)
Theorem failed_requests_write_nothing (q : Request) (w : World) :
  is_sync q = false ->
  (400 <= status (fst (serve q w)))%nat ->
  db (snd (serve q w)) = db w.
Proof.
  intros Hq.
  destruct (reads_only q) eqn:Hr.
  { intros _. rewrite (reads_leave_world q w Hr). reflexivity. }
  destruct q; simpl in *; try discriminate;
    apply asyncHandler_failsafe;
    try (intros a; unfold createdResponse, successResponse, noContentResponse; simpl; lia).
  - apply failsafe_createProject.
  - apply failsafe_updateProject.
  - apply failsafe_deleteProject.
  - apply failsafe_createGoal.
  - apply failsafe_updateGoal.
  - apply failsafe_deleteGoal.
  - apply failsafe_createTask.
  - apply failsafe_updateTask.
  - apply failsafe_deleteTask.
Qed.

(** X20.  Every route except POST /api/sync keeps the store referentially
    sound, whether it succeeds or fails: if beforehand every
    non-deleted goal hangs under a non-deleted project and every
    non-deleted task under a non-deleted goal, the same holds
    afterwards.  (Parent ids sent with a PUT are cuid strings, hence
    not empty.) *)
Theorem crud_routes_keep_references_live (q : Request) (w : World) :
  is_sync q = false ->
  parent_id_parsed q ->
  referentially_sound (db w) ->
  referentially_sound (db (snd (serve q w))).
Proof.
  intros Hq Hparsed.
  destruct (reads_only q) eqn:Hr.
  { rewrite (reads_leave_world q w Hr). auto. }
  destruct q; simpl in *; try discriminate;
    apply (@asyncHandler_preserves _ sound_kept).
  - apply sound_kept_createProject.
  - apply sound_kept_updateProject.
  - apply sound_kept_deleteProject.
  - apply sound_kept_createGoal.
  - apply sound_kept_updateGoal, Hparsed.
  - apply sound_kept_deleteGoal.
  - apply sound_kept_createTask.
  - apply sound_kept_updateTask, Hparsed.
  - apply sound_kept_deleteTask.
Qed.

(** X21.  A by-id route (GET, PUT or DELETE of a project, goal or task)
    whose id names no non-deleted row answers 404 with
    [success: false] and leaves the world untouched: nothing is
    written and the clock is not read. *)
Theorem unknown_id_answers_404 (q : Request) (w : World) :
  addresses_no_live_row (db w) q ->
  serve q w = (mkHttpResponse 404 (Some false), w).
Proof.
  destruct q; simpl; try contradiction; intros H; unfold asyncHandler.
  - rewrite (proj1 (project_gone id w H)). reflexivity.
  - rewrite (proj1 (proj2 (proj2 (project_gone id w H))) v). reflexivity.
  - rewrite (proj1 (proj2 (project_gone id w H))). reflexivity.
  - rewrite (proj1 (goal_gone id w H)). reflexivity.
  - rewrite (proj1 (proj2 (proj2 (goal_gone id w H))) v). reflexivity.
  - rewrite (proj1 (proj2 (goal_gone id w H))). reflexivity.
  - rewrite (proj1 (task_gone id w H)). reflexivity.
  - rewrite (proj2 (proj2 (task_gone id w H)) v). reflexivity.
  - rewrite (proj1 (proj2 (task_gone id w H))). reflexivity.
Qed.

(** X22.  The GET routes are safe: they leave the world as it is (store,
    clock and id generator), the list routes always answer 200, and a
    by-id read answers 200 or 404. *)
Theorem get_routes_are_safe (q : Request) (w : World) :
  reads_only q = true ->
  snd (serve q w) = w /\
  success (fst (serve q w)) = Some (Nat.eqb (status (fst (serve q w))) 200) /\
  (status (fst (serve q w)) = 200%nat \/
   status (fst (serve q w)) = 404%nat /\ addresses_no_live_row (db w) q).
Proof.
  intros Hr. split; [apply reads_leave_world, Hr |].
  destruct q; simpl in *; try discriminate; unfold asyncHandler.
  - split; [reflexivity | left; reflexivity].
  - unfold getProjectById, bind, getStore.
    destruct (Prisma.project_findFirst (db w) id); simpl; auto.
  - split; [reflexivity | left; reflexivity].
  - unfold getGoalById, bind, getStore.
    destruct (Prisma.goal_findFirst (db w) id); simpl; auto.
  - split; [reflexivity | left; reflexivity].
  - split; [reflexivity | left; reflexivity].
  - unfold getTaskById, bind, getStore.
    destruct (Prisma.task_findFirst (db w) id); simpl; auto.
Qed.

(* ================================================================== *)
(** ** Listings agree with one another *)
(* ================================================================== *)

(** X10.  GET /api/tasks/today and GET /api/tasks?todaysFocus=true list
    the same tasks, each with the same goal and project attached; only
    the order may differ. *)
Theorem todays_tasks_match_filtered_listing (w : World) :
  exists today filtered,
    getTodaysTasks w = (Ok today, w) /\
    getAllTasks (mkTaskQuery None None (Some true) None) w = (Ok filtered, w) /\
    Permutation today filtered.
Proof.
  do 2 eexists. split; [reflexivity |]. split; [reflexivity |].
  apply Permutation_map.
  rewrite (@filter_ext _ (task_query_where (mkTaskQuery None None (Some true) None))
             (fun t => is_null (t_deletedAt t) && Bool.eqb (t_todaysFocus t) true)).
  - eapply Permutation_trans; [apply Permutation_sym, orderBy_perm | apply orderBy_perm].
  - intros t. unfold task_query_where; simpl. rewrite !andb_true_r. reflexivity.
Qed.




(* ================================================================== *)
(** ** The properties above at concrete requests *)
(* ================================================================== *)

Lemma small_store_sound : referentially_sound Demo.small_store.
Proof.
  split; simpl.
  - intros g [<- | []] _. exists Demo.project_P. simpl. auto.
  - intros t [<- | []] _. exists Demo.goal_G. simpl. auto.
Qed.

Lemma sync_only_adds_and_rewrites_witness :
  let w := Demo.world Demo.small_store Demo.ticking (Some 1%nat) in
  let r := syncData [Demo.client_P; Demo.fresh_P; Demo.fresh_P] None w in
  grown (db w) (db (snd r)).
Proof.
  intros w r.
  exact (proj1 (@sync_only_adds_and_rewrites
                  [Demo.client_P; Demo.fresh_P; Demo.fresh_P] None w (snd r) (fst r)
                  (surjective_pairing r))).
Defined.

Lemma sync_succeeds_and_counts_rows_witness :
  let w := Demo.world Demo.small_store Demo.ticking None in
  exists resp w',
    syncData [Demo.fresh_P; Demo.client_P] None w = (Ok resp, w') /\
    List.length (goals (db w')) = (1 + n_goals (created (syncResults resp)))%nat /\
    conflicts (syncResults resp) = [].
Proof.
  intros w.
  destruct (@sync_succeeds_and_counts_rows [Demo.fresh_P; Demo.client_P] None w eq_refl)
    as [resp [w' [H [_ [Hg [_ Hc]]]]]].
  exists resp, w'. split; [exact H |]. split; [exact Hg | exact Hc].
Defined.

Lemma goal_stats_count_live_tasks_witness :
  let w := Demo.world Demo.small_store Demo.ticking None in
  exists v,
    getGoalById "g1" w = (Ok v, w) /\ stats_exact (db w) (gv_stats v).
Proof.
  intros w. eexists. split; [reflexivity |].
  apply (proj1 (proj2 (@goal_stats_count_live_tasks w)) "g1"%string _ w). reflexivity.
Defined.

Lemma sync_state_is_what_reads_return_witness :
  let w := Demo.world Demo.small_store Demo.ticking None in
  exists resp w',
    syncData [Demo.client_P] None w = (Ok resp, w') /\
    getAllProjects w' = (Ok (map project_with_stats (serverState resp)), w').
Proof.
  intros w. do 2 eexists. split; [vm_compute; reflexivity |].
  refine (proj1 (@sync_state_is_what_reads_return [Demo.client_P] None w _ _ _)).
  vm_compute; reflexivity.
Defined.

Lemma failed_requests_write_nothing_witness :
  let w := Demo.world Demo.small_store Demo.ticking (Some 0%nat) in
  let q := PutTask "t1" (mkUpdateTask (Some "T2"%string) None None (Some true) None) in
  status (fst (serve q w)) = 500%nat /\ db (snd (serve q w)) = Demo.small_store.
Proof.
  intros w q. split; [reflexivity |].
  apply (@failed_requests_write_nothing q w); [reflexivity |].
  apply Nat.leb_le. reflexivity.
Defined.

Lemma crud_routes_keep_references_live_witness :
  let w := Demo.world Demo.small_store Demo.ticking None in
  referentially_sound (db (snd (serve (DeleteGoal "g1") w))).
Proof.
  intros w.
  apply (@crud_routes_keep_references_live (DeleteGoal "g1") w);
    [reflexivity | exact I | exact small_store_sound].
Defined.

Lemma unknown_id_answers_404_witness :
  let w := Demo.world Demo.deleted_store Demo.ticking None in
  serve (PutGoal "g1" (mkUpdateGoal (Some "G2"%string) None)) w
  = (mkHttpResponse 404 (Some false), w).
Proof.
  intros w.
  apply (@unknown_id_answers_404 (PutGoal "g1" (mkUpdateGoal (Some "G2"%string) None)) w).
  reflexivity.
Defined.

Lemma get_routes_are_safe_witness :
  let w := Demo.world Demo.small_store Demo.ticking None in
  snd (serve (GetTask "t1") w) = w.
Proof.
  intros w. exact (proj1 (@get_routes_are_safe (GetTask "t1") w eq_refl)).
Defined.

Lemma deleted_task_is_hidden_witness :
  let w := Demo.world Demo.small_store Demo.ticking None in
  exists w',
    deleteTask "t1" w = (Ok "t1"%string, w') /\
    deleteTask "t1" w' = (Thrown (NotFoundError "Task" "t1"), w').
Proof.
  intros w. eexists. split; [vm_compute; reflexivity |].
  refine (proj1 (proj2 (proj2 (proj2 (proj2 (proj2 (proj2 (proj2
            (@deleted_task_is_hidden "t1" w _ "t1" _)))))))));
    vm_compute; reflexivity.
Defined.

Lemma deleted_goal_is_hidden_witness :
  let w := Demo.world Demo.small_store Demo.ticking None in
  exists w',
    deleteGoal "g1" w = (Ok "g1"%string, w') /\
    getTaskById "t1" w' = (Thrown (NotFoundError "Task" "t1"), w').
Proof.
  intros w. eexists. split; [vm_compute; reflexivity |].
  refine (proj2 (proj2 (proj2 (proj2 (proj2 (proj2 (proj2
            (@deleted_goal_is_hidden "g1" w _ "g1" _)))))))
            _ Demo.task_T _ _).
  - vm_compute; reflexivity.
  - simpl. repeat constructor. simpl. tauto.
  - left; reflexivity.
  - reflexivity.
Defined.

Lemma deleted_project_is_hidden_witness :
  let w := Demo.world Demo.small_store Demo.ticking None in
  exists w',
    deleteProject "p1" w = (Ok tt, w') /\
    getGoalById "g1" w' = (Thrown (NotFoundError "Goal" "g1"), w') /\
    getTaskById "t1" w' = (Thrown (NotFoundError "Task" "t1"), w').
Proof.
  intros w.
  assert (Hrun : exists w', deleteProject "p1" w = (Ok tt, w')).
  { eexists. vm_compute; reflexivity. }
  destruct Hrun as [w' Hrun]. exists w'. split; [exact Hrun |].
  destruct (@deleted_project_is_hidden "p1" w w' Hrun) as [_ [_ [_ [_ [_ [_ [_ H]]]]]]].
  assert (Hkeys : unique_keys (db w)).
  { unfold unique_keys; simpl. repeat split; repeat constructor; simpl; tauto. }
  destruct (H Hkeys Demo.goal_G (or_introl eq_refl) eq_refl) as [Hg Ht].
  split; [exact Hg |]. apply (Ht Demo.task_T); [left; reflexivity | reflexivity].
Defined.

Lemma updateTask_stamps_transitions_witness :
  let w := Demo.world Demo.small_store Demo.ticking None in
  exists t' w',
    updateTask "t1" (mkUpdateTask None None None (Some true) None) w = (Ok t', w') /\
    t_completed t' = true /\ t_completedAt t' = Some 1000.
Proof.
  intros w.
  assert (Hrun : exists t' w',
             updateTask "t1" (mkUpdateTask None None None (Some true) None) w = (Ok t', w')).
  { do 2 eexists. vm_compute; reflexivity. }
  destruct Hrun as [t' [w' Hrun]]. exists t', w'. split; [exact Hrun |].
  assert (Hnd : NoDup (map t_id (tasks (db w)))).
  { simpl. repeat constructor. simpl. tauto. }
  destruct (@updateTask_stamps_transitions _ _ w w' t' Hnd Hrun)
    as [ex [Hex [_ [_ [_ [_ [Hc Hs]]]]]]].
  vm_compute in Hex. inversion Hex; subst ex. split; [exact Hc |].
  rewrite Hs, Hc. reflexivity.
Defined.

Lemma createTask_never_stamps_witness :
  let w := Demo.world Demo.small_store Demo.ticking None in
  exists t w',
    createTask (mkCreateTask "g1" "Done" None None (Some true)) w = (Ok t, w') /\
    t_completed t = true /\ t_completedAt t = None /\ ~ completion_stamped t.
Proof.
  intros w.
  assert (Hrun : exists t w',
             createTask (mkCreateTask "g1" "Done" None None (Some true)) w = (Ok t, w')).
  { do 2 eexists. vm_compute; reflexivity. }
  destruct Hrun as [t [w' Hrun]]. exists t, w'. split; [exact Hrun |].
  destruct (@createTask_never_stamps _ w w' t Hrun) as [_ [_ [_ [_ [Hc [Hs [_ Hinv]]]]]]].
  split; [exact Hc |]. split; [exact Hs |]. intros K. apply Hinv in K. apply K. reflexivity.
Defined.

Lemma updateTask_keeps_completion_stamp_witness :
  let w := Demo.world Demo.small_store Demo.ticking None in
  exists t' w',
    updateTask "t1" (mkUpdateTask None None None (Some true) None) w = (Ok t', w') /\
    Forall completion_stamped (tasks (db w')).
Proof.
  intros w.
  assert (Hrun : exists t' w',
             updateTask "t1" (mkUpdateTask None None None (Some true) None) w = (Ok t', w')).
  { do 2 eexists. vm_compute; reflexivity. }
  destruct Hrun as [t' [w' Hrun]]. exists t', w'. split; [exact Hrun |].
  refine (@updateTask_keeps_completion_stamp _ _ w w' t' _ _ Hrun).
  - simpl. repeat constructor. simpl. tauto.
  - simpl. constructor; [|constructor]. unfold completion_stamped; simpl. split; congruence.
Defined.

Lemma createGoal_references_live_project_witness :
  let w := Demo.world Demo.small_store Demo.ticking None in
  exists g w',
    createGoal (mkCreateGoal "p1" "G2") w = (Ok g, w') /\
    references_live_project (db w') g.
Proof.
  intros w.
  assert (Hrun : exists g w', createGoal (mkCreateGoal "p1" "G2") w = (Ok g, w')).
  { do 2 eexists. vm_compute; reflexivity. }
  destruct Hrun as [g [w' Hrun]]. exists g, w'. split; [exact Hrun |].
  exact (proj2 (proj2 (@createGoal_references_live_project _ w w' g Hrun))).
Defined.

Lemma createTask_references_live_goal_witness :
  let w := Demo.world Demo.small_store Demo.ticking None in
  exists t w',
    createTask (mkCreateTask "g1" "T2" None None None) w = (Ok t, w') /\
    references_live_goal (db w') t.
Proof.
  intros w.
  assert (Hrun : exists t w',
             createTask (mkCreateTask "g1" "T2" None None None) w = (Ok t, w')).
  { do 2 eexists. vm_compute; reflexivity. }
  destruct Hrun as [t [w' Hrun]]. exists t, w'. split; [exact Hrun |].
  exact (proj2 (proj2 (@createTask_references_live_goal _ w w' t Hrun))).
Defined.

(* ================================================================== *)
(** ** A sync request as a whole *)
(* ================================================================== *)


(* ================================================================== *)
(** ** One client project within a whole request *)
(* ================================================================== *)

Lemma syncData_from (cps : list ClientProject) (l : option Timestamp) (w : World) :
  syncData cps l w = sync_from no_results cps w.
Proof. reflexivity. Qed.

Lemma sync_from_app (before rest : list ClientProject) (r r1 : SyncResults) (w w1 : World) :
  foldM syncProject r before w = (Ok r1, w1) ->
  sync_from r (before ++ rest) w = sync_from r1 rest w1.
Proof.
  intros H. unfold sync_from, bind. rewrite foldM_app, H. reflexivity.
Qed.

Lemma sync_from_cons (cp : ClientProject) (rest : list ClientProject)
      (r r2 : SyncResults) (w w2 : World) :
  syncProject r cp w = (Ok r2, w2) ->
  sync_from r (cp :: rest) w = sync_from r2 rest w2.
Proof.
  intros H. unfold sync_from; simpl. unfold bind. rewrite H. reflexivity.
Qed.

Lemma sync_from_nil (r : SyncResults) (w : World) :
  sync_from r [] w
  = (Ok (mkSyncResponse r (full_hierarchy (db w)) (clock w (reads w))),
     mkWorld (db w) (clock w) (S (reads w)) (cuid w) (issued w) (budget w)).
Proof. reflexivity. Qed.

Lemma sync_from_grown (r : SyncResults) (rest : list ClientProject) :
  preserves grown (sync_from r rest).
Proof.
  unfold sync_from. grown_step.
  - apply (@preserves_foldM grown grown_refl grown_trans). intros a x _. apply grown_syncProject.
  - intros r'. grown_step; [grown_step |]. intros s1.
    grown_step; [grown_step |]. intros now. grown_step.
Qed.

(** C4.  When the loop of POST /api/sync reaches a client project
    without an id (absent or empty) and the database accepts the
    write, exactly one project row is appended and, under it, one goal
    row per nested client goal and one task row per nested client task
    carrying the client's fields, whatever ids the nested entities
    carry; [created.projects] grows by 1, [created.goals] by the number
    of nested goals, [created.tasks] by the total number of nested
    tasks, and no other counter moves.  The request goes on from that
    store with those counters, and whatever it does next the new rows
    stay in place with their ids, parents and creation stamps, not
    deleted. *)
Theorem sync_creates_subtree_without_id
        (before after : list ClientProject) (cp : ClientProject) (l : option Timestamp)
        (w w1 : World) (r1 : SyncResults) :
  client_id (cp_id cp) = None ->
  foldM syncProject no_results before w = (Ok r1, w1) ->
  budget w1 <> Some O ->
  exists p gs ts r2 w2,
    db w2 = mkStore (projects (db w1) ++ [p]) (goals (db w1) ++ gs) (tasks (db w1) ++ ts) /\
    p_name p = cp_name cp /\ p_deletedAt p = None /\
    goals_reflect (p_id p) (cp_goals cp) gs ts /\
    List.length gs = List.length (cp_goals cp) /\
    List.length ts = List.length (flat_map cg_tasks (cp_goals cp)) /\
    n_projects (created r2) = (n_projects (created r1) + 1)%nat /\
    n_goals (created r2) = (n_goals (created r1) + List.length (cp_goals cp))%nat /\
    n_tasks (created r2)
    = (n_tasks (created r1) + List.length (flat_map cg_tasks (cp_goals cp)))%nat /\
    updated r2 = updated r1 /\
    conflicts r2 = conflicts r1 /\
    syncData (before ++ cp :: after) l w = sync_from r2 after w2 /\
    (forall out w',
        syncData (before ++ cp :: after) l w = (out, w') -> grown (db w2) (db w')).
Proof.
  intros Hid Hrun Hb.
  destruct (@syncProject_creates_subtree r1 cp w1 Hid Hb)
    as [p [gs [ts [w2 [Hstep [Hp [Hg [Ht [Hn [Hd [Hr [Lg Lt]]]]]]]]]]]].
  set (r2 := add_created 1 (List.length (cp_goals cp))
                         (List.length (flat_map cg_tasks (cp_goals cp))) r1) in *.
  assert (Hgo : syncData (before ++ cp :: after) l w = sync_from r2 after w2).
  { rewrite syncData_from, (@sync_from_app before (cp :: after) no_results r1 w w1 Hrun).
    apply sync_from_cons, Hstep. }
  exists p, gs, ts, r2, w2.
  split; [destruct (db w2); simpl in *; congruence |].
  split; [exact Hn |]. split; [exact Hd |]. split; [exact Hr |].
  split; [exact Lg |]. split; [exact Lt |].
  split; [reflexivity |]. split; [reflexivity |]. split; [reflexivity |].
  split; [reflexivity |]. split; [reflexivity |].
  split; [exact Hgo |].
  intros out w' H. rewrite Hgo in H. exact (@sync_from_grown r2 after w2 out w' H).
Qed.


(* ================================================================== *)
(** ** The goal loop under a project that was found *)
(* ================================================================== *)

Lemma projects_kept_refl (s : Store) : projects_kept s s.
Proof. reflexivity. Qed.

Lemma projects_kept_trans (s1 s2 s3 : Store) :
  projects_kept s1 s2 -> projects_kept s2 s3 -> projects_kept s1 s3.
Proof. unfold projects_kept. congruence. Qed.

Lemma goal_frames_kept_refl (s : Store) : goal_frames_kept s s.
Proof. reflexivity. Qed.

Lemma goal_frames_kept_trans (s1 s2 s3 : Store) :
  goal_frames_kept s1 s2 -> goal_frames_kept s2 s3 -> goal_frames_kept s1 s3.
Proof. unfold goal_frames_kept. congruence. Qed.

Lemma task_update_keeps (id : Id) (f : Task -> Task) :
  preserves projects_kept (Prisma.task_update id f) /\
  preserves goal_frames_kept (Prisma.task_update id f).
Proof.
  split; intros w [t|e] w' H.
  - apply task_update_ok in H as [now ->]. reflexivity.
  - apply thrown_unchanged_task_update in H. rewrite H. reflexivity.
  - apply task_update_ok in H as [now ->]. reflexivity.
  - apply thrown_unchanged_task_update in H. rewrite H. reflexivity.
Qed.

Lemma task_create_keeps (gid : Id) (d : Prisma.TaskData) :
  preserves projects_kept (Prisma.task_create gid d) /\
  preserves goal_frames_kept (Prisma.task_create gid d).
Proof.
  split; intros w [t|e] w' H.
  - apply task_create_ok in H as [_ ->]. reflexivity.
  - apply thrown_unchanged_task_create in H. rewrite H. reflexivity.
  - apply task_create_ok in H as [_ ->]. reflexivity.
  - apply thrown_unchanged_task_create in H. rewrite H. reflexivity.
Qed.

Lemma goal_update_keeps (id : Id) (f : Goal -> Goal) :
  (forall g, goal_frame (f g) = goal_frame g) ->
  preserves projects_kept (Prisma.goal_update id f) /\
  preserves goal_frames_kept (Prisma.goal_update id f).
Proof.
  intros Hf. split; intros w [g|e] w' H.
  - apply goal_update_ok in H as [now ->]. reflexivity.
  - apply thrown_unchanged_goal_update in H. rewrite H. reflexivity.
  - apply goal_update_ok in H as [now ->]. unfold goal_frames_kept; simpl.
    apply map_frame_update. intros g0. rewrite <- (Hf g0). reflexivity.
  - apply thrown_unchanged_goal_update in H. rewrite H. reflexivity.
Qed.

Lemma goal_create_keeps_projects (pid : Id) (name : string) (ds : list Prisma.TaskData) :
  preserves projects_kept (Prisma.goal_create pid name ds).
Proof.
  intros w [g|e] w' H.
  - apply goal_create_ok in H as [ts [_ ->]]. reflexivity.
  - apply thrown_unchanged_goal_create in H. rewrite H. reflexivity.
Qed.

Lemma syncTask_keeps (gid : Id) (sg : GoalNode) (r : SyncResults) (ct : ClientTask) :
  preserves projects_kept (syncTask gid sg r ct) /\
  preserves goal_frames_kept (syncTask gid sg r ct).
Proof.
  unfold syncTask. destruct (client_id (ct_id ct)) as [tid|].
  - destruct (find (fun t => String.eqb (t_id t) tid) (gn_tasks sg)).
    + split.
      * apply (@preserves_bind _ projects_kept_trans); [apply task_update_keeps |].
        intros _. apply (@preserves_ret _ projects_kept_refl).
      * apply (@preserves_bind _ goal_frames_kept_trans); [apply task_update_keeps |].
        intros _. apply (@preserves_ret _ goal_frames_kept_refl).
    + split; [apply (@preserves_ret _ projects_kept_refl)
             | apply (@preserves_ret _ goal_frames_kept_refl)].
  - split.
    + apply (@preserves_bind _ projects_kept_trans); [apply task_create_keeps |].
      intros _. apply (@preserves_ret _ projects_kept_refl).
    + apply (@preserves_bind _ goal_frames_kept_trans); [apply task_create_keeps |].
      intros _. apply (@preserves_ret _ goal_frames_kept_refl).
Qed.

Lemma counters_kept_refl (r : SyncResults) : counters_kept r r.
Proof. unfold counters_kept. repeat split; lia. Qed.

Lemma counters_kept_trans (r1 r2 r3 : SyncResults) :
  counters_kept r1 r2 -> counters_kept r2 r3 -> counters_kept r1 r3.
Proof. unfold counters_kept. intros [A [B [C D]]] [E [F [G H]]]. repeat split; lia. Qed.

Lemma syncTask_counters (gid : Id) (sg : GoalNode) (r r' : SyncResults) (ct : ClientTask)
      (w w' : World) :
  syncTask gid sg r ct w = (Ok r', w') -> counters_kept r r'.
Proof.
  unfold syncTask. destruct (client_id (ct_id ct)) as [tid|].
  - destruct (find (fun t => String.eqb (t_id t) tid) (gn_tasks sg)) as [t0|].
    + unfold bind, ret. destruct (Prisma.task_update _ _ w) as [[t|e] w1]; [|discriminate].
      intros H; inversion H; subst. unfold counters_kept; simpl. repeat split; lia.
    + unfold ret. intros H; inversion H; subst. apply counters_kept_refl.
  - unfold bind, ret. destruct (Prisma.task_create _ _ w) as [[t|e] w1]; [|discriminate].
    intros H; inversion H; subst. unfold counters_kept; simpl. repeat split; lia.
Qed.

Lemma foldM_counters {B : Type} (f : SyncResults -> B -> M SyncResults) (l : list B) :
  (forall r x w r' w', f r x w = (Ok r', w') -> counters_kept r r') ->
  forall r w r' w', foldM f r l w = (Ok r', w') -> counters_kept r r'.
Proof.
  intros Hf. induction l as [|x l IH]; intros r w r' w'; simpl.
  - unfold ret. intros H; inversion H; subst. apply counters_kept_refl.
  - unfold bind. destruct (f r x w) as [[r1|e] w1] eqn:E; [|discriminate].
    intros H. eapply counters_kept_trans; [apply (Hf _ _ _ _ _ E) | apply (IH _ _ _ _ H)].
Qed.

Lemma goals_appended_zero (pid : Id) (s s' : Store) :
  goal_frames_kept s s' -> goals_appended pid 0 s s'.
Proof.
  intros H. exists (goals s'), []. rewrite app_nil_r.
  split; [reflexivity |]. split; [exact H |]. split; [reflexivity | constructor].
Qed.

Lemma same_frame_same_place (pid : Id) (l l' : list Goal) :
  map goal_frame l' = map goal_frame l ->
  Forall (fun g => g_projectId g = pid /\ g_deletedAt g = None) l ->
  Forall (fun g => g_projectId g = pid /\ g_deletedAt g = None) l'.
Proof.
  revert l'. induction l as [|g l IH]; intros [|g' l'] E H; simpl in E;
    try discriminate; constructor.
  - inversion E as [[E1 E2 E3 E4]]. apply Forall_inv in H. rewrite E2, E4. exact H.
  - inversion E. apply IH; [assumption | apply (Forall_inv_tail H)].
Qed.

Lemma goals_appended_trans (pid : Id) (n m : nat) (s1 s2 s3 : Store) :
  goals_appended pid n s1 s2 -> goals_appended pid m s2 s3 ->
  goals_appended pid (n + m) s1 s3.
Proof.
  intros [old1 [gs1 [E1 [F1 [L1 P1]]]]] [old2 [gs2 [E2 [F2 [L2 P2]]]]].
  rewrite E1, map_app in F2. apply map_eq_app in F2 as [o [g' [Eo [Fo Fg]]]].
  exists o, (g' ++ gs2). rewrite E2, Eo, <- app_assoc.
  split; [reflexivity |]. split; [congruence |]. split.
  - rewrite length_app, L2, <- L1. f_equal.
    rewrite <- (length_map goal_frame g'), Fg, length_map. reflexivity.
  - apply Forall_app. split; [|exact P2]. apply (@same_frame_same_place pid gs1 g' Fg P1).
Qed.

(** One iteration of the goal loop that ran to its end. *)
Lemma syncGoal_step (pid : Id) (sp : ProjectNode) (r r' : SyncResults) (cg : ClientGoal)
      (w w' : World) :
  syncGoal pid sp r cg w = (Ok r', w') ->
  let new := goals_without_id [cg] in
  projects (db w') = projects (db w) /\
  goals_appended pid (List.length new) (db w) (db w') /\
  n_goals (created r') = (n_goals (created r) + List.length new)%nat /\
  n_projects (created r') = n_projects (created r) /\
  n_projects (updated r') = n_projects (updated r) /\
  (n_tasks (created r) + List.length (flat_map cg_tasks new) <= n_tasks (created r'))%nat.
Proof.
  unfold syncGoal, goals_without_id; simpl.
  destruct (client_id (cg_id cg)) as [gid|]; simpl.
  - destruct (find (fun n => String.eqb (g_id (gn_goal n)) gid) (pn_goals sp)) as [sg|].
    2:{ unfold ret. intros H; inversion H; subst.
        split; [reflexivity |].
        split; [apply goals_appended_zero, goal_frames_kept_refl |]. repeat split; lia. }
    unfold bind at 1.
    match goal with
    | |- context [match ?c w with _ => _ end] => destruct (c w) as [[r1|e] w1] eqn:E1
    end; [|discriminate].
    intros H.
    assert (K1 : projects_kept (db w) (db w1) /\ goal_frames_kept (db w) (db w1) /\
                 counters_kept r r1).
    { destruct (negb (String.eqb (g_name (gn_goal sg)) (cg_name cg))).
      - unfold bind, ret in E1.
        destruct (Prisma.goal_update gid (rename_goal (cg_name cg)) w) as [[g|e] w0] eqn:E0;
          [|discriminate].
        inversion E1; subst r1 w1.
        destruct (@goal_update_keeps gid (rename_goal (cg_name cg))) as [A B];
          [reflexivity |].
        split; [apply (A _ _ _ E0) |]. split; [apply (B _ _ _ E0) |].
        unfold counters_kept; simpl. repeat split; lia.
      - unfold ret in E1. inversion E1; subst.
        split; [reflexivity |]. split; [reflexivity | apply counters_kept_refl]. }
    destruct K1 as [Kp [Kg Kc]].
    assert (K2 : projects_kept (db w1) (db w') /\ goal_frames_kept (db w1) (db w') /\
                 counters_kept r1 r').
    { split; [|split].
      - apply (@preserves_foldM _ projects_kept_refl projects_kept_trans _ _ _
                 (cg_tasks cg) (fun a x _ => proj1 (syncTask_keeps gid sg a x)) r1 _ _ _ H).
      - apply (@preserves_foldM _ goal_frames_kept_refl goal_frames_kept_trans _ _ _
                 (cg_tasks cg) (fun a x _ => proj2 (syncTask_keeps gid sg a x)) r1 _ _ _ H).
      - apply (@foldM_counters _ (syncTask gid sg) (cg_tasks cg)
                 (fun r0 x w0 r0' w0' => @syncTask_counters gid sg r0 r0' x w0 w0') _ _ _ _ H). }
    destruct K2 as [Kp2 [Kg2 Kc2]].
    pose proof (counters_kept_trans Kc Kc2) as [C1 [C2 [C3 C4]]].
    split; [apply (projects_kept_trans Kp Kp2) |].
    split; [apply goals_appended_zero, (goal_frames_kept_trans Kg Kg2) |].
    repeat split; lia.
  - unfold bind, ret.
    destruct (Prisma.goal_create pid (cg_name cg) (map task_data (cg_tasks cg)) w)
      as [[g|e] w1] eqn:E; [|discriminate].
    intros H; inversion H; subst r' w'.
    apply goal_create_ok in E as [ts [Hg Hdb]]. rewrite Hdb; simpl.
    split; [reflexivity |]. split.
    + exists (goals (db w)), [g]. split; [reflexivity |]. split; [reflexivity |].
      split; [reflexivity |]. constructor; [|constructor]. subst g. split; reflexivity.
    + rewrite app_nil_r. repeat split; lia.
Qed.


Lemma goals_without_id_cons (cg : ClientGoal) (cgs : list ClientGoal) :
  goals_without_id (cg :: cgs) = goals_without_id [cg] ++ goals_without_id cgs.
Proof.
  unfold goals_without_id; simpl.
  destruct (is_null (client_id (cg_id cg))); reflexivity.
Qed.

(** The goal loop that ran to its end. *)
Lemma sync_goals_steps (pid : Id) (sp : ProjectNode) (cgs : list ClientGoal) :
  forall (r r' : SyncResults) (w w' : World),
    foldM (syncGoal pid sp) r cgs w = (Ok r', w') ->
    let new := goals_without_id cgs in
    projects (db w') = projects (db w) /\
    goals_appended pid (List.length new) (db w) (db w') /\
    n_goals (created r') = (n_goals (created r) + List.length new)%nat /\
    n_projects (created r') = n_projects (created r) /\
    n_projects (updated r') = n_projects (updated r) /\
    (n_tasks (created r) + List.length (flat_map cg_tasks new) <= n_tasks (created r'))%nat.
Proof.
  induction cgs as [|cg cgs IH]; intros r r' w w' H; cbv zeta.
  - simpl in H. unfold ret in H. inversion H; subst.
    split; [reflexivity |].
    split; [apply goals_appended_zero, goal_frames_kept_refl |]. simpl. repeat split; lia.
  - simpl in H. unfold bind in H.
    destruct (syncGoal pid sp r cg w) as [[r1|e] w1] eqn:E; [|discriminate].
    apply syncGoal_step in E. apply IH in H. cbv zeta in E, H.
    destruct E as [A1 [A2 [A3 [A4 [A5 A6]]]]]. destruct H as [B1 [B2 [B3 [B4 [B5 B6]]]]].
    rewrite goals_without_id_cons, flat_map_app, !length_app.
    split; [congruence |].
    split; [apply (goals_appended_trans A2 B2) |].
    repeat split; lia.
Qed.

Lemma find_map_key {A : Type} (key : A -> Id) (F : A -> A) (i : Id) (l : list A) :
  (forall a, key (F a) = key a) ->
  find (fun a => String.eqb (key a) i) (map F l)
  = option_map F (find (fun a => String.eqb (key a) i) l).
Proof.
  intros HF. induction l as [|a l IH]; simpl; [reflexivity |].
  rewrite HF. destruct (String.eqb (key a) i); [reflexivity | exact IH].
Qed.

(** What the iteration for a client project does to the project it
    finds: the row carries the client's name afterwards, and the
    rename is counted when the names differed. *)
Lemma sync_rename_step (r r1 : SyncResults) (cp : ClientProject) (p : Project)
      (w w1 : World) :
  budget w = None ->
  Prisma.project_findUnique (db w) (p_id p) = Some p ->
  (if negb (String.eqb (p_name p) (cp_name cp))
   then Prisma.project_update (p_id p) (rename_project (cp_name cp)) ;;;
        ret (add_updated 1 0 0 r)
   else ret r) w = (Ok r1, w1) ->
  budget w1 = None /\
  (exists p1,
      Prisma.project_findUnique (db w1) (p_id p) = Some p1 /\
      p_name p1 = cp_name cp /\ p_deletedAt p1 = p_deletedAt p /\
      p_createdAt p1 = p_createdAt p) /\
  map project_frame (projects (db w1)) = map project_frame (projects (db w)) /\
  goals (db w1) = goals (db w) /\ tasks (db w1) = tasks (db w) /\
  created r1 = created r /\
  n_projects (updated r1)
  = (n_projects (updated r) + if String.eqb (p_name p) (cp_name cp) then 0 else 1)%nat /\
  n_goals (updated r1) = n_goals (updated r) /\
  n_tasks (updated r1) = n_tasks (updated r) /\
  conflicts r1 = conflicts r.
Proof.
  intros Hb Hfind. destruct (String.eqb (p_name p) (cp_name cp)) eqn:En; simpl.
  - unfold ret. intros H; inversion H; subst r1 w1.
    split; [exact Hb |]. split.
    { exists p. split; [exact Hfind |]. apply String.eqb_eq in En. auto. }
    repeat split; lia.
  - assert (Hin : In (p_id p) (map p_id (projects (db w)))).
    { apply find_some in Hfind as [Hin _]. apply in_map, Hin. }
    destruct (@project_update_healthy (p_id p) (rename_project (cp_name cp)) w Hb Hin)
      as [p' [w0 [Hrun [Hb0 Hdb]]]].
    unfold bind, ret. rewrite Hrun. intros H; inversion H; subst r1 w1.
    rewrite Hdb. simpl.
    split; [exact Hb0 |]. split.
    { exists (Prisma.touch_project (clock w (reads w)) (rename_project (cp_name cp) p)).
      unfold Prisma.project_findUnique in *; simpl.
      rewrite (@find_map_key _ p_id
                 (fun q => if String.eqb (p_id q) (p_id p)
                           then Prisma.touch_project (clock w (reads w))
                                  (rename_project (cp_name cp) q)
                           else q)).
      - rewrite Hfind. simpl. rewrite String.eqb_refl. repeat split.
      - intros q. destruct (String.eqb (p_id q) (p_id p)); reflexivity. }
    split; [apply map_frame_update; reflexivity |].
    repeat split; lia.
Qed.

(** The goal loop when no nested goal with an id matches a goal of the
    snapshot: those goals are passed over, the ones without an id are
    created with their tasks. *)
Lemma sync_goals_unmatched (pid : Id) (sp : ProjectNode) (cgs : list ClientGoal) :
  Forall (fun cg => forall gid, client_id (cg_id cg) = Some gid ->
                    find (fun n => String.eqb (g_id (gn_goal n)) gid) (pn_goals sp) = None)
         cgs ->
  forall (r : SyncResults) (w : World),
    budget w = None ->
    Prisma.project_findUnique (db w) pid <> None ->
    exists gs ts w',
      foldM (syncGoal pid sp) r cgs w
      = (Ok (add_created 0 (List.length gs) (List.length ts) r), w') /\
      projects (db w') = projects (db w) /\
      goals (db w') = goals (db w) ++ gs /\
      tasks (db w') = tasks (db w) ++ ts /\
      goals_reflect pid (goals_without_id cgs) gs ts.
Proof.
  induction 1 as [|cg cgs Hcg _ IH]; intros r w Hb Hp.
  - exists [], [], w. simpl. rewrite add_created_zero, !app_nil_r.
    repeat split; constructor.
  - rewrite goals_without_id_cons. unfold goals_without_id at 1. simpl.
    destruct (client_id (cg_id cg)) as [gid|] eqn:Hid; simpl.
    + destruct (IH r w Hb Hp) as [gs [ts [w' [Hrun H]]]].
      exists gs, ts, w'. unfold bind at 1. unfold syncGoal at 1.
      rewrite Hid, (Hcg gid eq_refl). unfold ret at 1. split; [exact Hrun | exact H].
    + destruct w as [s clk rd gen iss b]. simpl in Hb, Hp. subst b.
      unfold bind at 1. unfold syncGoal at 1. rewrite Hid.
      unfold Prisma.goal_create, bind, write, getStore; simpl.
      destruct (Prisma.project_findUnique s pid) as [p|] eqn:E; [|congruence].
      unfold newDate, reserveIds, ret; simpl.
      match goal with
      | |- context [foldM _ ?r1 cgs ?w1] =>
          destruct (IH r1 w1 eq_refl) as [gs [ts [w' [Hrun [Hps [Hgs [Hts Hrf]]]]]]]
      end.
      { simpl. unfold Prisma.project_findUnique in *. simpl. rewrite E. discriminate. }
      simpl in Hps, Hgs, Hts.
      eexists (_ :: gs), (_ ++ ts), w'. rewrite Hrun, add_created_twice.
      split; [|split; [exact Hps | split; [|split]]].
      * simpl. rewrite length_app.
        pose proof (build_tasks_reflect gen (gen iss) (clk rd) (cg_tasks cg) (S iss)) as Hl.
        apply Forall2_length in Hl. rewrite <- Hl. reflexivity.
      * rewrite Hgs, <- app_assoc. reflexivity.
      * rewrite Hts, <- app_assoc. reflexivity.
      * constructor; try reflexivity; [apply build_tasks_reflect | exact Hrf].
Qed.


(** C10.  When the loop of POST /api/sync reaches a client project
    whose id is that of a soft-deleted project, the project counts as
    found: the lookup is by id alone.  Against a database that accepts
    writes the iteration succeeds; the project row carries the client's
    name afterwards (the rename is counted in [updated.projects] when
    the names differed) and is still soft-deleted, no project is
    created, and every nested client goal without an id becomes a new,
    non-deleted goal row under the soft-deleted project, counted in
    [created.goals], its tasks counted in [created.tasks].  When no
    nested goal with an id matches a non-deleted goal of the project,
    those are passed over and the new rows are exactly the goals
    without an id and their tasks, with the client's fields.  The
    request goes on from that store with those counters, and whatever
    it does next the rows of that store stay in place. *)
Theorem sync_accepts_soft_deleted_project
        (before after : list ClientProject) (cp : ClientProject) (l : option Timestamp)
        (w w1 : World) (r1 : SyncResults) (p : Project) :
  foldM syncProject no_results before w = (Ok r1, w1) ->
  client_id (cp_id cp) = Some (p_id p) ->
  Prisma.project_findUnique (db w1) (p_id p) = Some p ->
  p_deletedAt p <> None ->
  budget w1 = None ->
  let new := goals_without_id (cp_goals cp) in
  exists r2 w2 p2,
    syncData (before ++ cp :: after) l w = sync_from r2 after w2 /\
    Prisma.project_findUnique (db w2) (p_id p) = Some p2 /\
    p_name p2 = cp_name cp /\
    p_deletedAt p2 = p_deletedAt p /\
    p_createdAt p2 = p_createdAt p /\
    map project_frame (projects (db w2)) = map project_frame (projects (db w1)) /\
    n_projects (updated r2)
    = (n_projects (updated r1) + if String.eqb (p_name p) (cp_name cp) then 0 else 1)%nat /\
    n_projects (created r2) = n_projects (created r1) /\
    goals_appended (p_id p) (List.length new) (db w1) (db w2) /\
    n_goals (created r2) = (n_goals (created r1) + List.length new)%nat /\
    (n_tasks (created r1) + List.length (flat_map cg_tasks new) <= n_tasks (created r2))%nat /\
    (List.length (tasks (db w2)) + n_tasks (created r1)
     = List.length (tasks (db w1)) + n_tasks (created r2))%nat /\
    ((forall cg gid g,
         In cg (cp_goals cp) -> client_id (cg_id cg) = Some gid ->
         In g (goals (db w1)) -> g_projectId g = p_id p -> g_deletedAt g = None ->
         g_id g <> gid) ->
     exists gs ts,
       goals (db w2) = goals (db w1) ++ gs /\
       tasks (db w2) = tasks (db w1) ++ ts /\
       goals_reflect (p_id p) new gs ts /\
       n_tasks (created r2) = (n_tasks (created r1) + List.length ts)%nat /\
       n_goals (updated r2) = n_goals (updated r1) /\
       n_tasks (updated r2) = n_tasks (updated r1)) /\
    (forall out w',
        syncData (before ++ cp :: after) l w = (out, w') -> grown (db w2) (db w')).
Proof.
  intros Hrun Hid Hfind Hdel Hb new.
  destruct (@syncProject_healthy r1 cp w1 Hb) as [r2 [w2 [Hstep [Hb2 Htal]]]].
  assert (Hgo : syncData (before ++ cp :: after) l w = sync_from r2 after w2).
  { rewrite syncData_from, (@sync_from_app before (cp :: after) no_results r1 w w1 Hrun).
    apply sync_from_cons, Hstep. }
  pose proof Hstep as Hloop. unfold syncProject in Hloop. rewrite Hid in Hloop.
  unfold bind at 1, getStore at 1 in Hloop. rewrite Hfind in Hloop.
  unfold bind at 1 in Hloop.
  match type of Hloop with
  | context [match ?c w1 with _ => _ end] => destruct (c w1) as [[r1'|e] w1'] eqn:E1
  end; [|discriminate].
  destruct (@sync_rename_step r1 r1' cp p w1 w1' Hb Hfind E1)
    as [Hb1 [[p2 [Hf2 [Hn2 [Hd2 Hc2]]]] [Hpf [Hg1 [Ht1 [Hcr [Hup [Hug [Hut _]]]]]]]]].
  pose proof (@sync_goals_steps _ _ _ _ _ _ _ Hloop) as Hsteps. cbv zeta in Hsteps.
  fold new in Hsteps. destruct Hsteps as [Sp [Sg [Cg [Cp [Up Ct]]]]].
  exists r2, w2, p2.
  split; [exact Hgo |].
  split; [unfold Prisma.project_findUnique in *; rewrite Sp; exact Hf2 |].
  split; [exact Hn2 |]. split; [exact Hd2 |]. split; [exact Hc2 |].
  split; [rewrite Sp; exact Hpf |].
  split; [rewrite Up; exact Hup |].
  split; [rewrite Cp, Hcr; reflexivity |].
  split.
  { destruct Sg as [old [gs [A [B [C D]]]]]. exists old, gs. rewrite <- Hg1. auto. }
  split; [rewrite Cg, Hcr; reflexivity |].
  split; [rewrite <- Hcr; exact Ct |].
  split; [destruct Htal as [_ [_ [T _]]]; lia |].
  split.
  - intros Hun.
    destruct (@sync_goals_unmatched (p_id p) (include_tree (db w1) p) (cp_goals cp))
      with (r := r1') (w := w1') as [gs [ts [w' [Hrun' [_ [Hgs [Hts Hrf]]]]]]].
    + apply Forall_forall. intros cg Hcg gid Hgid. apply find_absent.
      intros n Hn. simpl in Hn. apply in_map_iff in Hn as [g [<- Hg]]. simpl.
      unfold live_goals_of in Hg. apply filter_In in Hg as [Hg Hsel].
      apply andb_true_iff in Hsel as [Hpid Hlive].
      apply String.eqb_eq in Hpid. apply is_null_true in Hlive.
      apply String.eqb_neq. apply (Hun cg gid g Hcg Hgid Hg Hpid Hlive).
    + exact Hb1.
    + rewrite Hf2. discriminate.
    + rewrite Hrun' in Hloop. inversion Hloop; subst r2 w2.
      exists gs, ts. rewrite Hgs, Hts, Hg1, Ht1. simpl.
      split; [reflexivity |]. split; [reflexivity |]. split; [exact Hrf |].
      rewrite Hcr, Hug, Hut. repeat split.
  - intros out w' H. rewrite Hgo in H. exact (@sync_from_grown r2 after w2 out w' H).
Qed.


Lemma sync_creates_subtree_without_id_witness :
  let w := Demo.world Demo.small_store Demo.ticking None in
  exists resp w' p gs ts,
    syncData [Demo.client_P; Demo.fresh_P] None w = (Ok resp, w') /\
    created (syncResults resp) = mkCounts 1 2 2 /\
    List.length (projects (db w')) = 2%nat /\
    In p (projects (db w')) /\ p_name p = "New"%string /\
    goals_reflect (p_id p) (cp_goals Demo.fresh_P) gs ts /\
    incl gs (goals (db w')) /\ incl ts (tasks (db w')).
Proof.
  intros w.
  assert (Hrun : exists r1 w1,
             foldM syncProject no_results [Demo.client_P] w = (Ok r1, w1) /\
             created r1 = mkCounts 0 0 0 /\ budget w1 = None /\
             List.length (projects (db w1)) = 1%nat).
  { do 2 eexists. split; [vm_compute; reflexivity |]. repeat split. }
  destruct Hrun as [r1 [w1 [Hrun [Hc [Hb Hl]]]]].
  assert (Hb' : budget w1 <> Some O) by (rewrite Hb; discriminate).
  destruct (@sync_creates_subtree_without_id [Demo.client_P] [] Demo.fresh_P None
              w w1 r1 eq_refl Hrun Hb')
    as [p [gs [ts [r2 [w2 [Hdb [Hn [_ [Hr [_ [_ [C1 [C2 [C3 [_ [_ [Hgo _]]]]]]]]]]]]]]]]].
  rewrite sync_from_nil in Hgo.
  exists (mkSyncResponse r2 (full_hierarchy (db w2)) (clock w2 (reads w2))).
  eexists. exists p, gs, ts. split; [exact Hgo |]. simpl.
  rewrite Hc in C1, C2, C3. simpl in C1, C2, C3.
  split; [destruct (created r2); simpl in *; congruence |].
  rewrite Hdb; simpl. rewrite length_app, Hl.
  split; [reflexivity |].
  split; [apply in_or_app; right; left; reflexivity |].
  split; [exact Hn |]. split; [exact Hr |].
  split; intros x Hx; apply in_or_app; right; exact Hx.
Defined.

Lemma sync_accepts_soft_deleted_project_witness :
  let w := Demo.world Demo.deleted_store Demo.ticking None in
  let cp := mkClientProject (Some "p1"%string) "Revived"
              [mkClientGoal (Some "g1"%string) "G" [Demo.client_T];
               mkClientGoal None "Gn" [Demo.fresh_T]] in
  exists resp w' p2 gs ts,
    syncData [cp] None w = (Ok resp, w') /\
    Prisma.project_findUnique (db w') "p1" = Some p2 /\
    p_name p2 = "Revived"%string /\ p_deletedAt p2 = Some 50 /\
    goals (db w') = goals Demo.deleted_store ++ gs /\
    tasks (db w') = tasks Demo.deleted_store ++ ts /\
    goals_reflect "p1" [mkClientGoal None "Gn" [Demo.fresh_T]] gs ts /\
    n_projects (updated (syncResults resp)) = 1%nat /\
    n_projects (created (syncResults resp)) = 0%nat /\
    n_goals (created (syncResults resp)) = 1%nat.
Proof.
  intros w cp.
  destruct (@sync_accepts_soft_deleted_project [] [] cp None w w no_results
              (mkProject "p1" "P" 10 50 (Some 50)))
    as [r2 [w2 [p2 [Hgo [Hf [Hn [Hd [_ [_ [Hu [Hc [_ [Hg [_ [_ [Hex _]]]]]]]]]]]]]]]];
    try reflexivity; [discriminate |].
  destruct Hex as [gs [ts [Hgs [Hts [Hr _]]]]].
  { intros cg gid g _ _ Hin _ Hlive. simpl in Hin. destruct Hin as [<- | []].
    discriminate. }
  simpl in Hgo. rewrite sync_from_nil in Hgo.
  exists (mkSyncResponse r2 (full_hierarchy (db w2)) (clock w2 (reads w2))).
  eexists. exists p2, gs, ts. split; [exact Hgo |]. simpl.
  split; [exact Hf |]. split; [exact Hn |]. split; [exact Hd |].
  split; [exact Hgs |]. split; [exact Hts |]. split; [exact Hr |].
  split; [exact Hu |]. split; [exact Hc | exact Hg].
Defined.


(* ================================================================== *)
(** ** What two listings have in common *)
(* ================================================================== *)

Lemma Permutation_flat_map_pointwise {A B : Type} (f g : A -> list B) (l : list A) :
  (forall a, Permutation (f a) (g a)) -> Permutation (flat_map f l) (flat_map g l).
Proof.
  intros H. induction l as [|a l IH]; simpl; [constructor |].
  apply Permutation_app; [apply H | exact IH].
Qed.

Lemma map_of_flat_map {A B C : Type} (f : B -> C) (g : A -> list B) (l : list A) :
  map f (flat_map g l) = flat_map (fun a => map f (g a)) l.
Proof. induction l as [|a l IH]; simpl; [|rewrite map_app, IH]; reflexivity. Qed.

Lemma flat_map_of_map {A B C : Type} (f : B -> list C) (g : A -> B) (l : list A) :
  flat_map f (map g l) = flat_map (fun a => f (g a)) l.
Proof. induction l as [|a l IH]; simpl; [|rewrite IH]; reflexivity. Qed.

Lemma listed_projects_perm (s : Store) :
  Permutation (listed_projects (full_hierarchy s)) (live_projects s).
Proof.
  unfold listed_projects, full_hierarchy. rewrite map_map; simpl. rewrite map_id.
  apply Permutation_sym, orderBy_perm.
Qed.

Lemma listed_goals_perm (s : Store) :
  Permutation (listed_goals (full_hierarchy s)) (nested_goals s).
Proof.
  unfold listed_goals, nested_goals, full_hierarchy. rewrite flat_map_of_map.
  eapply Permutation_trans.
  - apply Permutation_flat_map. apply Permutation_sym, orderBy_perm.
  - apply Permutation_flat_map_pointwise. intros p. simpl.
    rewrite map_map; simpl. rewrite map_id. apply Permutation_sym, orderBy_perm.
Qed.

Lemma listed_tasks_perm (s : Store) :
  Permutation (listed_tasks (full_hierarchy s)) (nested_tasks s).
Proof.
  unfold listed_tasks, nested_tasks, full_hierarchy. rewrite flat_map_of_map.
  eapply Permutation_trans.
  - apply Permutation_flat_map. apply Permutation_sym, orderBy_perm.
  - apply Permutation_flat_map_pointwise. intros p. simpl.
    rewrite flat_map_of_map; simpl.
    eapply Permutation_trans.
    + apply Permutation_flat_map. apply Permutation_sym, orderBy_perm.
    + apply Permutation_flat_map_pointwise. intros g.
      apply Permutation_sym, orderBy_perm.
Qed.

Lemma live_projects_forget (s : Store) :
  live_projects (forget_store s) = map forget_project (live_projects s).
Proof. unfold live_projects, forget_store; simpl. apply filter_map_swap. Qed.

Lemma nested_goals_forget (s : Store) :
  nested_goals (forget_store s) = map forget_goal (nested_goals s).
Proof.
  unfold nested_goals. rewrite live_projects_forget, flat_map_of_map, map_of_flat_map.
  apply flat_map_ext. intros p. simpl. apply live_goals_forget.
Qed.

Lemma nested_tasks_forget (s : Store) :
  nested_tasks (forget_store s) = map forget_task (nested_tasks s).
Proof.
  unfold nested_tasks. rewrite live_projects_forget, flat_map_of_map, map_of_flat_map.
  apply flat_map_ext. intros p. simpl.
  rewrite live_goals_forget, flat_map_of_map, map_of_flat_map.
  apply flat_map_ext. intros g. simpl. apply live_tasks_forget.
Qed.

(** Stores that agree up to [updatedAt] are listed with the same rows
    up to [updatedAt], whatever the order of rows that tie. *)
Lemma same_rows_of_same_store (s s' : Store) :
  forget_store s' = forget_store s ->
  same_rows_listed (full_hierarchy s') (full_hierarchy s).
Proof.
  intros E. split; [|split].
  - eapply Permutation_trans; [apply Permutation_map, listed_projects_perm |].
    rewrite <- live_projects_forget, E, live_projects_forget.
    apply Permutation_map, Permutation_sym, listed_projects_perm.
  - eapply Permutation_trans; [apply Permutation_map, listed_goals_perm |].
    rewrite <- nested_goals_forget, E, nested_goals_forget.
    apply Permutation_map, Permutation_sym, listed_goals_perm.
  - eapply Permutation_trans; [apply Permutation_map, listed_tasks_perm |].
    rewrite <- nested_tasks_forget, E, nested_tasks_forget.
    apply Permutation_map, Permutation_sym, listed_tasks_perm.
Qed.

(** C3 (as amended).  Let every project, goal and task of a snapshot
    carry the id of a server row where the reconciler looks for it, no
    id occurring twice, on a store with unique keys and a database that
    accepts writes.  Submitting the snapshot twice succeeds both
    times; after the first call the store holds the snapshot's values;
    the second call changes nothing but [updatedAt], so its
    [serverState], like that of the first call the complete hierarchy
    of the non-deleted rows, lists the same projects, goals and tasks
    as the first up to [updatedAt] (the order of rows that tie on every
    sort key is left open); it counts no created entity, no updated
    project and no updated goal, and as many updated tasks as the first
    call, namely every task of the snapshot, whether or not their
    content differed. *)
Theorem resync_changes_only_updatedAt
        (cps : list ClientProject) (l1 l2 : option Timestamp) (w0 : World) :
  budget w0 = None ->
  unique_keys (db w0) ->
  snapshot_matched (db w0) cps ->
  distinct_ids cps ->
  exists resp1 w1 resp2 w2,
    syncData cps l1 w0 = (Ok resp1, w1) /\
    syncData cps l2 w1 = (Ok resp2, w2) /\
    in_sync cps (db w1) /\
    forget_store (db w2) = forget_store (db w1) /\
    complete_live_hierarchy (db w1) (serverState resp1) /\
    complete_live_hierarchy (db w2) (serverState resp2) /\
    same_rows_listed (serverState resp2) (serverState resp1) /\
    created (syncResults resp1) = mkCounts 0 0 0 /\
    created (syncResults resp2) = mkCounts 0 0 0 /\
    n_tasks (updated (syncResults resp1)) = List.length (all_tasks cps) /\
    updated (syncResults resp2) = mkCounts 0 0 (List.length (all_tasks cps)).
Proof.
  intros Hb Hu Hm Hd.
  destruct (@sync_projects_run cps Hd no_results w0 Hb Hu Hm)
    as [a1 [b1 [w1 [Hrun1 [Hb1 [Hm1 _]]]]]].
  pose proof (merged_same_shape Hm1) as Hshape.
  pose proof (merged_in_sync Hm1) as Hsync.
  set (w1' := mkWorld (db w1) (clock w1) (S (reads w1)) (cuid w1) (issued w1) (budget w1)).
  destruct (@sync_projects_run cps Hd no_results w1' Hb1
              (same_shape_unique_keys Hshape Hu) (same_shape_matched Hshape Hm))
    as [a2 [b2 [w2 [Hrun2 [Hb2 [Hm2 Hz]]]]]].
  destruct (Hz Hsync) as [-> ->].
  pose proof (@merged_in_sync_forget cps (db w1) (db w2) Hsync Hm2) as Hforget.
  do 4 eexists.
  split; [apply (@syncData_run cps l1 _ _ _ Hrun1) |].
  split; [apply (@syncData_run cps l2 _ _ _ Hrun2) |].
  simpl. split; [exact Hsync |]. split; [exact Hforget |].
  split; [apply full_hierarchy_complete |].
  split; [apply full_hierarchy_complete |].
  split; [apply same_rows_of_same_store, Hforget |].
  repeat split.
Qed.

Lemma resync_changes_only_updatedAt_witness :
  let w0 := Demo.world Demo.small_store Demo.ticking None in
  exists resp1 w1 resp2 w2,
    syncData [Demo.client_P] None w0 = (Ok resp1, w1) /\
    syncData [Demo.client_P] None w1 = (Ok resp2, w2) /\
    forget_store (db w2) = forget_store (db w1) /\
    same_rows_listed (serverState resp2) (serverState resp1) /\
    updated (syncResults resp2) = mkCounts 0 0 1.
Proof.
  intros w0.
  destruct (@resync_changes_only_updatedAt [Demo.client_P] None None w0)
    as [resp1 [w1 [resp2 [w2 [H1 [H2 [_ [H3 [_ [_ [H4 [_ [_ [_ H5]]]]]]]]]]]]]].
  - reflexivity.
  - unfold unique_keys; simpl. repeat split; repeat constructor; simpl; tauto.
  - constructor; [|constructor].
    exists Demo.project_P. split; [reflexivity |]. split; [left; reflexivity |].
    constructor; [|constructor].
    exists Demo.goal_G. repeat split; try (left; reflexivity).
    constructor; [|constructor].
    exists Demo.task_T. repeat split. left; reflexivity.
  - unfold distinct_ids; simpl. repeat split; repeat constructor; simpl; tauto.
  - exists resp1, w1, resp2, w2.
    split; [exact H1 |]. split; [exact H2 |]. split; [exact H3 |].
    split; [exact H4 | exact H5].
Defined.
